(** * YieldSense: the price monitor, its configuration channel, its alert
    dispatcher and the dashboard's reconnecting socket client

    A shallow embedding of
      - monitoring/PriceMonitor.ts      (PriceMonitor.start, checkPrice,
                                         sendTelegramAlert),
      - monitoring/FirebaseManager.ts   (logAlert, listenToConfig),
      - whirlpool-dashboard/src/hooks/useWebSocket.ts (the reconnect logic),
    and the properties the specification states about them.

    Conventions of the embedding:
      - a JavaScript [number] is an IEEE-754 binary64 value: Rocq's primitive
        [float]; [<], [>] and [===] on numbers are [PrimFloat.ltb] and
        [PrimFloat.eqb] (so NaN compares false with everything and
        [-0 === 0]);
      - a decimal.js [Decimal] is a rational ([Q]);
      - a template literal is kept as the list of its pieces ([Text]): the
        literal chunks and the interpolated values with the formatting applied
        to them ([toFixed(6)], the default number printing, the clock);
      - side effects ([console.log], [console.error], the RPC queries, the
        HTTP request, the Firestore write) are events of a trace; a
        JavaScript exception is the [Throw] completion of a computation;
      - what the outside world answers (the pool oracle, the Telegram
        endpoint, Firestore) is an explicit argument;
      - an [async] function is first given as a whole, for a run in which
        nothing else happens while it waits ([PriceMonitor],
        [StakingService]); where other code can run at its awaits and change
        what it reads, it is given again cut at the awaits ([Async],
        [StakingCalls]), and the two are proved to agree when nothing
        changes; likewise the hook is followed under one render
        ([UseWebSocket]) and across renders ([Hook]). *)

From Stdlib Require Import ZArith QArith List String Ascii Bool Lia Permutation.
From Stdlib Require Import Floats.
Import ListNotations.

Local Close Scope Q_scope.
Local Open Scope string_scope.
Local Open Scope list_scope.

(** ** JavaScript numbers *)

Module JS.

Definition number := float.

(** [a < b] *)
Definition lt (a b : number) : bool := PrimFloat.ltb a b.
(** [a > b], which JavaScript evaluates as [b < a] *)
Definition gt (a b : number) : bool := PrimFloat.ltb b a.
(** [a <= b] *)
Definition le (a b : number) : bool := PrimFloat.leb a b.
(** [a === b] on two numbers *)
Definition seq (a b : number) : bool := PrimFloat.eqb a b.

Definition zero : number := 0%float.

(** [s.startsWith(p)] *)
Definition startsWith (s p : string) : bool := String.prefix p s.

(** [s.includes(sub)]: [sub] occurs in [s] at some position. *)
Fixpoint includes (s sub : string) : bool :=
  String.prefix sub s ||
  match s with
  | EmptyString => false
  | String _ rest => includes rest sub
  end.

(** Truthiness of a string: every string but the empty one. *)
Definition truthy (s : string) : bool :=
  match s with
  | EmptyString => false
  | String _ _ => true
  end.

(** [a !== b] on two strings *)
Definition sne (a b : string) : bool := negb (String.eqb a b).

(** [x ?? d] on an optional value *)
Definition nullish {A : Type} (x : option A) (d : A) : A :=
  match x with
  | Some v => v
  | None => d
  end.

End JS.

(** ** Effects: traces and completions *)

(** A thrown JavaScript value; the code only ever throws and logs [Error]s. *)
Inductive Exn : Type :=
| Error (msg : string).

(** What [FirebaseManager.listenToConfig] hands to its callback: the
    interface [MonitorConfig], every field optional ([None] is
    [undefined]). *)
Record MonitorConfig : Type := mkMonitorConfig {
  mc_priceLowerBound : option JS.number;
  mc_priceUpperBound : option JS.number;
  mc_poolAddress : option string
}.

(** The pieces of a template literal or of the argument list of a console
    call. *)
Inductive Piece : Type :=
| Str (s : string)          (* a literal chunk or an interpolated string *)
| Num (x : JS.number)       (* [${x}] for a number *)
| Fixed6 (x : JS.number)    (* [${x.toFixed(6)}] *)
| Int (z : Z)               (* [${response.status}] *)
| Flag (b : bool)           (* [${doc.exists}] *)
| NowISO                    (* [${new Date().toISOString()}] *)
| Thrown (e : Exn)          (* a caught error passed to the console *)
| Data (c : MonitorConfig). (* a document passed to the console *)

Definition Text : Type := list Piece.

Definition LF : string := String (ascii_of_nat 10) EmptyString.

(** [telegramStatus] of an alert record. *)
Inductive TelegramStatus : Type := success | failed.

(** The object literal [sendTelegramAlert] passes to [logAlert]
    (PriceMonitor.ts, lines 175-182). [logAlert] stores it with a server-side
    [timestamp] field added. *)
Record AlertRecord : Type := mkAlertRecord {
  ar_poolAddress : string;
  ar_price : JS.number;
  ar_lowerBound : JS.number;
  ar_upperBound : JS.number;
  ar_message : Text;
  ar_telegramStatus : TelegramStatus
}.

Inductive Event : Type :=
| ConsoleLog (t : Text)
| ConsoleWarn (t : Text)
| ConsoleError (t : Text)
| ClientGetPool (address : string)    (* [this.client.getPool(poolAddress)] *)
| FetcherGetPool (address : string)   (* [this.ctx.fetcher.getPool(poolAddress, IGNORE_CACHE)] *)
| HttpPost (url : string) (chat_id : string) (text : Text)   (* [fetch(url, {method: "POST", ...})] *)
| FirestoreAdd (record : AlertRecord) (* [db.collection('alerts').add({...alertData, timestamp})] *)
| OnSnapshot                          (* [configRef.onSnapshot(...)]: the listener is registered *)
| SetInterval (ms : JS.number)        (* [setInterval(() => this.checkPrice(), ms)] *)
| SendTelegramAlert (price : JS.number) (isTest : bool).
                                      (* entry of [sendTelegramAlert]: marks each invocation *)

Definition Trace : Type := list Event.

(** How a computation ends. [Throw] is an exception (or the rejection of an
    awaited promise), which a surrounding [try] catches. [Unhandled] is the
    rejection of a promise nobody awaits: no [try] catches it, and it ends the
    process. *)
Inductive Completion (A : Type) : Type :=
| Normal (a : A)
| Throw (e : Exn)
| Unhandled (e : Exn).

Arguments Normal {A} a.
Arguments Throw {A} e.
Arguments Unhandled {A} e.

Definition Eff (A : Type) : Type := (Trace * Completion A)%type.

Definition ret {A : Type} (a : A) : Eff A := ([], Normal a).

Definition bind {A B : Type} (m : Eff A) (f : A -> Eff B) : Eff B :=
  match m with
  | (t, Normal a) => let (t', r) := f a in (t ++ t', r)
  | (t, Throw e) => (t, Throw e)
  | (t, Unhandled e) => (t, Unhandled e)
  end.

Notation "x <- m ;; k" := (bind m (fun x => k))
  (at level 61, m at next level, right associativity).
Notation "m ;; k" := (bind m (fun _ => k))
  (at level 61, right associativity).

Definition emit (e : Event) : Eff unit := ([e], Normal tt).

Definition throw {A : Type} (e : Exn) : Eff A := ([], Throw e).

(** [try { body } catch (error) { handler }] *)
Definition try_catch {A : Type} (body : Eff A) (handler : Exn -> Eff A) : Eff A :=
  match body with
  | (t, Throw e) => let (t', r) := handler e in (t ++ t', r)
  | other => other
  end.

(** A call of an [async] function whose promise is dropped (no [await], no
    [.catch]): its effects happen, its rejection is nobody's to catch. *)
Definition detach (m : Eff unit) : Eff unit :=
  match m with
  | (t, Throw e) => (t, Unhandled e)
  | other => other
  end.

(** The outcome of awaiting a call into the outside world. *)
Inductive Settled (A : Type) : Type :=
| Resolves (a : A)
| Rejects (e : Exn).

Arguments Resolves {A} a.
Arguments Rejects {A} e.

Definition await {A : Type} (r : Settled A) : Eff A :=
  match r with
  | Resolves a => ret a
  | Rejects e => throw e
  end.

Definition trace_of {A : Type} (m : Eff A) : Trace := fst m.
Definition completion_of {A : Type} (m : Eff A) : Completion A := snd m.

Definition returns_normally {A : Type} (m : Eff A) : Prop :=
  exists a, completion_of m = Normal a.

(** ** monitoring/FirebaseManager.ts *)

Module FirebaseManager.

(** The two private fields; [true] stands for a live handle, [false] for
    [null]. *)
Record t : Type := mk {
  db : bool;
  configRef : bool
}.

(** What [init] finds at [config/serviceAccountKey.json]. *)
Inductive KeyFile : Type :=
| NoKeyFile                 (* [fs.existsSync] is false *)
| BadKeyFile (e : Exn)      (* reading, parsing or [initializeApp] throws *)
| GoodKeyFile.

(** [constructor() { this.init(); }] *)
Definition init (k : KeyFile) : Eff t :=
  match k with
  | GoodKeyFile =>
      emit (ConsoleLog [Str "Firebase initialized successfully."]) ;;
      ret (mk true true)
  | NoKeyFile =>
      emit (ConsoleWarn [Str "⚠️ Firebase serviceAccountKey.json not found in monitoring/config/. Firebase features will be disabled."]) ;;
      ret (mk false false)
  | BadKeyFile e =>
      emit (ConsoleError [Str "Error initializing Firebase:"; Thrown e]) ;;
      ret (mk false false)
  end.

(** [public async logAlert(alertData)]; [add] is what Firestore answers to
    [db.collection('alerts').add(...)]. *)
Definition logAlert (this : t) (add : AlertRecord -> Settled unit)
    (alertData : AlertRecord) : Eff unit :=
  if negb (db this) then ret tt
  else
    try_catch
      (emit (FirestoreAdd alertData) ;;
       await (add alertData) ;;
       emit (ConsoleLog [Str "Alert logged to Firestore."]))
      (fun error =>
         emit (ConsoleError [Str "Error logging alert to Firestore:"; Thrown error])).

(** [public listenToConfig(callback)]: whether a listener gets registered. *)
Definition listenToConfig (this : t) : Eff bool :=
  if negb (db this) || negb (configRef this) then ret false
  else emit OnSnapshot ;; ret true.

(** A notification of the registered listener: a document snapshot ([data]
    is [None] when [doc.exists] is false) or a listen error. *)
Inductive Notification : Type :=
| DocSnapshot (id : string) (data : option MonitorConfig)
| ListenError (e : Exn).

(** The two handlers [listenToConfig] passes to [onSnapshot]; [callback]
    updates the state [S] of whoever listens. *)
Definition onSnapshot {S : Type} (callback : MonitorConfig -> S -> Eff S)
    (n : Notification) (st : S) : Eff S :=
  match n with
  | DocSnapshot id doc =>
      emit (ConsoleLog [Str "[Firebase] Snapshot received. Exists: ";
                        Flag (match doc with Some _ => true | None => false end); Str ", ID: "; Str id]) ;;
      match doc with
      | Some data =>
          emit (ConsoleLog [Str "Received config update from Firebase:"; Data data]) ;;
          callback data st
      | None =>
          emit (ConsoleLog [Str "[Firebase] config/monitor_settings document does not exist yet."]) ;;
          ret st
      end
  | ListenError e =>
      emit (ConsoleError [Str "Error listening to config updates:"; Thrown e]) ;;
      ret st
  end.

End FirebaseManager.

(** ** monitoring/PriceMonitor.ts *)

Module PriceMonitor.

(** A decimal.js value. *)
Definition Decimal : Type := Q.

(** The functions of [@orca-so/whirlpools-sdk] and decimal.js the monitor
    calls; they are not part of this repository. *)
Record Sdk : Type := mkSdk {
  sqrtPriceX64ToPrice : Z -> nat -> nat -> Decimal;   (* [PriceMath.sqrtPriceX64ToPrice] *)
  invertPrice : Decimal -> nat -> nat -> Decimal;     (* [PriceMath.invertPrice] *)
  toNumber : Decimal -> JS.number                     (* [Decimal.prototype.toNumber] *)
}.

Record PriceMonitorConfig : Type := mkConfig {
  rpcUrl : string;
  poolAddress : string;
  telegramBotToken : string;
  telegramChatId : string;
  checkIntervalMs : JS.number;
  priceLowerBound : JS.number;
  priceUpperBound : JS.number
}.

Definition set_poolAddress (a : string) (c : PriceMonitorConfig) : PriceMonitorConfig :=
  mkConfig (rpcUrl c) a (telegramBotToken c) (telegramChatId c)
           (checkIntervalMs c) (priceLowerBound c) (priceUpperBound c).

Definition set_priceLowerBound (x : JS.number) (c : PriceMonitorConfig) : PriceMonitorConfig :=
  mkConfig (rpcUrl c) (poolAddress c) (telegramBotToken c) (telegramChatId c)
           (checkIntervalMs c) x (priceUpperBound c).

Definition set_priceUpperBound (x : JS.number) (c : PriceMonitorConfig) : PriceMonitorConfig :=
  mkConfig (rpcUrl c) (poolAddress c) (telegramBotToken c) (telegramChatId c)
           (checkIntervalMs c) (priceLowerBound c) x.

(** The fields of the class the modelled methods read or write. *)
Record t : Type := mk {
  config : PriceMonitorConfig;
  isRunning : bool;
  firebaseManager : FirebaseManager.t
}.

Definition set_config (c : PriceMonitorConfig) (this : t) : t :=
  mk c (isRunning this) (firebaseManager this).

(** [pool.getTokenAInfo()], [pool.getTokenBInfo()] *)
Record TokenInfo : Type := mkTokenInfo {
  mint : string;        (* [mint.toBase58()] *)
  decimals : nat
}.

Record Pool : Type := mkPool {
  getTokenAInfo : TokenInfo;
  getTokenBInfo : TokenInfo
}.

(** An HTTP response of [node-fetch]. *)
Record Response : Type := mkResponse {
  status : Z;
  statusText : string;
  text : Settled string       (* [await response.text()] *)
}.

(** [response.ok]: the status is in the range 200-299. *)
Definition ok (r : Response) : bool := ((200 <=? status r) && (status r <? 300))%Z.

(** What the outside world answers during one poll. *)
Record World : Type := mkWorld {
  publicKeyError : string -> option Exn;
      (* [new PublicKey(s)] throws on a string that is no key *)
  clientGetPool : string -> Settled Pool;
  fetcherGetPool : string -> Settled (option Z);
      (* the pool account's [sqrtPrice], or [null] *)
  fetch : string -> string -> Text -> Settled Response;
      (* the POST to the url with [chat_id] and [text] *)
  alertsAdd : AlertRecord -> Settled unit
}.

(** [new PublicKey(s)]; a key is kept as its base-58 text. *)
Definition newPublicKey (w : World) (s : string) : Eff string :=
  match publicKeyError w s with
  | Some e => throw e
  | None => ret s
  end.

(** The message [sendTelegramAlert] builds (lines 137-140). *)
Definition alertMessage (c : PriceMonitorConfig) (price : JS.number) (isTest : bool) : Text :=
  if isTest then
    [Str ("🟢 MONITOR STARTED" ++ LF ++ "Monitoring Pool: ")%string; Str (poolAddress c);
     Str (LF ++ "Range: ")%string; Num (priceLowerBound c); Str " - "; Num (priceUpperBound c);
     Str (LF ++ "(This is a test message)")%string]
  else
    [Str ("⚠️ PRICE ALERT" ++ LF ++ "Pool: ")%string; Str (poolAddress c);
     Str (LF ++ "Current: ")%string; Fixed6 price;
     Str (LF ++ "Range: ")%string; Num (priceLowerBound c); Str " - "; Num (priceUpperBound c)].

(** The demo-mode test on the bot token (line 143). *)
Definition isPlaceholderToken (token : string) : bool :=
  JS.includes token "123456:ABC" || JS.includes token "TELEGRAM_BOT_TOKEN".

(** [private async sendTelegramAlert(price, isTest = false)], with the
    configuration the same before and after the request
    ([Async.sendTelegramAlert] has the two readings apart). *)
Definition sendTelegramAlert (w : World) (this : t) (price : JS.number) (isTest : bool)
    : Eff unit :=
  let c := config this in
  emit (SendTelegramAlert price isTest) ;;
  let message := alertMessage c price isTest in
  if isPlaceholderToken (telegramBotToken c) then
    emit (ConsoleLog [Str "---------------------------------------------------"]) ;;
    emit (ConsoleLog [Str "[MOCK TELEGRAM] Alert Triggered!"]) ;;
    emit (ConsoleLog message) ;;
    emit (ConsoleLog [Str "---------------------------------------------------"])
  else
    let url := ("https://api.telegram.org/bot" ++ telegramBotToken c ++ "/sendMessage")%string in
    try_catch
      (emit (HttpPost url (telegramChatId c) message) ;;
       response <- await (fetch w url (telegramChatId c) message) ;;
       (if negb (ok response) then
          if (status response =? 404)%Z then
            emit (ConsoleError [Str "Failed to send real Telegram alert (404). Configured token is invalid."]) ;;
            emit (ConsoleLog [Str "Falling back to console alert for demo:"]) ;;
            emit (ConsoleLog message)
          else
            errorText <- await (text response) ;;
            emit (ConsoleError [Str "Failed to send Telegram alert: "; Int (status response);
                                Str " "; Str (statusText response); Str " - "; Str errorText])
        else
          emit (ConsoleLog [Str "Telegram alert sent successfully."])) ;;
       if negb isTest then
         detach (FirebaseManager.logAlert (firebaseManager this) (alertsAdd w)
                   (mkAlertRecord (poolAddress c) price
                      (priceLowerBound c) (priceUpperBound c) message
                      (if ok response then success else failed)))
       else ret tt)
      (fun error =>
         emit (ConsoleError [Str "Error sending Telegram alert network request:"; Thrown error])).

(** The orientation heuristic of [checkPrice] (lines 109-114): token A is
    taken for the quote asset when its mint starts with the prefix of USDC
    or of USDT. *)
Definition isQuoteToken (mintA : string) : bool :=
  JS.startsWith mintA "EPj" || JS.startsWith mintA "Es9".

Definition orientPrice (sdk : Sdk) (tokenAInfo tokenBInfo : TokenInfo) (price : Decimal)
    : Decimal :=
  if isQuoteToken (mint tokenAInfo)
  then invertPrice sdk price (decimals tokenAInfo) (decimals tokenBInfo)
  else price.

(** The sentinel test of line 121. *)
Definition isUnconfigured (c : PriceMonitorConfig) : bool :=
  JS.seq (priceLowerBound c) JS.zero && JS.seq (priceUpperBound c) JS.zero.

(** The threshold test of line 126. *)
Definition outOfBounds (c : PriceMonitorConfig) (priceNum : JS.number) : bool :=
  JS.lt priceNum (priceLowerBound c) || JS.gt priceNum (priceUpperBound c).

(** [private async checkPrice()], with the configuration the same from its
    call to its end ([Async.checkPrice] has the readings apart). *)
Definition checkPrice (sdk : Sdk) (w : World) (this : t) : Eff unit :=
  let c := config this in
  try_catch
    (poolAddress <- newPublicKey w (poolAddress c) ;;
     emit (ClientGetPool poolAddress) ;;
     pool <- await (clientGetPool w poolAddress) ;;
     emit (FetcherGetPool poolAddress) ;;
     poolData <- await (fetcherGetPool w poolAddress) ;;
     match poolData with
     | None => throw (Error ("Unable to fetch pool data for " ++ poolAddress)%string)
     | Some sqrtPrice =>
         let tokenAInfo := getTokenAInfo pool in
         let tokenBInfo := getTokenBInfo pool in
         let price := sqrtPriceX64ToPrice sdk sqrtPrice
                        (decimals tokenAInfo) (decimals tokenBInfo) in
         let isQuoteTokenA := isQuoteToken (mint tokenAInfo) in
         let price := orientPrice sdk tokenAInfo tokenBInfo price in
         let priceNum := toNumber sdk price in
         emit (ConsoleLog [Str "["; NowISO; Str "] Current Price: "; Fixed6 priceNum; Str " ";
                           Str (if isQuoteTokenA then "(Inverted)" else "")]) ;;
         if isUnconfigured c then
           emit (ConsoleLog [Str "["; NowISO; Str "] Current Price: "; Fixed6 priceNum;
                             Str ". Waiting for configuration..."])
         else if outOfBounds c priceNum then
           emit (ConsoleLog [Str "Price out of bounds! Sending alert..."]) ;;
           sendTelegramAlert w this priceNum false
         else ret tt
     end)
    (fun error => emit (ConsoleError [Str "Error checking price:"; Thrown error])).

(** The callback [start] passes to [listenToConfig] (lines 55-70). *)
Definition onConfig (newConfig : MonitorConfig) (this : t) : Eff t :=
  c <- match mc_poolAddress newConfig with
       | Some a =>
           if JS.truthy a && JS.sne a (poolAddress (config this)) then
             emit (ConsoleLog [Str "🔄 Switching monitoring to new pool: "; Str a]) ;;
             ret (set_poolAddress a (config this))
           else ret (config this)
       | None => ret (config this)
       end ;;
  c <- match mc_priceLowerBound newConfig with
       | Some x =>
           emit (ConsoleLog [Str "Updated Lower Bound: "; Num x]) ;;
           ret (set_priceLowerBound x c)
       | None => ret c
       end ;;
  c <- match mc_priceUpperBound newConfig with
       | Some x =>
           emit (ConsoleLog [Str "Updated Upper Bound: "; Num x]) ;;
           ret (set_priceUpperBound x c)
       | None => ret c
       end ;;
  emit (ConsoleLog [Str "New Thresholds: < "; Num (priceLowerBound c); Str " or > ";
                    Num (priceUpperBound c)]) ;;
  ret (set_config c this).

(** [public async start()]. The two calls it does not await are put in
    program order and run to their end, as when every answer is there at
    once; [w] is what the world answers to them. [Async.start] stops them
    at their first [await], where [start] itself goes on. *)
Definition start (sdk : Sdk) (w : World) (this : t) : Eff t :=
  if isRunning this then ret this
  else
    let this := mk (config this) true (firebaseManager this) in
    let c := config this in
    emit (ConsoleLog [Str "Starting PriceMonitor for pool "; Str (poolAddress c); Str "..."]) ;;
    emit (ConsoleLog [Str "Debug - Bot Token: ";
                      Str (String.substring 0 10 (telegramBotToken c)); Str "..."]) ;;
    emit (ConsoleLog [Str "Debug - Chat ID: "; Str (telegramChatId c)]) ;;
    FirebaseManager.listenToConfig (firebaseManager this) ;;
    emit (ConsoleLog [Str "Initial Thresholds: < "; Num (priceLowerBound c); Str " or > ";
                      Num (priceUpperBound c)]) ;;
    detach (checkPrice sdk w this) ;;
    detach (sendTelegramAlert w this JS.zero true) ;;
    emit (SetInterval (checkIntervalMs c)) ;;
    ret this.

(** What happens to a started monitor: the interval timer fires (with what
    the world answers during that poll), or the configuration listener is
    notified. *)
Inductive Input : Type :=
| Tick (w : World)
| ConfigNotification (n : FirebaseManager.Notification).

(** Whether [listenToConfig] registered a listener for this monitor. *)
Definition listening (this : t) : bool :=
  FirebaseManager.db (firebaseManager this) &&
  FirebaseManager.configRef (firebaseManager this).

Definition handle (sdk : Sdk) (i : Input) (this : t) : Eff t :=
  match i with
  | Tick w => detach (checkPrice sdk w this) ;; ret this
  | ConfigNotification n =>
      if listening this then FirebaseManager.onSnapshot onConfig n this
      else ret this
  end.

(** The steady state of the process: the inputs are handled one after the
    other; a completion other than [Normal] ends the run. *)
Fixpoint run (sdk : Sdk) (inputs : list Input) (this : t) : Eff t :=
  match inputs with
  | [] => ret this
  | i :: rest => this' <- handle sdk i this ;; run sdk rest this'
  end.

End PriceMonitor.

(** ** The monitor's asynchronous methods, stretch by stretch

    An [async] method runs without interruption up to its next [await].
    While it waits, the callback [start] gave to [listenToConfig] may run and
    assign to the fields of [this.config]; the method then goes on with the
    object as it finds it. The definitions of this module cut
    [sendTelegramAlert], [checkPrice] and [start] at their awaits and name
    the configuration each stretch reads. With one and the same configuration
    in every stretch they are the methods of [PriceMonitor]. *)

Module Async.

(** [url] of [sendTelegramAlert] (line 151). *)
Definition telegramUrl (c : PriceMonitor.PriceMonitorConfig) : string :=
  ("https://api.telegram.org/bot" ++ PriceMonitor.telegramBotToken c ++ "/sendMessage")%string.

(** [sendTelegramAlert] from its call to its first [await] (lines 137-158);
    [c] is the configuration at the call. [None]: the method has returned
    (demo mode). [Some message]: the request is out and the method waits for
    the response. *)
Definition sendTelegramAlert_begin (c : PriceMonitor.PriceMonitorConfig)
    (price : JS.number) (isTest : bool) : Eff (option Text) :=
  emit (SendTelegramAlert price isTest) ;;
  let message := PriceMonitor.alertMessage c price isTest in
  if PriceMonitor.isPlaceholderToken (PriceMonitor.telegramBotToken c) then
    emit (ConsoleLog [Str "---------------------------------------------------"]) ;;
    emit (ConsoleLog [Str "[MOCK TELEGRAM] Alert Triggered!"]) ;;
    emit (ConsoleLog message) ;;
    emit (ConsoleLog [Str "---------------------------------------------------"]) ;;
    ret None
  else
    emit (HttpPost (telegramUrl c) (PriceMonitor.telegramChatId c) message) ;;
    ret (Some message).

(** [sendTelegramAlert] from the response on (lines 154-186). [answer] is
    how the request settles, [message] the text built at the call, [c'] the
    configuration when the record is built (lines 175-182), after the last
    [await]. *)
Definition sendTelegramAlert_resume (firebaseManager : FirebaseManager.t)
    (alertsAdd : AlertRecord -> Settled unit) (answer : Settled PriceMonitor.Response)
    (c' : PriceMonitor.PriceMonitorConfig) (price : JS.number) (isTest : bool)
    (message : Text) : Eff unit :=
  try_catch
    (response <- await answer ;;
     (if negb (PriceMonitor.ok response) then
        if (PriceMonitor.status response =? 404)%Z then
          emit (ConsoleError [Str "Failed to send real Telegram alert (404). Configured token is invalid."]) ;;
          emit (ConsoleLog [Str "Falling back to console alert for demo:"]) ;;
          emit (ConsoleLog message)
        else
          errorText <- await (PriceMonitor.text response) ;;
          emit (ConsoleError [Str "Failed to send Telegram alert: ";
                              Int (PriceMonitor.status response);
                              Str " "; Str (PriceMonitor.statusText response);
                              Str " - "; Str errorText])
      else
        emit (ConsoleLog [Str "Telegram alert sent successfully."])) ;;
     if negb isTest then
       detach (FirebaseManager.logAlert firebaseManager alertsAdd
                 (mkAlertRecord (PriceMonitor.poolAddress c') price
                    (PriceMonitor.priceLowerBound c') (PriceMonitor.priceUpperBound c')
                    message
                    (if PriceMonitor.ok response then success else failed)))
     else ret tt)
    (fun error =>
       emit (ConsoleError [Str "Error sending Telegram alert network request:"; Thrown error])).

(** The whole of [sendTelegramAlert]: [c] is the configuration at the call,
    [c'] the one when the record is built. *)
Definition sendTelegramAlert (w : PriceMonitor.World) (firebaseManager : FirebaseManager.t)
    (c c' : PriceMonitor.PriceMonitorConfig) (price : JS.number) (isTest : bool)
    : Eff unit :=
  pending <- sendTelegramAlert_begin c price isTest ;;
  match pending with
  | None => ret tt
  | Some message =>
      sendTelegramAlert_resume firebaseManager (PriceMonitor.alertsAdd w)
        (PriceMonitor.fetch w (telegramUrl c) (PriceMonitor.telegramChatId c) message)
        c' price isTest message
  end.

(** [checkPrice] from its call to its first [await] (lines 80-82); [c] is
    the configuration at the call. [Some poolAddress]: the first query is out.
    [None]: the method has returned (the address is no key). *)
Definition checkPrice_begin (w : PriceMonitor.World) (c : PriceMonitor.PriceMonitorConfig)
    : Eff (option string) :=
  try_catch
    (poolAddress <- PriceMonitor.newPublicKey w (PriceMonitor.poolAddress c) ;;
     emit (ClientGetPool poolAddress) ;;
     ret (Some poolAddress))
    (fun error =>
       emit (ConsoleError [Str "Error checking price:"; Thrown error]) ;;
       ret None).

(** [checkPrice] from the answer of its first query on (lines 82-133).
    [poolAddress] is the constant of line 81. [c] is the configuration when
    the second query has answered: lines 121 and 126 read it, and so does the
    call of [sendTelegramAlert] of line 128, with no [await] in between. [c']
    is the configuration when the record is built. *)
Definition checkPrice_resume (sdk : PriceMonitor.Sdk) (w : PriceMonitor.World)
    (firebaseManager : FirebaseManager.t) (poolAddress : string)
    (c c' : PriceMonitor.PriceMonitorConfig) : Eff unit :=
  try_catch
    (pool <- await (PriceMonitor.clientGetPool w poolAddress) ;;
     emit (FetcherGetPool poolAddress) ;;
     poolData <- await (PriceMonitor.fetcherGetPool w poolAddress) ;;
     match poolData with
     | None => throw (Error ("Unable to fetch pool data for " ++ poolAddress)%string)
     | Some sqrtPrice =>
         let tokenAInfo := PriceMonitor.getTokenAInfo pool in
         let tokenBInfo := PriceMonitor.getTokenBInfo pool in
         let price := PriceMonitor.sqrtPriceX64ToPrice sdk sqrtPrice
                        (PriceMonitor.decimals tokenAInfo)
                        (PriceMonitor.decimals tokenBInfo) in
         let isQuoteTokenA := PriceMonitor.isQuoteToken (PriceMonitor.mint tokenAInfo) in
         let price := PriceMonitor.orientPrice sdk tokenAInfo tokenBInfo price in
         let priceNum := PriceMonitor.toNumber sdk price in
         emit (ConsoleLog [Str "["; NowISO; Str "] Current Price: "; Fixed6 priceNum; Str " ";
                           Str (if isQuoteTokenA then "(Inverted)" else "")]) ;;
         if PriceMonitor.isUnconfigured c then
           emit (ConsoleLog [Str "["; NowISO; Str "] Current Price: "; Fixed6 priceNum;
                             Str ". Waiting for configuration..."])
         else if PriceMonitor.outOfBounds c priceNum then
           emit (ConsoleLog [Str "Price out of bounds! Sending alert..."]) ;;
           sendTelegramAlert w firebaseManager c c' priceNum false
         else ret tt
     end)
    (fun error => emit (ConsoleError [Str "Error checking price:"; Thrown error])).

(** The whole of [checkPrice]: [c0] is the configuration at the call, [c]
    the one when the oracle has answered, [c'] the one when the record is
    built. *)
Definition checkPrice (sdk : PriceMonitor.Sdk) (w : PriceMonitor.World)
    (firebaseManager : FirebaseManager.t) (c0 c c' : PriceMonitor.PriceMonitorConfig)
    : Eff unit :=
  pending <- checkPrice_begin w c0 ;;
  match pending with
  | None => ret tt
  | Some poolAddress => checkPrice_resume sdk w firebaseManager poolAddress c c'
  end.

(** What [start] leaves waiting when it returns: the first poll, with the
    address it asked about, and the request of the test message, with its
    text. *)
Record Pending : Type := mkPending {
  firstPoll : option string;
  testMessage : option Text
}.

(** [start] itself (lines 47-77): the two calls it does not await run up to
    their first [await], in program order, then the timer is set and [start]
    returns. The first poll and the test message go on later, each from the
    answer it waits for ([checkPrice_resume], [sendTelegramAlert_resume]). *)
Definition start (w : PriceMonitor.World) (this : PriceMonitor.t)
    : Eff (PriceMonitor.t * Pending) :=
  if PriceMonitor.isRunning this then ret (this, mkPending None None)
  else
    let this := PriceMonitor.mk (PriceMonitor.config this) true
                  (PriceMonitor.firebaseManager this) in
    let c := PriceMonitor.config this in
    emit (ConsoleLog [Str "Starting PriceMonitor for pool "; Str (PriceMonitor.poolAddress c);
                      Str "..."]) ;;
    emit (ConsoleLog [Str "Debug - Bot Token: ";
                      Str (String.substring 0 10 (PriceMonitor.telegramBotToken c)); Str "..."]) ;;
    emit (ConsoleLog [Str "Debug - Chat ID: "; Str (PriceMonitor.telegramChatId c)]) ;;
    FirebaseManager.listenToConfig (PriceMonitor.firebaseManager this) ;;
    emit (ConsoleLog [Str "Initial Thresholds: < "; Num (PriceMonitor.priceLowerBound c);
                      Str " or > "; Num (PriceMonitor.priceUpperBound c)]) ;;
    poll <- checkPrice_begin w c ;;
    test <- sendTelegramAlert_begin c JS.zero true ;;
    emit (SetInterval (PriceMonitor.checkIntervalMs c)) ;;
    ret (this, mkPending poll test).

(** The first poll of a started monitor going on: [c] and [c'] are the
    configurations when the oracle has answered and when the record is
    built. *)
Definition firstPoll_resume (sdk : PriceMonitor.Sdk) (w : PriceMonitor.World)
    (firebaseManager : FirebaseManager.t) (c c' : PriceMonitor.PriceMonitorConfig)
    (pending : Pending) : Eff unit :=
  match firstPoll pending with
  | None => ret tt
  | Some poolAddress => checkPrice_resume sdk w firebaseManager poolAddress c c'
  end.

(** The test message of a started monitor going on: [c] is the configuration
    at the start, [c'] the one when the response is there. *)
Definition testMessage_resume (w : PriceMonitor.World)
    (firebaseManager : FirebaseManager.t) (c c' : PriceMonitor.PriceMonitorConfig)
    (pending : Pending) : Eff unit :=
  match testMessage pending with
  | None => ret tt
  | Some message =>
      sendTelegramAlert_resume firebaseManager (PriceMonitor.alertsAdd w)
        (PriceMonitor.fetch w (telegramUrl c) (PriceMonitor.telegramChatId c) message)
        c' JS.zero true message
  end.

End Async.

(** ** whirlpool-dashboard/src/hooks/useWebSocket.ts *)

Module UseWebSocket.

(** [Partial<UseWebSocketOptions>]; for the three callbacks only whether the
    caller supplied them matters here. Attempt counts are natural numbers,
    the delay is a number of milliseconds. *)
Record Options : Type := mkOptions {
  url : option string;
  onMessage : bool;
  onConnect : bool;
  onDisconnect : bool;
  reconnectDelay : option Z;
  maxReconnectAttempts : option nat
}.

Definition WS_URL : string := "ws://localhost:3001".

(** [options?.field] *)
Definition opt {A : Type} (options : option Options) (field : Options -> option A)
    : option A :=
  match options with
  | Some o => field o
  | None => None
  end.

(** [options?.callback?.()] is a call only when the callback is there. *)
Definition has (options : option Options) (callback : Options -> bool) : bool :=
  match options with
  | Some o => callback o
  | None => false
  end.

(** Lines 36-38. *)
Definition the_url (options : option Options) : string :=
  JS.nullish (opt options url) WS_URL.
Definition the_reconnectDelay (options : option Options) : Z :=
  JS.nullish (opt options reconnectDelay) 3000%Z.
Definition the_maxReconnectAttempts (options : option Options) : nat :=
  JS.nullish (opt options maxReconnectAttempts) 10%nat.

Inductive Event : Type :=
| Log (t : Text)
| LogError (t : Text)
| NewWebSocket (address : string)   (* [new WebSocket(url)] *)
| SocketClose                       (* [wsRef.current.close()] *)
| CallOnConnect
| CallOnDisconnect
| CallOnMessage (message : string)
| SetTimeout (ms : Z)               (* [setTimeout(connect, reconnectDelay)] *)
| Reconnect.                        (* a reconnection timer fires and calls [connect] *)

(** The hook's state: the React state [isConnected] and [lastMessage], the
    refs [wsRef] (whether it holds a socket) and [reconnectAttempts], and the
    number of reconnection timers set and not yet fired. *)
Record State : Type := mkState {
  isConnected : bool;
  lastMessage : option string;
  wsRef : bool;
  reconnectAttempts : nat;
  pendingTimers : nat
}.

(** The state at the first render. *)
Definition initial : State := mkState false None false 0 0.

Definition when (b : bool) (e : Event) : list Event := if b then [e] else [].

(** [connect]; [created] is false when [new WebSocket(url)] throws. *)
Definition connect (options : option Options) (created : bool) (st : State)
    : list Event * State :=
  (when (wsRef st) SocketClose ++
   if created then [NewWebSocket (the_url options)]
   else [LogError [Str "Failed to create WebSocket:"]],
   if created
   then mkState (isConnected st) (lastMessage st) true
                (reconnectAttempts st) (pendingTimers st)
   else st).

(** [ws.onopen] *)
Definition onopen (options : option Options) (st : State) : list Event * State :=
  (Log [Str "WebSocket connected"] :: when (has options onConnect) CallOnConnect,
   mkState true (lastMessage st) (wsRef st) 0 (pendingTimers st)).

(** [ws.onmessage]; [parsed] is [None] when [JSON.parse] throws. The
    caller's [onMessage] returns ([Hook.step] has the case that it
    throws). *)
Definition onmessage (options : option Options) (parsed : option string) (st : State)
    : list Event * State :=
  match parsed with
  | Some message =>
      (when (has options onMessage) (CallOnMessage message),
       mkState (isConnected st) (Some message) (wsRef st)
               (reconnectAttempts st) (pendingTimers st))
  | None => ([LogError [Str "Failed to parse WebSocket message:"]], st)
  end.

(** [ws.onclose] *)
Definition onclose (options : option Options) (st : State) : list Event * State :=
  let maxReconnectAttempts := the_maxReconnectAttempts options in
  let head := Log [Str "WebSocket disconnected"]
              :: when (has options onDisconnect) CallOnDisconnect in
  if (reconnectAttempts st <? maxReconnectAttempts)%nat then
    let attempts := S (reconnectAttempts st) in
    (head ++
     [Log [Str "Reconnecting... attempt "; Int (Z.of_nat attempts); Str "/";
           Int (Z.of_nat maxReconnectAttempts)];
      SetTimeout (the_reconnectDelay options)],
     mkState false (lastMessage st) (wsRef st) attempts (S (pendingTimers st)))
  else
    (head,
     mkState false (lastMessage st) (wsRef st) (reconnectAttempts st) (pendingTimers st)).

(** [ws.onerror] *)
Definition onerror (st : State) : list Event * State :=
  ([LogError [Str "WebSocket error:"]], st).

(** What happens to a mounted hook under one render ([Hook.Input] adds the
    effect running again). *)
Inductive Input : Type :=
| Mount (created : bool)        (* the effect runs [connect()] *)
| Opens                         (* the socket opens *)
| Message (parsed : option string)
| Closes                        (* the socket closes: the connection failed or dropped *)
| Errors
| TimerFires (created : bool).  (* a pending reconnection timer fires *)

Definition step (options : option Options) (i : Input) (st : State)
    : list Event * State :=
  match i with
  | Mount created => connect options created st
  | Opens => onopen options st
  | Message parsed => onmessage options parsed st
  | Closes => onclose options st
  | Errors => onerror st
  | TimerFires created =>
      match pendingTimers st with
      | O => ([], st)
      | S n =>
          let (evs, st') :=
            connect options created
              (mkState (isConnected st) (lastMessage st) (wsRef st)
                       (reconnectAttempts st) n) in
          (Reconnect :: evs, st')
      end
  end.

Fixpoint run (options : option Options) (inputs : list Input) (st : State)
    : list Event * State :=
  match inputs with
  | [] => ([], st)
  | i :: rest =>
      let (evs, st') := step options i st in
      let (evs', st'') := run options rest st' in
      (evs ++ evs', st'')
  end.

(** An input that is not a successful connection. *)
Definition isFailure (i : Input) : bool :=
  match i with
  | Opens => false
  | _ => true
  end.

Definition isSetTimeout (e : Event) : bool :=
  match e with
  | SetTimeout _ => true
  | _ => false
  end.

Definition isReconnect (e : Event) : bool :=
  match e with
  | Reconnect => true
  | _ => false
  end.

(** The reconnections scheduled, and those carried out, in a trace. *)
Definition scheduled (evs : list Event) : nat := List.length (filter isSetTimeout evs).
Definition reconnections (evs : list Event) : nat := List.length (filter isReconnect evs).

(** Every timer of the trace was set with delay [ms]. *)
Definition delays_are (ms : Z) (evs : list Event) : Prop :=
  forall d, In (SetTimeout d) evs -> d = ms.

(** [n] rounds of a connection that fails and whose reconnection timer then
    fires. *)
Fixpoint failures (n : nat) : list Input :=
  match n with
  | O => []
  | S k => Closes :: TimerFires true :: failures k
  end.

End UseWebSocket.

(** ** Reading a trace *)

Definition isDispatch (e : Event) : bool :=
  match e with
  | SendTelegramAlert _ _ => true
  | _ => false
  end.

Definition isHttpPost (e : Event) : bool :=
  match e with
  | HttpPost _ _ _ => true
  | _ => false
  end.

Definition isFirestoreAdd (e : Event) : bool :=
  match e with
  | FirestoreAdd _ => true
  | _ => false
  end.

Definition isConsoleError (e : Event) : bool :=
  match e with
  | ConsoleError _ => true
  | _ => false
  end.

Definition count (p : Event -> bool) (t : Trace) : nat := List.length (filter p t).

(** How often the dispatcher was invoked, how many requests went to the
    channel, how many records were handed to the audit collection. *)
Definition dispatches (t : Trace) : nat := count isDispatch t.
Definition networkCalls (t : Trace) : nat := count isHttpPost t.
Definition auditWrites (t : Trace) : nat := count isFirestoreAdd t.

(** The records handed to the audit collection, in order. *)
Fixpoint alertRecords (t : Trace) : list AlertRecord :=
  match t with
  | [] => []
  | FirestoreAdd r :: rest => r :: alertRecords rest
  | _ :: rest => alertRecords rest
  end.

(** The pool addresses the oracle was asked about, in order. *)
Fixpoint queried (t : Trace) : list string :=
  match t with
  | [] => []
  | ClientGetPool a :: rest => a :: queried rest
  | FetcherGetPool a :: rest => a :: queried rest
  | _ :: rest => queried rest
  end.

(** The price a poll observes when the oracle answers with [pool] and
    [sqrtPrice]: [priceNum] of [checkPrice]. *)
Definition observedPrice (sdk : PriceMonitor.Sdk) (pool : PriceMonitor.Pool) (sqrtPrice : Z)
    : JS.number :=
  let a := PriceMonitor.getTokenAInfo pool in
  let b := PriceMonitor.getTokenBInfo pool in
  PriceMonitor.toNumber sdk
    (PriceMonitor.orientPrice sdk a b
       (PriceMonitor.sqrtPriceX64ToPrice sdk sqrtPrice
          (PriceMonitor.decimals a) (PriceMonitor.decimals b))).

(** The oracle answers the poll of [this] with [pool] and [sqrtPrice]. *)
Definition oracleAnswers (w : PriceMonitor.World) (this : PriceMonitor.t)
    (pool : PriceMonitor.Pool) (sqrtPrice : Z) : Prop :=
  let a := PriceMonitor.poolAddress (PriceMonitor.config this) in
  PriceMonitor.publicKeyError w a = None /\
  PriceMonitor.clientGetPool w a = Resolves pool /\
  PriceMonitor.fetcherGetPool w a = Resolves (Some sqrtPrice).

(** The record a dispatch hands to the audit collection. *)
Definition recordOf (this : PriceMonitor.t) (price : JS.number) (s : TelegramStatus)
    : AlertRecord :=
  let c := PriceMonitor.config this in
  mkAlertRecord (PriceMonitor.poolAddress c) price
    (PriceMonitor.priceLowerBound c) (PriceMonitor.priceUpperBound c)
    (PriceMonitor.alertMessage c price false) s.

(** The request the dispatcher sends is answered by [response]. *)
Definition channelAnswers (w : PriceMonitor.World) (this : PriceMonitor.t)
    (price : JS.number) (isTest : bool) (response : PriceMonitor.Response) : Prop :=
  let c := PriceMonitor.config this in
  PriceMonitor.fetch w
    ("https://api.telegram.org/bot" ++ PriceMonitor.telegramBotToken c ++ "/sendMessage")%string
    (PriceMonitor.telegramChatId c)
    (PriceMonitor.alertMessage c price isTest) = Resolves response.

(** The dispatcher gets past the response: the status is 2xx or 404, or the
    body of the error response can be read. *)
Definition responseHandled (response : PriceMonitor.Response) : Prop :=
  PriceMonitor.ok response = true \/
  PriceMonitor.status response = 404%Z \/
  exists body, PriceMonitor.text response = Resolves body.

(** The error a poll runs into before it has a price, if any: the address
    is no key, one of the two queries is rejected, or the pool account is
    missing. *)
Definition oracleError (w : PriceMonitor.World) (a : string) : option Exn :=
  match PriceMonitor.publicKeyError w a with
  | Some e => Some e
  | None =>
      match PriceMonitor.clientGetPool w a with
      | Rejects e => Some e
      | Resolves _ =>
          match PriceMonitor.fetcherGetPool w a with
          | Rejects e => Some e
          | Resolves None => Some (Error ("Unable to fetch pool data for " ++ a)%string)
          | Resolves (Some _) => None
          end
      end
  end.

(** The last event of a trace. *)
Definition lastEvent (t : Trace) : option Event := List.last (map Some t) None.

(** ** A concrete monitor, pool and world *)

Module Scenario.

(** An SDK for the examples, computed exactly on rationals: the price of a
    pool is [(sqrtPrice / 2^64)^2 * 10^(decimalsA - decimalsB)], its inversion
    is the reciprocal, and [toNumber] divides numerator by denominator. The
    SDK proper rounds ([PriceMath.invertPrice] goes through tick indices);
    the theorems are stated for every [PriceMonitor.Sdk]. *)
Definition sdk : PriceMonitor.Sdk :=
  PriceMonitor.mkSdk
    (fun sqrtPrice decimalsA decimalsB =>
       Qmult (Qpower (Qmake sqrtPrice (2 ^ 64)) 2)
             (Qpower (inject_Z 10) (Z.of_nat decimalsA - Z.of_nat decimalsB)))
    (fun price _ _ => Qinv price)
    (fun price =>
       let r := Qred price in
       PrimFloat.div (PrimFloat.of_uint63 (Uint63.of_Z (Qnum r)))
                     (PrimFloat.of_uint63 (Uint63.of_Z (Zpos (Qden r))))).

Definition SOL : PriceMonitor.TokenInfo :=
  PriceMonitor.mkTokenInfo "So11111111111111111111111111111111111111112" 9.
Definition USDC : PriceMonitor.TokenInfo :=
  PriceMonitor.mkTokenInfo "EPjFWdd5AufqSSqeM2qN1xzybapC8G4wEGGkZwyTDt1v" 6.
Definition mSOL : PriceMonitor.TokenInfo :=
  PriceMonitor.mkTokenInfo "mSoLzYCxHdYgdzU16g5QSh3i5K3z3KZK7ytfqcJm7So" 9.

Definition solUsdc : PriceMonitor.Pool := PriceMonitor.mkPool SOL USDC.

Definition poolId : string := "HJPjoWUrhoZzkNfRpHuieeFk9WcZWjwy6PBjZ81ngndJ".
Definition otherPoolId : string := "Czfq3xZZDmsdGdUyrNLtRhGc47cXcZtLG4crryfu44zE".

(** A pool at price 250: [sqrtPrice = 2^63], decimals 9 and 6. *)
Definition sqrtPrice250 : Z := 2 ^ 63.

Definition config (token : string) (lower upper : JS.number)
    : PriceMonitor.PriceMonitorConfig :=
  PriceMonitor.mkConfig "https://api.mainnet-beta.solana.com" poolId
    token "-1001234567890" 60000%float lower upper.

Definition realToken : string := "7012345678:AAHk3v0aQ9Zr1bXyTnUeWq5LmPd8sJc2RfG".
Definition demoToken : string := "123456:ABC-DEF1234ghIkl-zyx57W2v1u123ew11".

Definition monitor (token : string) (lower upper : JS.number) (db : bool) : PriceMonitor.t :=
  PriceMonitor.mk (config token lower upper) true (FirebaseManager.mk db db).

(** A world in which every pool is [solUsdc] at price 250, the channel
    answers with [status], and Firestore accepts what it is given. *)
Definition world (status : Z) : PriceMonitor.World :=
  PriceMonitor.mkWorld
    (fun _ => None)
    (fun _ => Resolves solUsdc)
    (fun _ => Resolves (Some sqrtPrice250))
    (fun _ _ _ => Resolves (PriceMonitor.mkResponse status "" (Resolves "{}")))
    (fun _ => Resolves tt).

(** A world in which nothing answers. *)
Definition offline : PriceMonitor.World :=
  PriceMonitor.mkWorld
    (fun _ => None)
    (fun _ => Rejects (Error "failed to get info about account"))
    (fun _ => Rejects (Error "fetch failed"))
    (fun _ _ _ => Rejects (Error "ECONNREFUSED"))
    (fun _ => Rejects (Error "UNAVAILABLE")).

End Scenario.

(** ** monitoring/index.ts and the constructor of [PriceMonitor] *)

Module Index.

(** The variables [main] reads from [process.env]; [None] is [undefined]. *)
Record ProcessEnv : Type := mkProcessEnv {
  RPC_URL : option string;
  POOL_ADDRESS : option string;
  TELEGRAM_BOT_TOKEN : option string;
  TELEGRAM_CHAT_ID : option string;
  CHECK_INTERVAL_MS : option string
}.

(** [!x] for [x : string | undefined] *)
Definition missing (x : option string) : bool :=
  match x with
  | Some s => negb (JS.truthy s)
  | None => true
  end.

(** [x || d] for [x : string | undefined] *)
Definition or_else (x : option string) (d : string) : string :=
  match x with
  | Some s => if JS.truthy s then s else d
  | None => d
  end.

(** The value of a variable that is not missing. *)
Definition value (x : option string) : string := JS.nullish x "".

(** [constructor(config)] of [PriceMonitor] (lines 27-45): it keeps the
    configuration, opens the connection ([connectionError] tells for which
    urls [new Connection] throws) and builds its [FirebaseManager], whose
    constructor runs [init]. *)
Definition newPriceMonitor (connectionError : string -> option Exn)
    (keyFile : FirebaseManager.KeyFile) (config : PriceMonitor.PriceMonitorConfig)
    : Eff PriceMonitor.t :=
  match connectionError (PriceMonitor.rpcUrl config) with
  | Some e => throw e
  | None =>
      fb <- FirebaseManager.init keyFile ;;
      ret (PriceMonitor.mk config false fb)
  end.

(** How [main] ends: [process.exit(code)], or with the monitor started and
    what its [start] left waiting. *)
Inductive Outcome : Type :=
| Exit (code : Z)
| Started (monitor : PriceMonitor.t) (pending : Async.Pending).

(** [main()]; [parseInt] is the JavaScript builtin. The promise of
    [monitor.start()] is dropped: [main] is over when [start] has set its
    timer. *)
Definition main (parseInt : string -> JS.number)
    (connectionError : string -> option Exn) (keyFile : FirebaseManager.KeyFile)
    (w : PriceMonitor.World) (env : ProcessEnv) : Eff Outcome :=
  let rpcUrl := RPC_URL env in
  let poolAddress := POOL_ADDRESS env in
  let botToken := TELEGRAM_BOT_TOKEN env in
  let chatId := TELEGRAM_CHAT_ID env in
  let checkInterval := parseInt (or_else (CHECK_INTERVAL_MS env) "60000") in
  let lowerBound := JS.zero in
  let upperBound := JS.zero in
  if missing rpcUrl || missing poolAddress || missing botToken || missing chatId then
    emit (ConsoleError [Str "Missing required environment variables. Please check .env file."]) ;;
    ret (Exit 1)
  else
    monitor <- newPriceMonitor connectionError keyFile
                 (PriceMonitor.mkConfig (value rpcUrl) (value poolAddress)
                    (value botToken) (value chatId) checkInterval
                    lowerBound upperBound) ;;
    match Async.start w monitor with
    | (t, Normal (started, pending)) => (t, Normal (Started started pending))
    | (t, Throw e) => (t, Unhandled e)
    | (t, Unhandled e) => (t, Unhandled e)
    end.

End Index.

(** [x !== x]: the number is NaN. *)
Definition isNaN (x : JS.number) : bool := negb (JS.seq x x).

Definition isSetInterval (e : Event) : bool :=
  match e with
  | SetInterval _ => true
  | _ => false
  end.

(** The ticks among the inputs of a run. *)
Definition ticks (inputs : list PriceMonitor.Input) : nat :=
  List.length (filter (fun i => match i with PriceMonitor.Tick _ => true | _ => false end)
                 inputs).

(** ** Reading a run of the socket client *)

(** Whether the last socket event of a run that settles the connection was
    an open ([isConnected0] when there was none). *)
Fixpoint connectedAfter (inputs : list UseWebSocket.Input) (isConnected0 : bool) : bool :=
  match inputs with
  | [] => isConnected0
  | UseWebSocket.Opens :: rest => connectedAfter rest true
  | UseWebSocket.Closes :: rest => connectedAfter rest false
  | _ :: rest => connectedAfter rest isConnected0
  end.

(** The well-formed messages of a run, in order of arrival. *)
Fixpoint parsedMessages (inputs : list UseWebSocket.Input) : list string :=
  match inputs with
  | [] => []
  | UseWebSocket.Message (Some m) :: rest => m :: parsedMessages rest
  | _ :: rest => parsedMessages rest
  end.

(** The messages handed to the caller's [onMessage], in order. *)
Fixpoint delivered (evs : list UseWebSocket.Event) : list string :=
  match evs with
  | [] => []
  | UseWebSocket.CallOnMessage m :: rest => m :: delivered rest
  | _ :: rest => delivered rest
  end.

(** The messages that failed to parse: one error line each. *)
Definition malformed (inputs : list UseWebSocket.Input) : nat :=
  List.length (filter (fun i => match i with
                                | UseWebSocket.Message None => true
                                | _ => false
                                end) inputs).

Definition parseErrors (evs : list UseWebSocket.Event) : nat :=
  List.length (filter (fun e => match e with
                                | UseWebSocket.LogError
                                    [Str "Failed to parse WebSocket message:"] => true
                                | _ => false
                                end) evs).

(** The cleanup of the mount effect of [useWebSocket] (lines 89-101):
    [clearTimeout] on the timer set last, which is pending whenever any timer
    is (the timers all have the same delay), and [close()] on the socket the
    ref holds. *)
Definition unmount (st : UseWebSocket.State) : list UseWebSocket.Event * UseWebSocket.State :=
  (UseWebSocket.when (UseWebSocket.wsRef st) UseWebSocket.SocketClose,
   UseWebSocket.mkState (UseWebSocket.isConnected st) (UseWebSocket.lastMessage st)
     (UseWebSocket.wsRef st) (UseWebSocket.reconnectAttempts st)
     (Nat.pred (UseWebSocket.pendingTimers st))).

(** ** The hook across renders

    [UseWebSocket.step] follows the hook under one render. The effect of
    lines 89-101 depends on [connect], and [connect] on the [options] object:
    when a render hands the hook a new object, the cleanup runs
    ([clearTimeout], [close()]) and [connect()] is called again. The caller's
    [onMessage] runs inside the [try] of [ws.onmessage] and may throw. This
    module adds both to the inputs. The values of the options are the same at
    every render. *)

Module Hook.

(** The hook's refs and state, with two more facts about its timers:
    whether the timer [reconnectTimeoutRef] holds (the one set last) is still
    pending, and how many timers were cleared before they fired. *)
Record State : Type := mkState {
  refs : UseWebSocket.State;
  lastTimerPending : bool;
  cleared : nat
}.

Definition initial : State := mkState UseWebSocket.initial false 0.

(** [if (reconnectTimeoutRef.current) clearTimeout(reconnectTimeoutRef.current)]:
    it cancels the timer set last when that timer has neither fired nor been
    cleared, and does nothing otherwise. *)
Definition clearTimeout (st : State) : State :=
  if lastTimerPending st then
    mkState (UseWebSocket.mkState (UseWebSocket.isConnected (refs st))
               (UseWebSocket.lastMessage (refs st)) (UseWebSocket.wsRef (refs st))
               (UseWebSocket.reconnectAttempts (refs st))
               (Nat.pred (UseWebSocket.pendingTimers (refs st))))
            false (S (cleared st))
  else st.

(** The cleanup of the effect (lines 93-100). *)
Definition cleanup (st : State) : list UseWebSocket.Event * State :=
  (UseWebSocket.when (UseWebSocket.wsRef (refs st)) UseWebSocket.SocketClose,
   clearTimeout st).

Inductive Input : Type :=
| Socket (i : UseWebSocket.Input)   (* what [UseWebSocket.step] handles *)
| HandlerThrows (message : string)  (* a message that parses and on which the
                                       caller's [onMessage] throws *)
| Rerender (created : bool)         (* [connect] is a new function: the cleanup
                                       runs, then the effect *)
| Unmount.                          (* the cleanup runs *)

(** The timers of one delay fire in the order they were set: the timer that
    fires is the one set last only when no other is pending. Without an
    [onMessage] nothing can throw in [ws.onmessage] after the parse. *)
Definition step (options : option UseWebSocket.Options) (i : Input) (st : State)
    : list UseWebSocket.Event * State :=
  match i with
  | Socket UseWebSocket.Closes =>
      let (evs, refs') := UseWebSocket.onclose options (refs st) in
      (evs,
       mkState refs'
         ((UseWebSocket.reconnectAttempts (refs st)
           <? UseWebSocket.the_maxReconnectAttempts options)%nat
          || lastTimerPending st)
         (cleared st))
  | Socket (UseWebSocket.TimerFires created) =>
      let (evs, refs') :=
        UseWebSocket.step options (UseWebSocket.TimerFires created) (refs st) in
      (evs,
       mkState refs'
         (lastTimerPending st && (0 <? UseWebSocket.pendingTimers refs')%nat)
         (cleared st))
  | Socket i =>
      let (evs, refs') := UseWebSocket.step options i (refs st) in
      (evs, mkState refs' (lastTimerPending st) (cleared st))
  | HandlerThrows message =>
      let (evs, refs') := UseWebSocket.onmessage options (Some message) (refs st) in
      (evs ++ UseWebSocket.when (UseWebSocket.has options UseWebSocket.onMessage)
                (UseWebSocket.LogError [Str "Failed to parse WebSocket message:"]),
       mkState refs' (lastTimerPending st) (cleared st))
  | Rerender created =>
      let (evs, st1) := cleanup st in
      let (evs', refs') := UseWebSocket.connect options created (refs st1) in
      (evs ++ evs', mkState refs' (lastTimerPending st1) (cleared st1))
  | Unmount => cleanup st
  end.

Fixpoint run (options : option UseWebSocket.Options) (inputs : list Input) (st : State)
    : list UseWebSocket.Event * State :=
  match inputs with
  | [] => ([], st)
  | i :: rest =>
      let (evs, st') := step options i st in
      let (evs', st'') := run options rest st' in
      (evs ++ evs', st'')
  end.

(** What the sockets did during a run, as [UseWebSocket] inputs. *)
Fixpoint socketInputs (inputs : list Input) : list UseWebSocket.Input :=
  match inputs with
  | [] => []
  | Socket i :: rest => i :: socketInputs rest
  | HandlerThrows message :: rest => UseWebSocket.Message (Some message) :: socketInputs rest
  | _ :: rest => socketInputs rest
  end.

(** The messages on which the caller's [onMessage] threw. *)
Fixpoint thrown (inputs : list Input) : nat :=
  match inputs with
  | [] => 0
  | HandlerThrows _ :: rest => S (thrown rest)
  | _ :: rest => thrown rest
  end.

(** The timer the ref holds is pending only if some timer is. *)
Definition timersConsistent (st : State) : Prop :=
  lastTimerPending st = true -> 0 < UseWebSocket.pendingTimers (refs st).

End Hook.

(** ** context/RealtimeContext.tsx: the message handler of [RealtimeProvider] *)

Module RealtimeContext.

(** [interface PriceUpdate] *)
Record PriceUpdate : Type := mkPriceUpdate {
  symbol : string;
  price : JS.number;
  timestamp : JS.number
}.

(** A [Map<string, V>] with its insertion order: [set] on a key that is
    present replaces the value where it stands, on a new key appends. *)
Fixpoint map_set {V : Type} (k : string) (v : V) (m : list (string * V))
    : list (string * V) :=
  match m with
  | [] => [(k, v)]
  | (k', v') :: rest =>
      if String.eqb k' k then (k', v) :: rest else (k', v') :: map_set k v rest
  end.

Fixpoint map_get {V : Type} (k : string) (m : list (string * V)) : option V :=
  match m with
  | [] => None
  | (k', v') :: rest => if String.eqb k' k then Some v' else map_get k rest
  end.

(** [xs.slice(-n)]: the last [n] elements. *)
Definition slice_last {A : Type} (n : nat) (xs : list A) : list A :=
  skipn (List.length xs - n) xs.

Section Provider.

(** The payloads of position and pool messages. The source leaves
    [message.data] untyped; it is given the element type of the list it is
    stored in ([PositionUpdate], [PoolUpdate]). *)
Variables PositionUpdate PoolUpdate : Type.

(** [interface RealtimeState] *)
Record RealtimeState : Type := mkState {
  positionUpdates : list PositionUpdate;
  poolUpdates : list PoolUpdate;
  priceUpdates : list (string * PriceUpdate);
  lastPositionUpdate : JS.number;
  lastPoolUpdate : JS.number
}.

(** The initial state of [useState]. *)
Definition initial : RealtimeState := mkState [] [] [] JS.zero JS.zero.

(** A parsed message, by its [type]. *)
Inductive WSMessage : Type :=
| POSITIONS_UPDATE (data : PositionUpdate)
| POOL_UPDATE (data : PoolUpdate)
| PRICE_UPDATE (data : PriceUpdate)
| CONNECTION
| Unknown (type : string).

(** [handleMessage], with the state update it enqueues applied; [now] is
    [Date.now()]. Of the line logged for [CONNECTION] the text is kept, not
    the payload printed after it. *)
Definition handleMessage (now : JS.number) (message : WSMessage) (prev : RealtimeState)
    : list UseWebSocket.Event * RealtimeState :=
  match message with
  | POSITIONS_UPDATE data =>
      ([], mkState (slice_last 10 (positionUpdates prev) ++ [data])
                   (poolUpdates prev) (priceUpdates prev)
                   now (lastPoolUpdate prev))
  | POOL_UPDATE data =>
      ([], mkState (positionUpdates prev)
                   (slice_last 10 (poolUpdates prev) ++ [data])
                   (priceUpdates prev)
                   (lastPositionUpdate prev) now)
  | PRICE_UPDATE data =>
      ([], mkState (positionUpdates prev) (poolUpdates prev)
                   (map_set (symbol data) (mkPriceUpdate (symbol data) (price data) now)
                            (priceUpdates prev))
                   (lastPositionUpdate prev) (lastPoolUpdate prev))
  | CONNECTION =>
      ([UseWebSocket.Log [Str "WebSocket connection established:"]], prev)
  | Unknown type =>
      ([UseWebSocket.Log [Str "Unknown message type:"; Str type]], prev)
  end.

(** [triggerPositionRefresh] *)
Definition triggerPositionRefresh (now : JS.number) (prev : RealtimeState) : RealtimeState :=
  mkState (positionUpdates prev) (poolUpdates prev) (priceUpdates prev)
          now (lastPoolUpdate prev).

(** [clearPositionUpdates] *)
Definition clearPositionUpdates (prev : RealtimeState) : RealtimeState :=
  mkState [] (poolUpdates prev) (priceUpdates prev)
          (lastPositionUpdate prev) (lastPoolUpdate prev).

(** The messages of a session, each with the time it arrived, handled in
    order. *)
Fixpoint handleAll (messages : list (JS.number * WSMessage)) (st : RealtimeState)
    : RealtimeState :=
  match messages with
  | [] => st
  | (now, message) :: rest => handleAll rest (snd (handleMessage now message st))
  end.

(** The position payloads among the messages, in order. *)
Fixpoint positionPayloads (messages : list (JS.number * WSMessage)) : list PositionUpdate :=
  match messages with
  | [] => []
  | (_, POSITIONS_UPDATE data) :: rest => data :: positionPayloads rest
  | _ :: rest => positionPayloads rest
  end.

Fixpoint poolPayloads (messages : list (JS.number * WSMessage)) : list PoolUpdate :=
  match messages with
  | [] => []
  | (_, POOL_UPDATE data) :: rest => data :: poolPayloads rest
  | _ :: rest => poolPayloads rest
  end.

(** The last price message for [s] among the messages, stamped with its
    time of arrival. *)
Fixpoint lastPrice (s : string) (messages : list (JS.number * WSMessage))
    (before : option PriceUpdate) : option PriceUpdate :=
  match messages with
  | [] => before
  | (now, PRICE_UPDATE data) :: rest =>
      lastPrice s rest
        (if String.eqb (symbol data) s
         then Some (mkPriceUpdate (symbol data) (price data) now)
         else before)
  | _ :: rest => lastPrice s rest before
  end.

End Provider.

Arguments mkState {PositionUpdate PoolUpdate}.
Arguments positionUpdates {PositionUpdate PoolUpdate}.
Arguments poolUpdates {PositionUpdate PoolUpdate}.
Arguments priceUpdates {PositionUpdate PoolUpdate}.
Arguments lastPositionUpdate {PositionUpdate PoolUpdate}.
Arguments lastPoolUpdate {PositionUpdate PoolUpdate}.
Arguments initial {PositionUpdate PoolUpdate}.
Arguments POSITIONS_UPDATE {PositionUpdate PoolUpdate}.
Arguments POOL_UPDATE {PositionUpdate PoolUpdate}.
Arguments PRICE_UPDATE {PositionUpdate PoolUpdate}.
Arguments CONNECTION {PositionUpdate PoolUpdate}.
Arguments Unknown {PositionUpdate PoolUpdate}.
Arguments handleMessage {PositionUpdate PoolUpdate}.
Arguments triggerPositionRefresh {PositionUpdate PoolUpdate}.
Arguments clearPositionUpdates {PositionUpdate PoolUpdate}.
Arguments handleAll {PositionUpdate PoolUpdate}.
Arguments positionPayloads {PositionUpdate PoolUpdate}.
Arguments poolPayloads {PositionUpdate PoolUpdate}.
Arguments lastPrice {PositionUpdate PoolUpdate}.

End RealtimeContext.

(** ** services/stakingService.ts: the cached fetch of staking yields *)

Module StakingService.

Section Service.

(** The body of a successful answer ([StakingAPYResponse]); of its fields
    the cache logic reads [success] only. *)
Variable StakingAPYResponse : Type.
Variable success : StakingAPYResponse -> bool.

(** The two module variables; the timestamps are [Date.now()] values,
    integers of milliseconds. *)
Record Cache : Type := mkCache {
  stakingCache : option StakingAPYResponse;
  cacheTimestamp : Z
}.

Definition empty : Cache := mkCache None 0.

Definition CACHE_DURATION : Z := 5 * 60 * 1000.

(** What the request of one call runs into. *)
Inductive Answer : Type :=
| FetchRejects (e : Exn)                 (* [fetch] throws *)
| NotOk                                  (* [response.ok] is false *)
| JsonRejects (e : Exn)                  (* [response.json()] throws *)
| Json (data : StakingAPYResponse).

Inductive Event : Type :=
| Log (s : string)
| Warn (s : string) (e : option Exn)
| Get (url : string).                    (* [fetch(url, {method: 'GET', ...})] *)

Definition ML_API_URL : string := "http://localhost:8000".

(** [getAllStakingAPY()], at time [now], with [answer] what its request
    would run into: the events, the returned value, the cache afterwards.
    No other call starts or ends while this one waits ([StakingCalls] has
    calls that overlap). *)
Definition getAllStakingAPY (now : Z) (answer : Answer) (c : Cache)
    : list Event * option StakingAPYResponse * Cache :=
  let fresh :=
    match stakingCache c with
    | Some _ => (now - cacheTimestamp c <? CACHE_DURATION)%Z
    | None => false
    end in
  if fresh then ([], stakingCache c, c)
  else
    let start := [Log "Staking Service: Fetching APY data from ML API...";
                  Get (ML_API_URL ++ "/api/staking/apy")%string] in
    let fallback (evs : list Event) :=
      match stakingCache c with
      | Some d => (evs ++ [Log "Staking Service: Using stale cache"], Some d, c)
      | None =>
          (evs ++ [Warn "Staking Service: No data available (API down and no cache)" None],
           None, c)
      end in
    match answer with
    | FetchRejects e =>
        fallback (start ++ [Warn "Staking Service: Failed to fetch APY:" (Some e)])
    | NotOk => fallback start
    | JsonRejects e =>
        fallback (start ++ [Warn "Staking Service: Failed to fetch APY:" (Some e)])
    | Json data =>
        if success data then
          (start ++ [Log "Staking Service: APY data fetched successfully"],
           Some data, mkCache (Some data) now)
        else fallback start
    end.

(** A sequence of calls: each with its time and the answer its request
    would get; the returned values in order, and the cache at the end. *)
Fixpoint calls (cs : list (Z * Answer)) (c : Cache)
    : list (option StakingAPYResponse) * Cache :=
  match cs with
  | [] => ([], c)
  | (now, answer) :: rest =>
      let '(_, r, c') := getAllStakingAPY now answer c in
      let (rs, c'') := calls rest c' in
      (r :: rs, c'')
  end.

Definition isGet (e : Event) : bool :=
  match e with
  | Get _ => true
  | _ => false
  end.

(** The requests among the events of a call. *)
Definition requests (r : list Event * option StakingAPYResponse * Cache) : nat :=
  List.length (filter isGet (fst (fst r))).

End Service.

Arguments mkCache {StakingAPYResponse}.
Arguments stakingCache {StakingAPYResponse}.
Arguments cacheTimestamp {StakingAPYResponse}.
Arguments empty {StakingAPYResponse}.
Arguments FetchRejects {StakingAPYResponse}.
Arguments NotOk {StakingAPYResponse}.
Arguments JsonRejects {StakingAPYResponse}.
Arguments Json {StakingAPYResponse}.
Arguments getAllStakingAPY {StakingAPYResponse}.
Arguments calls {StakingAPYResponse}.
Arguments requests {StakingAPYResponse}.

End StakingService.

(** Whether a call at [now] is served from the cache without a request. *)
Definition servedFromCache {D : Type} (now : Z) (c : StakingService.Cache D) : bool :=
  match StakingService.stakingCache c with
  | Some _ => (now - StakingService.cacheTimestamp c <? StakingService.CACHE_DURATION)%Z
  | None => false
  end.

(** ** Calls of [getAllStakingAPY] that overlap

    [getAllStakingAPY] reads the clock and tests the cache when it is called,
    and writes the cache after its request has been answered. Another call
    may start, or end, in between. A call is cut here at its request. *)

Module StakingCalls.

Section Calls.

Variable StakingAPYResponse : Type.
Variable success : StakingAPYResponse -> bool.

(** [getAllStakingAPY] from its call to its first [await] (lines 69-79), at
    time [now] on the cache [c]. [Some value]: the call has returned [value]
    from the cache. [None]: its request is out. *)
Definition getAllStakingAPY_begin (now : Z) (c : StakingService.Cache StakingAPYResponse)
    : list StakingService.Event * option (option StakingAPYResponse) :=
  let fresh :=
    match StakingService.stakingCache c with
    | Some _ => (now - StakingService.cacheTimestamp c <? StakingService.CACHE_DURATION)%Z
    | None => false
    end in
  if fresh then ([], Some (StakingService.stakingCache c))
  else
    ([StakingService.Log "Staking Service: Fetching APY data from ML API...";
      StakingService.Get (StakingService.ML_API_URL ++ "/api/staking/apy")%string],
     None).

(** [getAllStakingAPY] from the answer of its request on (lines 80-104).
    [now] is the constant read at the call; [c] is the cache as the call
    finds it when it goes on. *)
Definition getAllStakingAPY_resume (now : Z) (answer : StakingService.Answer StakingAPYResponse)
    (c : StakingService.Cache StakingAPYResponse)
    : list StakingService.Event * option StakingAPYResponse
      * StakingService.Cache StakingAPYResponse :=
  let fallback (evs : list StakingService.Event) :=
    match StakingService.stakingCache c with
    | Some d => (evs ++ [StakingService.Log "Staking Service: Using stale cache"], Some d, c)
    | None =>
        (evs ++ [StakingService.Warn
                   "Staking Service: No data available (API down and no cache)" None],
         None, c)
    end in
  match answer with
  | StakingService.FetchRejects e =>
      fallback [StakingService.Warn "Staking Service: Failed to fetch APY:" (Some e)]
  | StakingService.NotOk => fallback []
  | StakingService.JsonRejects e =>
      fallback [StakingService.Warn "Staking Service: Failed to fetch APY:" (Some e)]
  | StakingService.Json data =>
      if success data then
        ([StakingService.Log "Staking Service: APY data fetched successfully"],
         Some data, StakingService.mkCache (Some data) now)
      else fallback []
  end.

(** A call whose request is out: the time it read, and what its request
    will run into. *)
Record InFlight : Type := mkInFlight {
  startedAt : Z;
  answer : StakingService.Answer StakingAPYResponse
}.

(** The module variables and the calls in flight, oldest first. *)
Record System : Type := mkSystem {
  cache : StakingService.Cache StakingAPYResponse;
  inFlight : list InFlight
}.

Inductive Step : Type :=
| Call (now : Z) (answer : StakingService.Answer StakingAPYResponse)
      (* [getAllStakingAPY()] is called *)
| Settle (k : nat).
      (* the request of the [k]-th call in flight is answered *)

Fixpoint remove_nth {A : Type} (k : nat) (xs : list A) : list A :=
  match xs, k with
  | [], _ => []
  | _ :: rest, O => rest
  | x :: rest, S k' => x :: remove_nth k' rest
  end.

(** One step: the events, the value of the call that returns in it (if
    one does), the system afterwards. *)
Definition step (s : Step) (sys : System)
    : list StakingService.Event * list (option StakingAPYResponse) * System :=
  match s with
  | Call now answer =>
      match getAllStakingAPY_begin now (cache sys) with
      | (evs, Some value) => (evs, [value], sys)
      | (evs, None) =>
          (evs, [], mkSystem (cache sys) (inFlight sys ++ [mkInFlight now answer]))
      end
  | Settle k =>
      match nth_error (inFlight sys) k with
      | None => ([], [], sys)
      | Some call =>
          let '(evs, value, c') :=
            getAllStakingAPY_resume (startedAt call) (answer call) (cache sys) in
          (evs, [value], mkSystem c' (remove_nth k (inFlight sys)))
      end
  end.

(** The events, the returned values in the order the calls return, and the
    system at the end. *)
Fixpoint run (steps : list Step) (sys : System)
    : list StakingService.Event * list (option StakingAPYResponse) * System :=
  match steps with
  | [] => ([], [], sys)
  | s :: rest =>
      let '(evs, values, sys') := step s sys in
      let '(evs', values', sys'') := run rest sys' in
      (evs ++ evs', values ++ values', sys'')
  end.

(** The calls among the steps. *)
Fixpoint callTimes (steps : list Step) : list Z :=
  match steps with
  | [] => []
  | Call now _ :: rest => now :: callTimes rest
  | Settle _ :: rest => callTimes rest
  end.

End Calls.

Arguments getAllStakingAPY_begin {StakingAPYResponse}.
Arguments getAllStakingAPY_resume {StakingAPYResponse}.
Arguments mkInFlight {StakingAPYResponse}.
Arguments startedAt {StakingAPYResponse}.
Arguments answer {StakingAPYResponse}.
Arguments mkSystem {StakingAPYResponse}.
Arguments cache {StakingAPYResponse}.
Arguments inFlight {StakingAPYResponse}.
Arguments Call {StakingAPYResponse}.
Arguments Settle {StakingAPYResponse}.
Arguments step {StakingAPYResponse}.
Arguments run {StakingAPYResponse}.
Arguments callTimes {StakingAPYResponse}.

End StakingCalls.

(** * Properties *)

(** ** Order facts on binary64 values, from the specification of the
    primitive comparisons. *)

Lemma SFcompare_antisym (x y : spec_float) (c : comparison) :
  SFcompare x y = Some c -> SFcompare y x = Some (CompOpp c).
Proof.
  destruct x as [sx | sx | | sx mx ex], y as [sy | sy | | sy my ey];
    simpl; try discriminate;
    try (intros H; injection H as <-; destruct sx; try destruct sy; reflexivity).
  intros H; injection H as <-.
  change (Pos.compare_cont Eq mx my) with (Pos.compare mx my).
  change (Pos.compare_cont Eq my mx) with (Pos.compare my mx).
  rewrite (Z.compare_antisym ex ey), (Pos.compare_antisym mx my).
  destruct sx, sy; try reflexivity;
    destruct (ex ?= ey)%Z; simpl; try reflexivity;
    destruct (mx ?= my)%positive; reflexivity.
Qed.

Lemma js_le_not_gt (a b : JS.number) : JS.le a b = true -> JS.gt a b = false.
Proof.
  unfold JS.le, JS.gt. rewrite leb_spec, ltb_spec.
  unfold SFleb, SFltb.
  destruct (SFcompare (Prim2SF a) (Prim2SF b)) as [c |] eqn:E; try discriminate.
  rewrite (SFcompare_antisym _ _ _ E).
  destruct c; simpl; congruence.
Qed.

Lemma js_le_not_lt (a b : JS.number) : JS.le a b = true -> JS.lt b a = false.
Proof. exact (js_le_not_gt a b). Qed.

(** ** Facts about traces and completions *)

Lemma count_app (p : Event -> bool) (t1 t2 : Trace) :
  count p (t1 ++ t2) = count p t1 + count p t2.
Proof. unfold count. rewrite filter_app, length_app. reflexivity. Qed.

Lemma trace_bind {A B : Type} (m : Eff A) (f : A -> Eff B) (a : A) :
  completion_of m = Normal a ->
  trace_of (bind m f) = trace_of m ++ trace_of (f a).
Proof.
  destruct m as [t c]; simpl; intros ->.
  unfold bind. destruct (f a); reflexivity.
Qed.

Lemma completion_bind {A B : Type} (m : Eff A) (f : A -> Eff B) (a : A) :
  completion_of m = Normal a ->
  completion_of (bind m f) = completion_of (f a).
Proof.
  destruct m as [t c]; simpl; intros ->.
  unfold bind. destruct (f a); reflexivity.
Qed.

(** Case analysis on everything the world can answer. *)
Ltac world_cases :=
  repeat match goal with
  | |- context [match ?x with _ => _ end] =>
      match type of x with
      | bool => destruct x eqn:?
      | Settled _ => destruct x eqn:?
      | option _ => destruct x eqn:?
      | Completion _ => destruct x eqn:?
      end; simpl
  | |- context [if ?x then _ else _] => destruct x eqn:?; simpl
  end.

(** *** The dispatcher *)

Lemma logAlert_returns (fb : FirebaseManager.t) add (r : AlertRecord) :
  completion_of (FirebaseManager.logAlert fb add r) = Normal tt.
Proof.
  unfold FirebaseManager.logAlert.
  destruct (FirebaseManager.db fb); simpl; [| reflexivity].
  destruct (add r) as [[] | e]; reflexivity.
Qed.

(** The dispatcher's cases, outermost first: the token, what [fetch] settles
    to, then the response, whether it is a test, the audit store. *)
Ltac dispatcher_cases w this :=
  unfold PriceMonitor.sendTelegramAlert, FirebaseManager.logAlert;
  destruct (PriceMonitor.isPlaceholderToken
              (PriceMonitor.telegramBotToken (PriceMonitor.config this))) eqn:?;
  [| destruct (PriceMonitor.fetch w _ _ _) as [[st stt [body | e]] | e] eqn:?;
     unfold PriceMonitor.ok, await; simpl; world_cases ].

Lemma sendTelegramAlert_returns w this price isTest :
  completion_of (PriceMonitor.sendTelegramAlert w this price isTest) = Normal tt.
Proof. dispatcher_cases w this; reflexivity. Qed.

Lemma sendTelegramAlert_dispatches w this price isTest :
  dispatches (trace_of (PriceMonitor.sendTelegramAlert w this price isTest)) = 1.
Proof. dispatcher_cases w this; reflexivity. Qed.

Lemma sendTelegramAlert_first w this price isTest :
  exists rest,
    trace_of (PriceMonitor.sendTelegramAlert w this price isTest)
    = SendTelegramAlert price isTest :: rest.
Proof. dispatcher_cases w this; eexists; reflexivity. Qed.

(** *** The poll *)

Lemma eff_eta {A : Type} (m : Eff A) : m = (trace_of m, completion_of m).
Proof. destruct m; reflexivity. Qed.

(** What a poll does once the oracle has answered: the two queries, the
    price line, and then one of three things. *)
Lemma checkPrice_observed sdk w this pool sqrtPrice :
  oracleAnswers w this pool sqrtPrice ->
  let c := PriceMonitor.config this in
  let a := PriceMonitor.poolAddress c in
  let p := observedPrice sdk pool sqrtPrice in
  let inverted := PriceMonitor.isQuoteToken
                    (PriceMonitor.mint (PriceMonitor.getTokenAInfo pool)) in
  PriceMonitor.checkPrice sdk w this =
  ([ClientGetPool a; FetcherGetPool a;
    ConsoleLog [Str "["; NowISO; Str "] Current Price: "; Fixed6 p; Str " ";
                Str (if inverted then "(Inverted)" else "")]]
   ++ (if PriceMonitor.isUnconfigured c then
         [ConsoleLog [Str "["; NowISO; Str "] Current Price: "; Fixed6 p;
                      Str ". Waiting for configuration..."]]
       else if PriceMonitor.outOfBounds c p then
         ConsoleLog [Str "Price out of bounds! Sending alert..."]
         :: trace_of (PriceMonitor.sendTelegramAlert w this p false)
       else []),
   Normal tt).
Proof.
  intros (Hkey & Hclient & Hfetch) c a p inverted.
  subst c a p inverted. unfold observedPrice.
  unfold PriceMonitor.checkPrice, PriceMonitor.newPublicKey.
  cbv zeta in *.
  rewrite Hkey. cbn [bind ret emit throw await].
  rewrite Hclient. cbn [bind ret emit throw await].
  rewrite Hfetch. cbn [bind ret emit throw await].
  destruct (PriceMonitor.isUnconfigured _); [reflexivity |].
  destruct (PriceMonitor.outOfBounds _ _); [| reflexivity].
  match goal with
  | |- context [PriceMonitor.sendTelegramAlert ?w ?t ?p ?b] =>
      rewrite (eff_eta (PriceMonitor.sendTelegramAlert w t p b));
      rewrite sendTelegramAlert_returns
  end.
  reflexivity.
Qed.

(** ** The price watch loop and its threshold test *)

(** C1. On a poll whose oracle query succeeds and whose bounds are not the
    sentinel pair (0,0): when the observed price [p] is below the lower bound
    or above the upper bound, the dispatcher is invoked exactly once (with
    [p], not as a test); when [lowerBound <= p <= upperBound] it is not
    invoked. *)
Theorem checkPrice_dispatches_iff_out_of_bounds
    sdk w this pool sqrtPrice :
  oracleAnswers w this pool sqrtPrice ->
  PriceMonitor.isUnconfigured (PriceMonitor.config this) = false ->
  let p := observedPrice sdk pool sqrtPrice in
  let lowerBound := PriceMonitor.priceLowerBound (PriceMonitor.config this) in
  let upperBound := PriceMonitor.priceUpperBound (PriceMonitor.config this) in
  let t := trace_of (PriceMonitor.checkPrice sdk w this) in
  (JS.lt p lowerBound = true \/ JS.gt p upperBound = true ->
     dispatches t = 1 /\ In (SendTelegramAlert p false) t) /\
  (JS.le lowerBound p = true /\ JS.le p upperBound = true ->
     dispatches t = 0).
Proof.
  intros Horacle Hconf p lowerBound upperBound t.
  subst t. rewrite (checkPrice_observed sdk w this pool sqrtPrice Horacle).
  cbv zeta. fold p. rewrite Hconf.
  pose proof (sendTelegramAlert_dispatches w this p false) as Hone.
  destruct (sendTelegramAlert_first w this p false) as [rest Hfirst].
  remember (trace_of (PriceMonitor.sendTelegramAlert w this p false)) as ts eqn:Ets.
  unfold trace_of, PriceMonitor.outOfBounds. cbn [fst]. fold lowerBound upperBound.
  split.
  - intros Hout.
    assert (Ho : JS.lt p lowerBound || JS.gt p upperBound = true)
      by (destruct Hout as [-> | ->]; [reflexivity | apply orb_true_r]).
    rewrite Ho. split.
    + unfold dispatches in *. rewrite count_app.
      change (count isDispatch (ConsoleLog ?x :: ts)) with (count isDispatch ts).
      rewrite Hone. reflexivity.
    + rewrite Hfirst. apply in_or_app. right. right. left. reflexivity.
  - intros [Hlo Hhi].
    rewrite (js_le_not_lt _ _ Hlo), (js_le_not_gt _ _ Hhi). reflexivity.
Qed.

Lemma checkPrice_dispatches_iff_out_of_bounds_witness :
  dispatches (trace_of (PriceMonitor.checkPrice Scenario.sdk (Scenario.world 200)
                          (Scenario.monitor Scenario.realToken 180%float 200%float true))) = 1.
Proof.
  apply (checkPrice_dispatches_iff_out_of_bounds
           Scenario.sdk (Scenario.world 200)
           (Scenario.monitor Scenario.realToken 180%float 200%float true)
           Scenario.solUsdc Scenario.sqrtPrice250).
  - repeat split; reflexivity.
  - vm_compute. reflexivity.
  - right. vm_compute. reflexivity.
Defined.

(** C2. On a poll whose oracle query succeeds while the bounds are the
    sentinel pair (0,0): whatever the observed price, the poll logs it, says
    it is waiting for configuration, returns normally, and neither invokes
    the dispatcher nor sends or records anything. *)
Theorem checkPrice_unconfigured_no_alert
    sdk w this pool sqrtPrice :
  oracleAnswers w this pool sqrtPrice ->
  JS.seq (PriceMonitor.priceLowerBound (PriceMonitor.config this)) JS.zero = true ->
  JS.seq (PriceMonitor.priceUpperBound (PriceMonitor.config this)) JS.zero = true ->
  let p := observedPrice sdk pool sqrtPrice in
  let r := PriceMonitor.checkPrice sdk w this in
  completion_of r = Normal tt /\
  In (ConsoleLog [Str "["; NowISO; Str "] Current Price: "; Fixed6 p;
                  Str ". Waiting for configuration..."]) (trace_of r) /\
  dispatches (trace_of r) = 0 /\
  networkCalls (trace_of r) = 0 /\
  auditWrites (trace_of r) = 0.
Proof.
  intros Horacle Hlo Hhi p r. subst r.
  rewrite (checkPrice_observed sdk w this pool sqrtPrice Horacle).
  cbv zeta. fold p. unfold PriceMonitor.isUnconfigured. rewrite Hlo, Hhi.
  cbn [andb completion_of trace_of fst snd].
  repeat split.
  apply in_or_app. right. left. reflexivity.
Qed.

Lemma checkPrice_unconfigured_no_alert_witness :
  dispatches (trace_of (PriceMonitor.checkPrice Scenario.sdk (Scenario.world 200)
                          (Scenario.monitor Scenario.realToken 0%float 0%float true))) = 0.
Proof.
  apply (checkPrice_unconfigured_no_alert
           Scenario.sdk (Scenario.world 200)
           (Scenario.monitor Scenario.realToken 0%float 0%float true)
           Scenario.solUsdc Scenario.sqrtPrice250).
  - repeat split; reflexivity.
  - vm_compute. reflexivity.
  - vm_compute. reflexivity.
Defined.

(** With the sentinel bounds a poll alerts nobody, whether or not the
    oracle answers. *)
Lemma checkPrice_unconfigured_silent sdk w this :
  PriceMonitor.isUnconfigured (PriceMonitor.config this) = true ->
  let t := trace_of (PriceMonitor.checkPrice sdk w this) in
  dispatches t = 0 /\ networkCalls t = 0 /\ alertRecords t = [].
Proof.
  intros Hconf. cbv zeta.
  unfold PriceMonitor.checkPrice, PriceMonitor.newPublicKey. cbv zeta.
  destruct (PriceMonitor.publicKeyError w _) as [e |]; [repeat split |].
  cbn [bind ret emit].
  destruct (PriceMonitor.clientGetPool w _) as [pool | e]; [| repeat split].
  cbn [bind ret emit await].
  destruct (PriceMonitor.fetcherGetPool w _) as [[sqrtPrice |] | e];
    [| repeat split | repeat split].
  cbn [bind ret emit await]. rewrite Hconf. repeat split.
Qed.

(** ** The notification dispatcher *)

(** [JS.includes] is containment: the needle occurs between some prefix and
    some suffix. *)
Lemma prefix_spec (p s : string) :
  String.prefix p s = true <-> exists post, s = (p ++ post)%string.
Proof.
  revert s. induction p as [| a p IH]; intros s.
  - split; [intros _; exists s; reflexivity | intros _; destruct s; reflexivity].
  - destruct s as [| b s]; simpl.
    + split; [discriminate | intros [post H]; discriminate].
    + destruct (ascii_dec a b) as [Hab | Hab].
      * subst b. split.
        -- intros H. apply IH in H. destruct H as [post ->]. exists post. reflexivity.
        -- intros [post H]. injection H as H. apply IH. exists post. exact H.
      * split; [discriminate | intros [post H]; injection H as H1 H2; congruence].
Qed.

Lemma includes_spec (s sub : string) :
  JS.includes s sub = true <-> exists pre post, s = (pre ++ sub ++ post)%string.
Proof.
  induction s as [| a s IH]; cbn [JS.includes].
  - rewrite orb_false_r. split.
    + intros H. apply prefix_spec in H. destruct H as [post H].
      exists EmptyString, post. exact H.
    + intros [[| b pre] [post H]]; [| discriminate].
      apply prefix_spec. exists post. exact H.
  - rewrite orb_true_iff. split.
    + intros [H | H].
      * apply prefix_spec in H. destruct H as [post H].
        exists EmptyString, post. exact H.
      * apply IH in H. destruct H as (pre & post & H).
        exists (String a pre), post. simpl. now rewrite H.
    + intros [[| b pre] [post H]].
      * left. apply prefix_spec. exists post. exact H.
      * right. injection H as _ H. apply IH. exists pre, post. exact H.
Qed.

(** The demo branch of the dispatcher. *)
Lemma sendTelegramAlert_placeholder w this price isTest :
  PriceMonitor.isPlaceholderToken
    (PriceMonitor.telegramBotToken (PriceMonitor.config this)) = true ->
  PriceMonitor.sendTelegramAlert w this price isTest =
  ([SendTelegramAlert price isTest;
    ConsoleLog [Str "---------------------------------------------------"];
    ConsoleLog [Str "[MOCK TELEGRAM] Alert Triggered!"];
    ConsoleLog (PriceMonitor.alertMessage (PriceMonitor.config this) price isTest);
    ConsoleLog [Str "---------------------------------------------------"]],
   Normal tt).
Proof.
  intros Hdemo. unfold PriceMonitor.sendTelegramAlert. rewrite Hdemo. reflexivity.
Qed.

(** C4. When the bot token contains one of the two placeholder substrings,
    the dispatcher prints its four console lines (the message among them)
    and returns normally: it sends no request to the channel, logs no error
    and records nothing, whatever the price, the test flag and the world. *)
Theorem sendTelegramAlert_placeholder_is_local w this price isTest :
  PriceMonitor.isPlaceholderToken
    (PriceMonitor.telegramBotToken (PriceMonitor.config this)) = true ->
  let r := PriceMonitor.sendTelegramAlert w this price isTest in
  r = ([SendTelegramAlert price isTest;
        ConsoleLog [Str "---------------------------------------------------"];
        ConsoleLog [Str "[MOCK TELEGRAM] Alert Triggered!"];
        ConsoleLog (PriceMonitor.alertMessage (PriceMonitor.config this) price isTest);
        ConsoleLog [Str "---------------------------------------------------"]],
       Normal tt) /\
  networkCalls (trace_of r) = 0 /\
  count isConsoleError (trace_of r) = 0 /\
  auditWrites (trace_of r) = 0.
Proof.
  intros Hdemo r. subst r.
  rewrite (sendTelegramAlert_placeholder w this price isTest Hdemo).
  repeat split.
Qed.

Lemma sendTelegramAlert_placeholder_is_local_witness :
  networkCalls
    (trace_of (PriceMonitor.sendTelegramAlert Scenario.offline
                 (Scenario.monitor Scenario.demoToken 180%float 200%float true)
                 175%float false)) = 0.
Proof.
  apply (sendTelegramAlert_placeholder_is_local Scenario.offline
           (Scenario.monitor Scenario.demoToken 180%float 200%float true)
           175%float false).
  vm_compute. reflexivity.
Defined.

(** The records of a dispatch that got a response. *)
Lemma sendTelegramAlert_records w this price isTest response :
  PriceMonitor.isPlaceholderToken
    (PriceMonitor.telegramBotToken (PriceMonitor.config this)) = false ->
  channelAnswers w this price isTest response ->
  responseHandled response ->
  alertRecords (trace_of (PriceMonitor.sendTelegramAlert w this price isTest)) =
  if negb isTest && FirebaseManager.db (PriceMonitor.firebaseManager this)
  then [mkAlertRecord (PriceMonitor.poolAddress (PriceMonitor.config this)) price
          (PriceMonitor.priceLowerBound (PriceMonitor.config this))
          (PriceMonitor.priceUpperBound (PriceMonitor.config this))
          (PriceMonitor.alertMessage (PriceMonitor.config this) price isTest)
          (if PriceMonitor.ok response then success else failed)]
  else [].
Proof.
  intros Hreal Hfetch Hresp. unfold channelAnswers in Hfetch. cbv zeta in Hfetch.
  unfold PriceMonitor.sendTelegramAlert, FirebaseManager.logAlert.
  rewrite Hreal. cbv zeta. cbn [bind emit]. rewrite Hfetch.
  unfold await. cbn [bind ret].
  destruct (PriceMonitor.ok response) eqn:Hok; simpl.
  - destruct isTest; simpl; [reflexivity |].
    destruct (FirebaseManager.db _); simpl; [| reflexivity].
    destruct (PriceMonitor.alertsAdd w _) as [[] | e]; reflexivity.
  - destruct (PriceMonitor.status response =? 404)%Z eqn:H404; simpl.
    + destruct isTest; simpl; [reflexivity |].
      destruct (FirebaseManager.db _); simpl; [| reflexivity].
      destruct (PriceMonitor.alertsAdd w _) as [[] | e]; reflexivity.
    + destruct Hresp as [H | [H | [body H]]];
        [congruence | apply Z.eqb_neq in H404; contradiction |].
      rewrite H. simpl.
      destruct isTest; simpl; [reflexivity |].
      destruct (FirebaseManager.db _); simpl; [| reflexivity].
      destruct (PriceMonitor.alertsAdd w _) as [[] | e]; reflexivity.
Qed.

(** C3, as stated, fails: a dispatch that is not a startup test, made with a
    placeholder token, hands no record to the audit collection although the
    store is up. *)
Lemma dispatch_without_record :
  let t := trace_of (PriceMonitor.sendTelegramAlert (Scenario.world 200)
                       (Scenario.monitor Scenario.demoToken 180%float 200%float true)
                       175%float false) in
  dispatches t = 1 /\ alertRecords t = [].
Proof. vm_compute. split; reflexivity. Qed.

(** C3, amended. A startup-test dispatch never hands a record to the audit
    collection, and neither does a dispatch made with a placeholder token.
    A dispatch that is not a startup test, made with a real token while the
    store is initialised, and whose request gets a response the dispatcher
    gets past (2xx, 404, or an error response whose body can be read), hands
    exactly one record to the collection, with status [success] for a 2xx
    response and [failed] otherwise. *)
Theorem sendTelegramAlert_audit_record w this price isTest :
  let c := PriceMonitor.config this in
  let t := trace_of (PriceMonitor.sendTelegramAlert w this price isTest) in
  (isTest = true -> alertRecords t = []) /\
  (PriceMonitor.isPlaceholderToken (PriceMonitor.telegramBotToken c) = true ->
     alertRecords t = []) /\
  (forall response,
     isTest = false ->
     PriceMonitor.isPlaceholderToken (PriceMonitor.telegramBotToken c) = false ->
     FirebaseManager.db (PriceMonitor.firebaseManager this) = true ->
     channelAnswers w this price isTest response ->
     responseHandled response ->
     alertRecords t =
     [recordOf this price (if PriceMonitor.ok response then success else failed)]).
Proof.
  intros c t. subst c t. split; [| split].
  - intros ->. dispatcher_cases w this; reflexivity.
  - intros Hdemo.
    rewrite (sendTelegramAlert_placeholder w this price isTest Hdemo).
    reflexivity.
  - intros response -> Hreal Hdb Hfetch Hresp.
    rewrite (sendTelegramAlert_records w this price false response Hreal Hfetch Hresp).
    rewrite Hdb. reflexivity.
Qed.

Lemma sendTelegramAlert_audit_record_witness :
  alertRecords
    (trace_of (PriceMonitor.sendTelegramAlert (Scenario.world 500)
                 (Scenario.monitor Scenario.realToken 180%float 200%float true)
                 175%float false))
  = [recordOf (Scenario.monitor Scenario.realToken 180%float 200%float true)
       175%float failed].
Proof.
  destruct (sendTelegramAlert_audit_record (Scenario.world 500)
              (Scenario.monitor Scenario.realToken 180%float 200%float true)
              175%float false) as (_ & _ & H).
  apply (H (PriceMonitor.mkResponse 500 "" (Resolves "{}"))).
  - reflexivity.
  - vm_compute. reflexivity.
  - reflexivity.
  - reflexivity.
  - right. right. exists "{}". reflexivity.
Defined.

(** C6. When the request of a dispatch is answered with status 404, the
    dispatcher returns normally, logs the invalid-token error and falls back
    to printing the message; every record it hands to the audit collection
    has status [failed], and a dispatch that is not a startup test hands over
    exactly that one record when the store is initialised. *)
Theorem sendTelegramAlert_404_is_recorded_failed w this price isTest response :
  PriceMonitor.isPlaceholderToken
    (PriceMonitor.telegramBotToken (PriceMonitor.config this)) = false ->
  channelAnswers w this price isTest response ->
  PriceMonitor.status response = 404%Z ->
  let r := PriceMonitor.sendTelegramAlert w this price isTest in
  completion_of r = Normal tt /\
  In (ConsoleError [Str "Failed to send real Telegram alert (404). Configured token is invalid."])
     (trace_of r) /\
  In (ConsoleLog [Str "Falling back to console alert for demo:"]) (trace_of r) /\
  In (ConsoleLog (PriceMonitor.alertMessage (PriceMonitor.config this) price isTest))
     (trace_of r) /\
  Forall (fun record => ar_telegramStatus record = failed) (alertRecords (trace_of r)) /\
  (isTest = false ->
   FirebaseManager.db (PriceMonitor.firebaseManager this) = true ->
   alertRecords (trace_of r) = [recordOf this price failed]).
Proof.
  intros Hreal Hfetch H404 r. subst r.
  assert (Hok : PriceMonitor.ok response = false)
    by (unfold PriceMonitor.ok; rewrite H404; reflexivity).
  assert (Hresp : responseHandled response) by (right; left; exact H404).
  pose proof (sendTelegramAlert_records w this price isTest response Hreal Hfetch Hresp)
    as Hrec.
  rewrite Hok in Hrec.
  split; [apply sendTelegramAlert_returns |].
  split; [| split; [| split; [| split]]].
  4: { rewrite Hrec. destruct (negb isTest && _); repeat constructor. }
  4: { intros -> Hdb. rewrite Hrec, Hdb. reflexivity. }
  all: unfold channelAnswers in Hfetch; cbv zeta in Hfetch;
    unfold PriceMonitor.sendTelegramAlert, FirebaseManager.logAlert;
    rewrite Hreal; cbv zeta; cbn [bind emit]; rewrite Hfetch;
    unfold await; cbn [bind ret]; rewrite Hok, H404; simpl;
    world_cases; simpl; tauto.
Qed.

Lemma sendTelegramAlert_404_is_recorded_failed_witness :
  alertRecords
    (trace_of (PriceMonitor.sendTelegramAlert (Scenario.world 404)
                 (Scenario.monitor Scenario.realToken 180%float 200%float true)
                 175%float false))
  = [recordOf (Scenario.monitor Scenario.realToken 180%float 200%float true)
       175%float failed].
Proof.
  apply (sendTelegramAlert_404_is_recorded_failed (Scenario.world 404)
           (Scenario.monitor Scenario.realToken 180%float 200%float true)
           175%float false
           (PriceMonitor.mkResponse 404 "" (Resolves "{}"))).
  - vm_compute. reflexivity.
  - reflexivity.
  - reflexivity.
  - reflexivity.
  - reflexivity.
Defined.

(** ** Failures stay inside *)

Lemma checkPrice_returns sdk w this :
  completion_of (PriceMonitor.checkPrice sdk w this) = Normal tt.
Proof.
  unfold PriceMonitor.checkPrice, PriceMonitor.newPublicKey. cbv zeta.
  destruct (PriceMonitor.publicKeyError w _) as [e |]; [reflexivity |].
  cbn [bind ret emit].
  destruct (PriceMonitor.clientGetPool w _) as [pool | e]; [| reflexivity].
  cbn [bind ret emit await].
  destruct (PriceMonitor.fetcherGetPool w _) as [[sqrtPrice |] | e];
    [| reflexivity | reflexivity].
  cbn [bind ret emit await].
  destruct (PriceMonitor.isUnconfigured _); [reflexivity |].
  destruct (PriceMonitor.outOfBounds _ _); [| reflexivity].
  match goal with
  | |- context [PriceMonitor.sendTelegramAlert ?w ?t ?p ?b] =>
      rewrite (eff_eta (PriceMonitor.sendTelegramAlert w t p b));
      rewrite sendTelegramAlert_returns
  end.
  reflexivity.
Qed.

(** A poll that runs into an oracle error logs it, as its last act, and
    alerts nobody. *)
Lemma checkPrice_oracle_error sdk w this e :
  oracleError w (PriceMonitor.poolAddress (PriceMonitor.config this)) = Some e ->
  let t := trace_of (PriceMonitor.checkPrice sdk w this) in
  lastEvent t = Some (ConsoleError [Str "Error checking price:"; Thrown e]) /\
  dispatches t = 0.
Proof.
  unfold oracleError, PriceMonitor.checkPrice, PriceMonitor.newPublicKey. cbv zeta.
  destruct (PriceMonitor.publicKeyError w _) as [e0 |].
  { intros [= ->]. split; reflexivity. }
  cbn [bind ret emit].
  destruct (PriceMonitor.clientGetPool w _) as [pool | e0].
  2: { intros [= ->]. split; reflexivity. }
  cbn [bind ret emit await].
  destruct (PriceMonitor.fetcherGetPool w _) as [[sqrtPrice |] | e0].
  - discriminate.
  - intros [= <-]. split; reflexivity.
  - intros [= ->]. split; reflexivity.
Qed.

(** A request that does not get through, or gets an error status, leaves
    an error line. *)
Lemma sendTelegramAlert_failure_logged w this price isTest :
  PriceMonitor.isPlaceholderToken
    (PriceMonitor.telegramBotToken (PriceMonitor.config this)) = false ->
  let c := PriceMonitor.config this in
  let answer :=
    PriceMonitor.fetch w
      ("https://api.telegram.org/bot" ++ PriceMonitor.telegramBotToken c ++ "/sendMessage")%string
      (PriceMonitor.telegramChatId c) (PriceMonitor.alertMessage c price isTest) in
  let t := trace_of (PriceMonitor.sendTelegramAlert w this price isTest) in
  match answer with
  | Rejects e =>
      lastEvent t
      = Some (ConsoleError [Str "Error sending Telegram alert network request:"; Thrown e])
  | Resolves response =>
      PriceMonitor.ok response = false -> 1 <= count isConsoleError t
  end.
Proof.
  intros Hreal c answer t. subst c answer t.
  unfold PriceMonitor.sendTelegramAlert, FirebaseManager.logAlert.
  rewrite Hreal. cbv zeta. cbn [bind emit].
  destruct (PriceMonitor.fetch w _ _ _) as [[st stt [body | e]] | e];
    [| | reflexivity];
    unfold PriceMonitor.ok, await; simpl; intros ->; simpl;
    world_cases; unfold count; simpl; lia.
Qed.

(** A rejected audit write leaves an error line and nothing else. *)
Lemma logAlert_failure_logged (fb : FirebaseManager.t) add (r : AlertRecord) e :
  FirebaseManager.db fb = true ->
  add r = Rejects e ->
  FirebaseManager.logAlert fb add r =
  ([FirestoreAdd r; ConsoleError [Str "Error logging alert to Firestore:"; Thrown e]],
   Normal tt).
Proof.
  intros Hdb Hadd. unfold FirebaseManager.logAlert. rewrite Hdb. simpl.
  rewrite Hadd. reflexivity.
Qed.

Lemma onConfig_returns newConfig this :
  returns_normally (PriceMonitor.onConfig newConfig this).
Proof.
  unfold PriceMonitor.onConfig, returns_normally.
  destruct newConfig as [[lo |] [hi |] [a |]]; simpl;
    try destruct (JS.truthy a && JS.sne a _); simpl; eexists; reflexivity.
Qed.

Lemma handle_returns sdk i this :
  returns_normally (PriceMonitor.handle sdk i this).
Proof.
  destruct i as [w | [id [data |] | e]]; unfold PriceMonitor.handle.
  - exists this.
    rewrite (eff_eta (PriceMonitor.checkPrice sdk w this)), checkPrice_returns.
    reflexivity.
  - destruct (PriceMonitor.listening this); [| exists this; reflexivity].
    destruct (onConfig_returns data this) as [this' H].
    exists this'. unfold FirebaseManager.onSnapshot.
    rewrite (eff_eta (PriceMonitor.onConfig data this)), H. reflexivity.
  - destruct (PriceMonitor.listening this); exists this; reflexivity.
  - destruct (PriceMonitor.listening this); exists this; reflexivity.
Qed.

Lemma run_returns sdk inputs this :
  returns_normally (PriceMonitor.run sdk inputs this).
Proof.
  revert this. induction inputs as [| i rest IH]; intros this.
  - exists this. reflexivity.
  - destruct (handle_returns sdk i this) as [this' H].
    destruct (IH this') as [this'' H'].
    exists this''. cbn [PriceMonitor.run].
    rewrite (completion_bind _ _ this' H). exact H'.
Qed.

(** The run goes on after any prefix of its inputs. *)
Lemma run_app sdk xs ys this this' :
  completion_of (PriceMonitor.run sdk xs this) = Normal this' ->
  trace_of (PriceMonitor.run sdk (xs ++ ys) this)
  = trace_of (PriceMonitor.run sdk xs this) ++ trace_of (PriceMonitor.run sdk ys this') /\
  completion_of (PriceMonitor.run sdk (xs ++ ys) this)
  = completion_of (PriceMonitor.run sdk ys this').
Proof.
  revert this. induction xs as [| i rest IH]; intros this.
  - simpl. intros [= ->]. split; reflexivity.
  - cbn [PriceMonitor.run app].
    destruct (handle_returns sdk i this) as [mid Hmid].
    rewrite (completion_bind _ _ mid Hmid). intros Hrest.
    destruct (IH mid Hrest) as [Ht Hc].
    rewrite (trace_bind _ _ mid Hmid), (trace_bind _ _ mid Hmid),
            (completion_bind _ _ mid Hmid), Ht, Hc.
    split; [apply app_assoc | reflexivity].
Qed.

(** C5. No failure leaves the dispatcher, the poll or the loop.
    The dispatcher returns normally whatever the channel and the audit store
    answer; a request that is rejected or answered with an error status
    leaves an error line; the audit write returns normally too, and leaves
    an error line when the store rejects it. The poll
    returns normally whatever the oracle, the channel and the store answer;
    an oracle error is logged as the poll's last act, without an alert. A
    run of the monitor therefore handles every one of its inputs, and goes
    on after any prefix of them. *)
Theorem failures_never_escape (sdk : PriceMonitor.Sdk) :
  (forall w this price isTest,
     completion_of (PriceMonitor.sendTelegramAlert w this price isTest) = Normal tt) /\
  (forall w this price isTest,
     PriceMonitor.isPlaceholderToken
       (PriceMonitor.telegramBotToken (PriceMonitor.config this)) = false ->
     let c := PriceMonitor.config this in
     let t := trace_of (PriceMonitor.sendTelegramAlert w this price isTest) in
     match PriceMonitor.fetch w
             ("https://api.telegram.org/bot" ++ PriceMonitor.telegramBotToken c
              ++ "/sendMessage")%string
             (PriceMonitor.telegramChatId c) (PriceMonitor.alertMessage c price isTest)
     with
     | Rejects e =>
         lastEvent t
         = Some (ConsoleError [Str "Error sending Telegram alert network request:";
                               Thrown e])
     | Resolves response =>
         PriceMonitor.ok response = false -> 1 <= count isConsoleError t
     end) /\
  (forall fb add record,
     completion_of (FirebaseManager.logAlert fb add record) = Normal tt) /\
  (forall fb add record e,
     FirebaseManager.db fb = true ->
     add record = Rejects e ->
     FirebaseManager.logAlert fb add record =
     ([FirestoreAdd record;
       ConsoleError [Str "Error logging alert to Firestore:"; Thrown e]],
      Normal tt)) /\
  (forall w this,
     completion_of (PriceMonitor.checkPrice sdk w this) = Normal tt) /\
  (forall w this e,
     oracleError w (PriceMonitor.poolAddress (PriceMonitor.config this)) = Some e ->
     lastEvent (trace_of (PriceMonitor.checkPrice sdk w this))
     = Some (ConsoleError [Str "Error checking price:"; Thrown e]) /\
     dispatches (trace_of (PriceMonitor.checkPrice sdk w this)) = 0) /\
  (forall inputs this, returns_normally (PriceMonitor.run sdk inputs this)) /\
  (forall xs ys this,
     exists this',
       completion_of (PriceMonitor.run sdk xs this) = Normal this' /\
       trace_of (PriceMonitor.run sdk (xs ++ ys) this)
       = trace_of (PriceMonitor.run sdk xs this)
         ++ trace_of (PriceMonitor.run sdk ys this')).
Proof.
  split; [exact sendTelegramAlert_returns |].
  split; [exact sendTelegramAlert_failure_logged |].
  split; [exact logAlert_returns |].
  split; [exact logAlert_failure_logged |].
  split; [exact (checkPrice_returns sdk) |].
  split; [exact (checkPrice_oracle_error sdk) |].
  split; [exact (run_returns sdk) |].
  intros xs ys this.
  destruct (run_returns sdk xs this) as [this' H].
  exists this'. split; [exact H |].
  exact (proj1 (run_app sdk xs ys this this' H)).
Qed.

(** An outage from end to end: the oracle is down for three polls in a row,
    and each of them ends in its error line. *)
Lemma failures_never_escape_witness :
  returns_normally
    (PriceMonitor.run Scenario.sdk
       [PriceMonitor.Tick Scenario.offline; PriceMonitor.Tick Scenario.offline;
        PriceMonitor.Tick Scenario.offline]
       (Scenario.monitor Scenario.realToken 180%float 200%float true)).
Proof.
  destruct (failures_never_escape Scenario.sdk) as (_ & _ & _ & _ & _ & _ & H & _).
  apply H.
Defined.

Lemma alertRecords_app (t1 t2 : Trace) :
  alertRecords (t1 ++ t2) = alertRecords t1 ++ alertRecords t2.
Proof.
  induction t1 as [| e t1 IH]; [reflexivity |].
  destruct e; simpl; rewrite ?IH; reflexivity.
Qed.

(** The trace of [start]: its own lines, the first poll, the test message,
    the timer. *)
Lemma start_trace sdk w this :
  PriceMonitor.isRunning this = false ->
  let running := PriceMonitor.mk (PriceMonitor.config this) true
                   (PriceMonitor.firebaseManager this) in
  exists pre,
    PriceMonitor.start sdk w this
    = (pre ++ trace_of (PriceMonitor.checkPrice sdk w running)
           ++ trace_of (PriceMonitor.sendTelegramAlert w running JS.zero true)
           ++ [SetInterval (PriceMonitor.checkIntervalMs (PriceMonitor.config this))],
       Normal running) /\
    dispatches pre = 0 /\ alertRecords pre = [].
Proof.
  intros Hrun running. unfold PriceMonitor.start. rewrite Hrun. cbv zeta. fold running.
  rewrite (eff_eta (PriceMonitor.checkPrice sdk w running)), checkPrice_returns.
  rewrite (eff_eta (PriceMonitor.sendTelegramAlert w running JS.zero true)),
          sendTelegramAlert_returns.
  unfold FirebaseManager.listenToConfig.
  destruct (negb (FirebaseManager.db (PriceMonitor.firebaseManager running))
            || negb (FirebaseManager.configRef (PriceMonitor.firebaseManager running)));
    cbn [bind ret emit detach completion_of trace_of fst snd app];
    rewrite ?app_nil_r; eexists;
    (split;
     [ first
         [ match goal with
           | |- (?a :: ?b :: ?c :: ?d :: ?e :: _ ++ _, _) = (?pre ++ _, _) =>
               unify pre [a; b; c; d; e]
           end
         | match goal with
           | |- (?a :: ?b :: ?c :: ?d :: _ ++ _, _) = (?pre ++ _, _) =>
               unify pre [a; b; c; d]
           end ];
       reflexivity
     | split; reflexivity ]).
Qed.

(** ** Configuration hot-reload *)

Lemma queried_app (t1 t2 : Trace) : queried (t1 ++ t2) = queried t1 ++ queried t2.
Proof.
  induction t1 as [| e t1 IH]; [reflexivity |].
  destruct e; simpl; rewrite ?IH; reflexivity.
Qed.

Lemma sendTelegramAlert_queries_nothing w this price isTest :
  queried (trace_of (PriceMonitor.sendTelegramAlert w this price isTest)) = [].
Proof. dispatcher_cases w this; reflexivity. Qed.

(** A poll asks the oracle about the configured pool and about no other. *)
Lemma checkPrice_queries_configured sdk w this :
  let a := PriceMonitor.poolAddress (PriceMonitor.config this) in
  let q := queried (trace_of (PriceMonitor.checkPrice sdk w this)) in
  Forall (eq a) q /\
  (PriceMonitor.publicKeyError w a = None -> exists rest, q = a :: rest).
Proof.
  cbv zeta.
  unfold PriceMonitor.checkPrice, PriceMonitor.newPublicKey. cbv zeta.
  destruct (PriceMonitor.publicKeyError w _) as [e |].
  { split; [constructor | discriminate]. }
  cbn [bind ret emit].
  destruct (PriceMonitor.clientGetPool w _) as [pool | e].
  2: { split; [repeat constructor | intros _; eexists; reflexivity]. }
  cbn [bind ret emit await].
  destruct (PriceMonitor.fetcherGetPool w _) as [[sqrtPrice |] | e].
  2, 3: split; [repeat constructor | intros _; eexists; reflexivity].
  cbn [bind ret emit await].
  destruct (PriceMonitor.isUnconfigured _).
  { split; [repeat constructor | intros _; eexists; reflexivity]. }
  destruct (PriceMonitor.outOfBounds _ _).
  2: { split; [repeat constructor | intros _; eexists; reflexivity]. }
  match goal with
  | |- context [PriceMonitor.sendTelegramAlert ?w ?t ?p ?b] =>
      pose proof (sendTelegramAlert_queries_nothing w t p b) as Hq;
      rewrite (eff_eta (PriceMonitor.sendTelegramAlert w t p b)) in *;
      rewrite sendTelegramAlert_returns in *
  end.
  cbn [bind emit try_catch trace_of fst app queried] in *.
  rewrite Hq.
  split; [repeat constructor | intros _; eexists; reflexivity].
Qed.

(** What the callback leaves in the configuration. *)
Lemma onConfig_result u this :
  exists c',
    completion_of (PriceMonitor.onConfig u this)
    = Normal (PriceMonitor.set_config c' this) /\
    PriceMonitor.poolAddress c'
    = match mc_poolAddress u with
      | Some a => if JS.truthy a && JS.sne a (PriceMonitor.poolAddress (PriceMonitor.config this))
                  then a else PriceMonitor.poolAddress (PriceMonitor.config this)
      | None => PriceMonitor.poolAddress (PriceMonitor.config this)
      end /\
    PriceMonitor.priceLowerBound c'
    = JS.nullish (mc_priceLowerBound u) (PriceMonitor.priceLowerBound (PriceMonitor.config this)) /\
    PriceMonitor.priceUpperBound c'
    = JS.nullish (mc_priceUpperBound u) (PriceMonitor.priceUpperBound (PriceMonitor.config this)) /\
    PriceMonitor.rpcUrl c' = PriceMonitor.rpcUrl (PriceMonitor.config this) /\
    PriceMonitor.telegramBotToken c'
    = PriceMonitor.telegramBotToken (PriceMonitor.config this) /\
    PriceMonitor.telegramChatId c' = PriceMonitor.telegramChatId (PriceMonitor.config this) /\
    PriceMonitor.checkIntervalMs c'
    = PriceMonitor.checkIntervalMs (PriceMonitor.config this).
Proof.
  unfold PriceMonitor.onConfig.
  destruct u as [[lo |] [hi |] [a |]]; cbn [mc_poolAddress mc_priceLowerBound
    mc_priceUpperBound JS.nullish];
    try destruct (JS.truthy a && JS.sne a _); simpl;
    eexists; (split; [reflexivity |]); simpl; repeat split; reflexivity.
Qed.

Lemma sne_spec (a b : string) : JS.sne a b = true <-> a <> b.
Proof.
  unfold JS.sne. rewrite negb_true_iff. split.
  - intros H ->. rewrite String.eqb_refl in H. discriminate.
  - intros H. destruct (String.eqb a b) eqn:E; [| reflexivity].
    apply String.eqb_eq in E. contradiction.
Qed.

Lemma truthy_spec (a : string) : JS.truthy a = true <-> a <> "".
Proof. destruct a; simpl; split; congruence. Qed.

(** An update that carries a non-empty pool address leaves that address in
    the configuration. *)
Lemma onConfig_poolAddress u this a this' :
  mc_poolAddress u = Some a -> a <> "" ->
  completion_of (PriceMonitor.onConfig u this) = Normal this' ->
  PriceMonitor.poolAddress (PriceMonitor.config this') = a.
Proof.
  intros Ha Hne Hc.
  destruct (onConfig_result u this) as (c' & Hc' & Hpool & _).
  rewrite Hc in Hc'. injection Hc' as ->. cbn [PriceMonitor.set_config PriceMonitor.config].
  rewrite Hpool, Ha.
  apply truthy_spec in Hne. rewrite Hne. cbn [andb].
  destruct (JS.sne a _) eqn:E; [reflexivity |].
  destruct (String.eqb a (PriceMonitor.poolAddress (PriceMonitor.config this))) eqn:E'.
  - apply String.eqb_eq in E'. now symmetry.
  - unfold JS.sne in E. rewrite E' in E. discriminate.
Qed.

Lemma handle_keeps_firebase sdk i this this' :
  completion_of (PriceMonitor.handle sdk i this) = Normal this' ->
  PriceMonitor.firebaseManager this' = PriceMonitor.firebaseManager this /\
  PriceMonitor.isRunning this' = PriceMonitor.isRunning this.
Proof.
  destruct i as [w | [id [data |] | e]]; unfold PriceMonitor.handle.
  - rewrite (eff_eta (PriceMonitor.checkPrice sdk w this)), checkPrice_returns.
    intros [= <-]. split; reflexivity.
  - destruct (PriceMonitor.listening this); [| intros [= <-]; split; reflexivity].
    destruct (onConfig_result data this) as (c' & Hc' & _).
    unfold FirebaseManager.onSnapshot.
    rewrite (eff_eta (PriceMonitor.onConfig data this)), Hc'.
    intros [= <-]. split; reflexivity.
  - destruct (PriceMonitor.listening this); intros [= <-]; split; reflexivity.
  - destruct (PriceMonitor.listening this); intros [= <-]; split; reflexivity.
Qed.

Lemma run_keeps_firebase sdk inputs this this' :
  completion_of (PriceMonitor.run sdk inputs this) = Normal this' ->
  PriceMonitor.firebaseManager this' = PriceMonitor.firebaseManager this.
Proof.
  revert this. induction inputs as [| i rest IH]; intros this.
  - intros [= <-]. reflexivity.
  - cbn [PriceMonitor.run].
    destruct (handle_returns sdk i this) as [mid Hmid].
    rewrite (completion_bind _ _ mid Hmid). intros H.
    rewrite (IH mid H). exact (proj1 (handle_keeps_firebase sdk i this mid Hmid)).
Qed.

Lemma run_tick sdk w this :
  PriceMonitor.run sdk [PriceMonitor.Tick w] this
  = (trace_of (PriceMonitor.checkPrice sdk w this), Normal this).
Proof.
  cbn [PriceMonitor.run PriceMonitor.handle].
  rewrite (eff_eta (PriceMonitor.checkPrice sdk w this)), checkPrice_returns.
  cbn [detach bind ret trace_of fst]. rewrite !app_nil_r. reflexivity.
Qed.

Lemma run_update_completion sdk id u this :
  PriceMonitor.listening this = true ->
  completion_of
    (PriceMonitor.run sdk
       [PriceMonitor.ConfigNotification (FirebaseManager.DocSnapshot id (Some u))] this)
  = completion_of (PriceMonitor.onConfig u this).
Proof.
  intros Hl. cbn [PriceMonitor.run PriceMonitor.handle]. rewrite Hl.
  destruct (onConfig_result u this) as (c' & Hc' & _).
  unfold FirebaseManager.onSnapshot.
  rewrite (eff_eta (PriceMonitor.onConfig u this)), Hc'. reflexivity.
Qed.

(** C7. Whatever happened before, once the configuration listener delivers
    an update that carries a (non-empty) pool address [a], the monitor's
    configuration holds [a] and every bound the update carries; the poll at
    the next tick asks the oracle about [a] (as soon as [a] parses as a key)
    and about no other address, the previous one included. *)
Theorem config_update_redirects_next_poll sdk before id u a w this :
  PriceMonitor.listening this = true ->
  mc_poolAddress u = Some a ->
  a <> "" ->
  let update :=
    PriceMonitor.ConfigNotification (FirebaseManager.DocSnapshot id (Some u)) in
  exists this',
    completion_of (PriceMonitor.run sdk (before ++ [update]) this) = Normal this' /\
    PriceMonitor.poolAddress (PriceMonitor.config this') = a /\
    (forall x, mc_priceLowerBound u = Some x ->
       PriceMonitor.priceLowerBound (PriceMonitor.config this') = x) /\
    (forall x, mc_priceUpperBound u = Some x ->
       PriceMonitor.priceUpperBound (PriceMonitor.config this') = x) /\
    trace_of (PriceMonitor.run sdk (before ++ [update; PriceMonitor.Tick w]) this)
    = trace_of (PriceMonitor.run sdk (before ++ [update]) this)
      ++ trace_of (PriceMonitor.checkPrice sdk w this') /\
    Forall (eq a) (queried (trace_of (PriceMonitor.checkPrice sdk w this'))) /\
    (PriceMonitor.publicKeyError w a = None ->
       exists rest, queried (trace_of (PriceMonitor.checkPrice sdk w this')) = a :: rest) /\
    (forall old, old <> a ->
       ~ In old (queried (trace_of (PriceMonitor.checkPrice sdk w this')))).
Proof.
  intros Hl Ha Hne update.
  destruct (run_returns sdk before this) as [mid Hmid].
  assert (Hlmid : PriceMonitor.listening mid = true).
  { unfold PriceMonitor.listening in *.
    rewrite (run_keeps_firebase sdk before this mid Hmid). exact Hl. }
  destruct (onConfig_result u mid) as (c' & Hc' & Hpool & Hlo & Hhi & _).
  set (this' := PriceMonitor.set_config c' mid).
  assert (Hrun : completion_of (PriceMonitor.run sdk (before ++ [update]) this)
                 = Normal this').
  { rewrite (proj2 (run_app sdk before [update] this mid Hmid)).
    subst update. rewrite (run_update_completion sdk id u mid Hlmid). exact Hc'. }
  assert (Hthis : PriceMonitor.poolAddress (PriceMonitor.config this') = a)
    by exact (onConfig_poolAddress u mid a this' Ha Hne Hc').
  exists this'. split; [exact Hrun |]. split; [exact Hthis |].
  split; [intros x Hx; subst this'; cbn; rewrite Hlo, Hx; reflexivity |].
  split; [intros x Hx; subst this'; cbn; rewrite Hhi, Hx; reflexivity |].
  destruct (checkPrice_queries_configured sdk w this') as [Hall Hfirst].
  rewrite Hthis in Hall, Hfirst.
  split; [| split; [exact Hall | split; [exact Hfirst |]]].
  - change (before ++ [update; PriceMonitor.Tick w])
      with (before ++ ([update] ++ [PriceMonitor.Tick w])).
    rewrite app_assoc.
    rewrite (proj1 (run_app sdk (before ++ [update]) [PriceMonitor.Tick w] this this' Hrun)).
    rewrite run_tick. reflexivity.
  - intros old Hold Hin. rewrite Forall_forall in Hall.
    apply Hold. symmetry. exact (Hall old Hin).
Qed.

Lemma config_update_redirects_next_poll_witness :
  exists this',
    completion_of
      (PriceMonitor.run Scenario.sdk
         ([PriceMonitor.Tick (Scenario.world 200)] ++
          [PriceMonitor.ConfigNotification
             (FirebaseManager.DocSnapshot "monitor_settings"
                (Some (mkMonitorConfig (Some 180%float) (Some 200%float)
                         (Some Scenario.otherPoolId))))])
         (Scenario.monitor Scenario.realToken 0%float 0%float true))
    = Normal this' /\
    queried (trace_of (PriceMonitor.checkPrice Scenario.sdk (Scenario.world 200) this'))
    = [Scenario.otherPoolId; Scenario.otherPoolId].
Proof.
  destruct (config_update_redirects_next_poll Scenario.sdk
              [PriceMonitor.Tick (Scenario.world 200)] "monitor_settings"
              (mkMonitorConfig (Some 180%float) (Some 200%float)
                 (Some Scenario.otherPoolId))
              Scenario.otherPoolId (Scenario.world 200)
              (Scenario.monitor Scenario.realToken 0%float 0%float true))
    as (this' & Hrun & _).
  - reflexivity.
  - reflexivity.
  - discriminate.
  - exists this'. split; [exact Hrun |].
    vm_compute in Hrun. injection Hrun as <-. vm_compute. reflexivity.
Defined.

(** C9. The callback writes only what the update carries. A bound the
    update leaves out keeps its value, a bound it carries takes the carried
    value; the pool address changes exactly when the update carries a
    non-empty address other than the current one, and then to that address;
    nothing else of the monitor changes. A notification for a missing
    document, and any notification when no listener is registered, changes
    nothing. So an update with one bound leaves the pair mixed: from
    (180, 200), an update carrying only [priceLowerBound = 190] leads to
    (190, 200). *)
Theorem partial_update_keeps_absent_fields :
  (forall u this,
     exists this',
       completion_of (PriceMonitor.onConfig u this) = Normal this' /\
       let c := PriceMonitor.config this in
       let c' := PriceMonitor.config this' in
       (mc_priceLowerBound u = None ->
          PriceMonitor.priceLowerBound c' = PriceMonitor.priceLowerBound c) /\
       (mc_priceUpperBound u = None ->
          PriceMonitor.priceUpperBound c' = PriceMonitor.priceUpperBound c) /\
       (forall x, mc_priceLowerBound u = Some x -> PriceMonitor.priceLowerBound c' = x) /\
       (forall x, mc_priceUpperBound u = Some x -> PriceMonitor.priceUpperBound c' = x) /\
       (PriceMonitor.poolAddress c' <> PriceMonitor.poolAddress c <->
          exists a, mc_poolAddress u = Some a /\ a <> "" /\
                    a <> PriceMonitor.poolAddress c) /\
       (forall a, mc_poolAddress u = Some a -> a <> "" -> PriceMonitor.poolAddress c' = a) /\
       PriceMonitor.rpcUrl c' = PriceMonitor.rpcUrl c /\
       PriceMonitor.telegramBotToken c' = PriceMonitor.telegramBotToken c /\
       PriceMonitor.telegramChatId c' = PriceMonitor.telegramChatId c /\
       PriceMonitor.checkIntervalMs c' = PriceMonitor.checkIntervalMs c /\
       PriceMonitor.isRunning this' = PriceMonitor.isRunning this /\
       PriceMonitor.firebaseManager this' = PriceMonitor.firebaseManager this) /\
  (forall sdk id this,
     completion_of
       (PriceMonitor.handle sdk
          (PriceMonitor.ConfigNotification (FirebaseManager.DocSnapshot id None)) this)
     = Normal this) /\
  (forall sdk n this,
     PriceMonitor.listening this = false ->
     PriceMonitor.handle sdk (PriceMonitor.ConfigNotification n) this = ([], Normal this)) /\
  (exists this',
     completion_of
       (PriceMonitor.onConfig (mkMonitorConfig (Some 190%float) None None)
          (Scenario.monitor Scenario.realToken 180%float 200%float true))
     = Normal this' /\
     PriceMonitor.priceLowerBound (PriceMonitor.config this') = 190%float /\
     PriceMonitor.priceUpperBound (PriceMonitor.config this') = 200%float).
Proof.
  split; [| split; [| split]].
  - intros u this.
    destruct (onConfig_result u this)
      as (c' & Hc' & Hpool & Hlo & Hhi & Hrpc & Htok & Hchat & Hint).
    exists (PriceMonitor.set_config c' this). split; [exact Hc' |].
    cbn [PriceMonitor.set_config PriceMonitor.config PriceMonitor.isRunning
         PriceMonitor.firebaseManager].
    split; [intros H; rewrite Hlo, H; reflexivity |].
    split; [intros H; rewrite Hhi, H; reflexivity |].
    split; [intros x H; rewrite Hlo, H; reflexivity |].
    split; [intros x H; rewrite Hhi, H; reflexivity |].
    split; [| split; [| repeat split; assumption]].
    + rewrite Hpool. destruct (mc_poolAddress u) as [a |].
      * destruct (JS.truthy a) eqn:Ht, (JS.sne a _) eqn:Hs; cbn [andb].
        -- apply truthy_spec in Ht. apply sne_spec in Hs.
           split; [intros _; exists a; auto | intros _; exact Hs].
        -- split; [intros H; now elim H |].
           intros (b & [= <-] & _ & Hb). apply sne_spec in Hb. congruence.
        -- split; [intros H; now elim H |].
           intros (b & [= <-] & Hb & _). apply truthy_spec in Hb. congruence.
        -- split; [intros H; now elim H |].
           intros (b & [= <-] & Hb & _). apply truthy_spec in Hb. congruence.
      * split; [intros H; now elim H | intros (b & Hb & _); discriminate].
    + intros a Ha Hne.
      exact (onConfig_poolAddress u this a (PriceMonitor.set_config c' this) Ha Hne Hc').
  - intros sdk id this. unfold PriceMonitor.handle.
    destruct (PriceMonitor.listening this); reflexivity.
  - intros sdk n this Hl. unfold PriceMonitor.handle. rewrite Hl. reflexivity.
  - eexists. split; [reflexivity |]. split; reflexivity.
Qed.

(** ** The orientation heuristic *)




(** ** The reconnecting socket client *)

Lemma scheduled_app (xs ys : list UseWebSocket.Event) :
  UseWebSocket.scheduled (xs ++ ys)
  = UseWebSocket.scheduled xs + UseWebSocket.scheduled ys.
Proof. unfold UseWebSocket.scheduled. rewrite filter_app, length_app. reflexivity. Qed.

Lemma reconnections_app (xs ys : list UseWebSocket.Event) :
  UseWebSocket.reconnections (xs ++ ys)
  = UseWebSocket.reconnections xs + UseWebSocket.reconnections ys.
Proof. unfold UseWebSocket.reconnections. rewrite filter_app, length_app. reflexivity. Qed.

Lemma delays_are_app ms (xs ys : list UseWebSocket.Event) :
  UseWebSocket.delays_are ms xs -> UseWebSocket.delays_are ms ys ->
  UseWebSocket.delays_are ms (xs ++ ys).
Proof.
  intros Hx Hy d Hin. apply in_app_or in Hin. destruct Hin; [apply Hx | apply Hy]; assumption.
Qed.

(** What one input that is not a successful connection does to the
    counters: every timer it sets is counted in [reconnectAttempts], which
    stays below the cap; every reconnection it carries out uses up a pending
    timer; the hook stays disconnected. *)
Lemma step_failure options i st :
  UseWebSocket.isFailure i = true ->
  UseWebSocket.reconnectAttempts st <= UseWebSocket.the_maxReconnectAttempts options ->
  let evs := fst (UseWebSocket.step options i st) in
  let st' := snd (UseWebSocket.step options i st) in
  UseWebSocket.reconnectAttempts st'
  = UseWebSocket.reconnectAttempts st + UseWebSocket.scheduled evs /\
  UseWebSocket.reconnectAttempts st' <= UseWebSocket.the_maxReconnectAttempts options /\
  UseWebSocket.pendingTimers st' + UseWebSocket.reconnections evs
  = UseWebSocket.pendingTimers st + UseWebSocket.scheduled evs /\
  UseWebSocket.delays_are (UseWebSocket.the_reconnectDelay options) evs /\
  (UseWebSocket.isConnected st = false -> UseWebSocket.isConnected st' = false).
Proof.
  intros Hfail Hle.
  destruct i as [created | | parsed | | | created]; try discriminate; cbn [UseWebSocket.step].
  - (* Mount *)
    unfold UseWebSocket.connect, UseWebSocket.when.
    destruct created, (UseWebSocket.wsRef st); cbn;
      (repeat split; try lia; try tauto);
      intros d Hin; cbn in Hin; intuition discriminate.
  - (* Message *)
    unfold UseWebSocket.onmessage, UseWebSocket.when.
    destruct parsed, (UseWebSocket.has options UseWebSocket.onMessage); cbn;
      (repeat split; try lia; try tauto);
      intros d Hin; cbn in Hin; intuition discriminate.
  - (* Closes *)
    unfold UseWebSocket.onclose, UseWebSocket.when. cbv zeta.
    destruct (Nat.ltb_spec (UseWebSocket.reconnectAttempts st)
                (UseWebSocket.the_maxReconnectAttempts options)) as [Hlt | Hge];
      destruct (UseWebSocket.has options UseWebSocket.onDisconnect); cbn;
      (repeat split; try lia; try tauto);
      intros d Hin; cbn in Hin; intuition (try discriminate; congruence).
  - (* Errors *)
    cbn. repeat split; try lia; try tauto.
    intros d Hin; cbn in Hin; intuition discriminate.
  - (* TimerFires *)
    destruct (UseWebSocket.pendingTimers st) as [| n] eqn:Hp.
    + cbn. repeat split; try lia; try tauto. intros d [].
    + unfold UseWebSocket.connect, UseWebSocket.when.
      destruct created, (UseWebSocket.wsRef st); cbn; rewrite ?Hp;
        (repeat split; try lia; try tauto);
        intros d Hin; cbn in Hin; intuition discriminate.
Qed.

Lemma run_failures options inputs st :
  forallb UseWebSocket.isFailure inputs = true ->
  UseWebSocket.reconnectAttempts st <= UseWebSocket.the_maxReconnectAttempts options ->
  let evs := fst (UseWebSocket.run options inputs st) in
  let st' := snd (UseWebSocket.run options inputs st) in
  UseWebSocket.reconnectAttempts st'
  = UseWebSocket.reconnectAttempts st + UseWebSocket.scheduled evs /\
  UseWebSocket.reconnectAttempts st' <= UseWebSocket.the_maxReconnectAttempts options /\
  UseWebSocket.pendingTimers st' + UseWebSocket.reconnections evs
  = UseWebSocket.pendingTimers st + UseWebSocket.scheduled evs /\
  UseWebSocket.delays_are (UseWebSocket.the_reconnectDelay options) evs /\
  (UseWebSocket.isConnected st = false -> UseWebSocket.isConnected st' = false).
Proof.
  revert st. induction inputs as [| i rest IH]; intros st Hall Hle.
  - cbn. repeat split; try lia; try tauto. intros d [].
  - cbn [forallb] in Hall. apply andb_true_iff in Hall. destruct Hall as [Hi Hrest].
    pose proof (step_failure options i st Hi Hle) as Hstep.
    cbn [UseWebSocket.run].
    destruct (UseWebSocket.step options i st) as [evs st1]. cbn [fst snd] in Hstep.
    destruct Hstep as (Ha & Hb & Hc & Hd & He).
    pose proof (IH st1 Hrest Hb) as Hrun.
    destruct (UseWebSocket.run options rest st1) as [evs' st2]. cbn [fst snd] in *.
    destruct Hrun as (Ha' & Hb' & Hc' & Hd' & He').
    rewrite scheduled_app, reconnections_app.
    repeat split; try lia; auto using delays_are_app.
Qed.

Lemma ws_run_app options xs ys st :
  UseWebSocket.run options (xs ++ ys) st
  = (fst (UseWebSocket.run options xs st)
     ++ fst (UseWebSocket.run options ys (snd (UseWebSocket.run options xs st))),
     snd (UseWebSocket.run options ys (snd (UseWebSocket.run options xs st)))).
Proof.
  revert st. induction xs as [| i rest IH]; intros st.
  - cbn. destruct (UseWebSocket.run options ys st); reflexivity.
  - cbn [app UseWebSocket.run].
    destruct (UseWebSocket.step options i st) as [evs st1].
    rewrite (IH st1).
    destruct (UseWebSocket.run options rest st1) as [evs1 st2]. cbn [fst snd].
    rewrite app_assoc. reflexivity.
Qed.

(** One round: the connection fails and the timer, if one was set, fires. *)
Lemma failure_round options st :
  UseWebSocket.pendingTimers st = 0 ->
  let cap := UseWebSocket.the_maxReconnectAttempts options in
  let k := if (UseWebSocket.reconnectAttempts st <? cap)%nat then 1 else 0 in
  let r := UseWebSocket.run options [UseWebSocket.Closes; UseWebSocket.TimerFires true] st in
  UseWebSocket.scheduled (fst r) = k /\
  UseWebSocket.reconnections (fst r) = k /\
  UseWebSocket.reconnectAttempts (snd r) = UseWebSocket.reconnectAttempts st + k /\
  UseWebSocket.pendingTimers (snd r) = 0 /\
  UseWebSocket.isConnected (snd r) = false.
Proof.
  intros Hp. cbv zeta.
  cbn [UseWebSocket.run UseWebSocket.step]. unfold UseWebSocket.onclose. cbv zeta.
  destruct (UseWebSocket.reconnectAttempts st
            <? UseWebSocket.the_maxReconnectAttempts options)%nat.
  - cbn [UseWebSocket.pendingTimers]. unfold UseWebSocket.connect, UseWebSocket.when.
    destruct (UseWebSocket.has options UseWebSocket.onDisconnect),
             (UseWebSocket.wsRef st); cbn; rewrite ?Hp; repeat split; lia.
  - cbn [UseWebSocket.pendingTimers]. rewrite Hp. unfold UseWebSocket.when.
    destruct (UseWebSocket.has options UseWebSocket.onDisconnect);
      cbn; repeat split; lia.
Qed.

(** [n] rounds of failure and retry, from a state without pending timers:
    the client retries until the cap, then stops. *)
Lemma run_failure_rounds options n st :
  UseWebSocket.pendingTimers st = 0 ->
  UseWebSocket.reconnectAttempts st <= UseWebSocket.the_maxReconnectAttempts options ->
  let k := Nat.min n (UseWebSocket.the_maxReconnectAttempts options
                      - UseWebSocket.reconnectAttempts st) in
  let r := UseWebSocket.run options (UseWebSocket.failures n) st in
  UseWebSocket.scheduled (fst r) = k /\
  UseWebSocket.reconnections (fst r) = k /\
  UseWebSocket.reconnectAttempts (snd r) = UseWebSocket.reconnectAttempts st + k /\
  UseWebSocket.pendingTimers (snd r) = 0 /\
  (0 < n -> UseWebSocket.isConnected (snd r) = false).
Proof.
  revert st. induction n as [| n IH]; intros st Hp Hle.
  - cbn. repeat split; lia.
  - change (UseWebSocket.failures (S n))
      with ([UseWebSocket.Closes; UseWebSocket.TimerFires true] ++ UseWebSocket.failures n).
    cbv zeta. rewrite ws_run_app. cbn [fst snd].
    pose proof (failure_round options st Hp) as Hround. cbv zeta in Hround.
    destruct (UseWebSocket.run options
                [UseWebSocket.Closes; UseWebSocket.TimerFires true] st) as [evs st1].
    cbn [fst snd] in *. destruct Hround as (Ha & Hb & Hc & Hd & He).
    assert (Hle1 : UseWebSocket.reconnectAttempts st1
                   <= UseWebSocket.the_maxReconnectAttempts options).
    { rewrite Hc.
      destruct (Nat.ltb_spec (UseWebSocket.reconnectAttempts st)
                  (UseWebSocket.the_maxReconnectAttempts options)); lia. }
    pose proof (IH st1 Hd Hle1) as Hrec. cbv zeta in Hrec.
    assert (Hoff : UseWebSocket.isConnected
                     (snd (UseWebSocket.run options (UseWebSocket.failures n) st1)) = false).
    { destruct n; [exact He | apply Hrec; lia]. }
    destruct (UseWebSocket.run options (UseWebSocket.failures n) st1) as [evs' st2].
    cbn [fst snd] in *. destruct Hrec as (Ha' & Hb' & Hc' & Hd' & _).
    rewrite scheduled_app, reconnections_app, Ha, Hb, Ha', Hb', Hc', Hc.
    destruct (Nat.ltb_spec (UseWebSocket.reconnectAttempts st)
                (UseWebSocket.the_maxReconnectAttempts options));
      repeat split; try lia; intros _; exact Hoff.
Qed.

(** C10. The cap defaults to 10 attempts and the delay to 3000 ms. From a
    state whose attempt counter is zero (the first render, or any state
    right after a socket opened), as long as no socket opens, the client
    sets at most [maxReconnectAttempts] reconnection timers, each with the
    delay [reconnectDelay], carries out at most that many reconnections
    beyond the timers already pending, and stays disconnected. After more
    failed rounds than the cap it has reconnected exactly
    [maxReconnectAttempts] times, has no timer pending and reports
    [isConnected = false]; at the cap a closing socket sets no timer. A
    socket that opens sets the counter back to zero. *)
Theorem reconnection_is_bounded (options : option UseWebSocket.Options) :
  let cap := UseWebSocket.the_maxReconnectAttempts options in
  let delay := UseWebSocket.the_reconnectDelay options in
  (UseWebSocket.the_maxReconnectAttempts None = 10 /\
   UseWebSocket.the_reconnectDelay None = 3000%Z) /\
  (forall st inputs,
     UseWebSocket.reconnectAttempts st = 0 ->
     forallb UseWebSocket.isFailure inputs = true ->
     let r := UseWebSocket.run options inputs st in
     UseWebSocket.scheduled (fst r) <= cap /\
     UseWebSocket.reconnections (fst r) <= UseWebSocket.pendingTimers st + cap /\
     UseWebSocket.delays_are delay (fst r) /\
     (UseWebSocket.isConnected st = false -> UseWebSocket.isConnected (snd r) = false)) /\
  (forall n,
     cap < n ->
     let r := UseWebSocket.run options
                (UseWebSocket.Mount true :: UseWebSocket.failures n)
                UseWebSocket.initial in
     UseWebSocket.scheduled (fst r) = cap /\
     UseWebSocket.reconnections (fst r) = cap /\
     UseWebSocket.reconnectAttempts (snd r) = cap /\
     UseWebSocket.pendingTimers (snd r) = 0 /\
     UseWebSocket.isConnected (snd r) = false) /\
  (forall st,
     UseWebSocket.reconnectAttempts st = cap ->
     let r := UseWebSocket.onclose options st in
     UseWebSocket.scheduled (fst r) = 0 /\
     UseWebSocket.reconnectAttempts (snd r) = cap /\
     UseWebSocket.pendingTimers (snd r) = UseWebSocket.pendingTimers st /\
     UseWebSocket.isConnected (snd r) = false) /\
  (forall st,
     let r := UseWebSocket.onopen options st in
     UseWebSocket.reconnectAttempts (snd r) = 0 /\
     UseWebSocket.isConnected (snd r) = true).
Proof.
  intros cap delay. split; [split; reflexivity |].
  split; [| split; [| split]].
  - intros st inputs H0 Hall r. subst r.
    assert (Hle : UseWebSocket.reconnectAttempts st <= cap) by lia.
    pose proof (run_failures options inputs st Hall Hle) as H. cbv zeta in H.
    destruct H as (Ha & Hb & Hc & Hd & He). fold cap in Hb.
    repeat split; try assumption; lia.
  - intros n Hn r. subst r.
    change (UseWebSocket.Mount true :: UseWebSocket.failures n)
      with ([UseWebSocket.Mount true] ++ UseWebSocket.failures n).
    rewrite ws_run_app.
    change (UseWebSocket.run options [UseWebSocket.Mount true] UseWebSocket.initial)
      with ([UseWebSocket.NewWebSocket (UseWebSocket.the_url options)],
            UseWebSocket.mkState false None true 0 0).
    cbn [fst snd].
    pose proof (run_failure_rounds options n (UseWebSocket.mkState false None true 0 0)
                  eq_refl (Nat.le_0_l _)) as H.
    cbv zeta in H. cbn [UseWebSocket.reconnectAttempts] in H. fold cap in H.
    destruct H as (Ha & Hb & Hc & Hd & He).
    rewrite scheduled_app, reconnections_app, Ha, Hb, Hc.
    change (UseWebSocket.scheduled
              [UseWebSocket.NewWebSocket (UseWebSocket.the_url options)]) with 0.
    change (UseWebSocket.reconnections
              [UseWebSocket.NewWebSocket (UseWebSocket.the_url options)]) with 0.
    repeat split; [lia | lia | lia | exact Hd | apply He; lia].
  - intros st Hcap r. subst r. unfold UseWebSocket.onclose. cbv zeta.
    rewrite Hcap. fold cap. rewrite Nat.ltb_irrefl.
    unfold UseWebSocket.when.
    destruct (UseWebSocket.has options UseWebSocket.onDisconnect);
      cbn; repeat split; assumption.
  - intros st. split; reflexivity.
Qed.

(** With the defaults, fifteen failed rounds after mounting: ten
    reconnections, then silence. *)
Lemma reconnection_is_bounded_witness :
  let r := UseWebSocket.run None
             (UseWebSocket.Mount true :: UseWebSocket.failures 15)
             UseWebSocket.initial in
  UseWebSocket.scheduled (fst r) = 10 /\
  UseWebSocket.reconnections (fst r) = 10 /\
  UseWebSocket.reconnectAttempts (snd r) = 10 /\
  UseWebSocket.pendingTimers (snd r) = 0 /\
  UseWebSocket.isConnected (snd r) = false.
Proof.
  destruct (reconnection_is_bounded None) as (_ & _ & H & _).
  apply (H 15). vm_compute. lia.
Defined.

(** * Further properties of the code *)

(** ** More order facts on binary64 values *)

Lemma SFcompare_trans (x y z : spec_float) :
  SFcompare x y = Some Lt ->
  SFcompare y z = Some Lt \/ SFcompare y z = Some Eq ->
  SFcompare x z = Some Lt.
Proof.
  destruct x as [sx | sx | | sx mx ex], y as [sy | sy | | sy my ey],
           z as [sz | sz | | sz mz ez];
    cbn [SFcompare];
    repeat match goal with s : bool |- _ => destruct s end;
    try (intros H [H' | H']; try discriminate; try reflexivity; fail).
  all: change (Pos.compare_cont Eq mx my) with (Pos.compare mx my);
       change (Pos.compare_cont Eq my mz) with (Pos.compare my mz);
       change (Pos.compare_cont Eq mx mz) with (Pos.compare mx mz);
       destruct (Z.compare_spec ex ey), (Z.compare_spec ey ez), (Z.compare_spec ex ez);
       destruct (Pos.compare_spec mx my), (Pos.compare_spec my mz),
                (Pos.compare_spec mx mz);
       cbn [CompOpp];
       intros Hxy [Hyz | Hyz]; try discriminate; try reflexivity; exfalso; lia.
Qed.

Lemma SFcompare_refl (x : spec_float) :
  x <> S754_nan -> SFcompare x x = Some Eq.
Proof.
  destruct x as [s | s | | s m e]; cbn [SFcompare]; intros H;
    try destruct s; try reflexivity; try congruence;
    rewrite Z.compare_refl;
    change (Pos.compare_cont Eq m m) with (Pos.compare m m);
    rewrite Pos.compare_refl; reflexivity.
Qed.

Lemma isNaN_spec (x : JS.number) : isNaN x = true <-> Prim2SF x = S754_nan.
Proof.
  unfold isNaN, JS.seq. rewrite negb_true_iff, eqb_spec. unfold SFeqb. split.
  - intros H. destruct (Prim2SF x) eqn:E; try reflexivity;
      rewrite SFcompare_refl in H by discriminate; discriminate.
  - intros ->. reflexivity.
Qed.

(** Every comparison with NaN is false. *)
Lemma js_nan_compares_false (x y : JS.number) :
  isNaN x = true ->
  JS.lt x y = false /\ JS.gt x y = false /\ JS.le x y = false /\ JS.le y x = false.
Proof.
  intros H. apply isNaN_spec in H.
  unfold JS.lt, JS.gt, JS.le. rewrite !ltb_spec, !leb_spec, H.
  unfold SFltb, SFleb. cbn [SFcompare].
  destruct (Prim2SF y); repeat split; reflexivity.
Qed.

(** Two numbers neither of which is NaN are comparable. *)
Lemma js_lt_or_ge (x y : JS.number) :
  isNaN x = false -> isNaN y = false -> JS.lt x y = true \/ JS.le y x = true.
Proof.
  intros Hx Hy.
  assert (Hx' : Prim2SF x <> S754_nan)
    by (intros E; apply isNaN_spec in E; congruence).
  assert (Hy' : Prim2SF y <> S754_nan)
    by (intros E; apply isNaN_spec in E; congruence).
  unfold JS.lt, JS.le. rewrite ltb_spec, leb_spec. unfold SFltb, SFleb.
  destruct (SFcompare (Prim2SF x) (Prim2SF y)) as [c |] eqn:E.
  - rewrite (SFcompare_antisym _ _ _ E). destruct c; cbn; auto.
  - exfalso. destruct (Prim2SF x), (Prim2SF y); cbn in E; congruence.
Qed.

Lemma js_lt_le_trans (x y z : JS.number) :
  JS.lt x y = true -> JS.le y z = true -> JS.lt x z = true.
Proof.
  unfold JS.lt, JS.le. rewrite !ltb_spec, leb_spec. unfold SFltb, SFleb.
  destruct (SFcompare (Prim2SF x) (Prim2SF y)) as [[| |] |] eqn:E1; try discriminate.
  destruct (SFcompare (Prim2SF y) (Prim2SF z)) as [[| |] |] eqn:E2; try discriminate;
    intros _ _; rewrite (SFcompare_trans _ _ _ E1); auto.
Qed.

Lemma js_lt_not_nan (x y : JS.number) :
  JS.lt x y = true -> isNaN x = false /\ isNaN y = false.
Proof.
  intros H. split.
  - destruct (isNaN x) eqn:E; [| reflexivity].
    destruct (js_nan_compares_false x y E) as (H1 & _). congruence.
  - destruct (isNaN y) eqn:E; [| reflexivity].
    destruct (js_nan_compares_false y x E) as (_ & H1 & _).
    unfold JS.gt in H1. unfold JS.lt in H. congruence.
Qed.

(** Numbers that are [=== 0] are not below one another. *)
Lemma js_zero_not_lt (x y : JS.number) :
  JS.seq x JS.zero = true -> JS.seq y JS.zero = true -> JS.lt x y = false.
Proof.
  unfold JS.seq, JS.lt, JS.zero. rewrite !eqb_spec, ltb_spec.
  change (Prim2SF 0%float) with (S754_zero false).
  unfold SFeqb, SFltb.
  destruct (Prim2SF x) as [sx | sx | | sx mx ex]; cbn; try discriminate;
    try (destruct sx; discriminate).
  destruct (Prim2SF y) as [sy | sy | | sy my ey]; cbn; try discriminate;
    try (destruct sy; discriminate).
  reflexivity.
Qed.

(** ** What one poll does, at most *)

Lemma oracle_outcome (w : PriceMonitor.World) (this : PriceMonitor.t) :
  (exists e, oracleError w (PriceMonitor.poolAddress (PriceMonitor.config this)) = Some e) \/
  (exists pool sqrtPrice, oracleAnswers w this pool sqrtPrice).
Proof.
  unfold oracleError, oracleAnswers. cbv zeta.
  destruct (PriceMonitor.publicKeyError w _) as [e |]; [left; eauto |].
  destruct (PriceMonitor.clientGetPool w _) as [pool | e]; [| left; eauto].
  destruct (PriceMonitor.fetcherGetPool w _) as [[sqrtPrice |] | e];
    [right; eauto | left; eauto | left; eauto].
Qed.

Lemma checkPrice_oracle_error_silent sdk w this e :
  oracleError w (PriceMonitor.poolAddress (PriceMonitor.config this)) = Some e ->
  let t := trace_of (PriceMonitor.checkPrice sdk w this) in
  dispatches t = 0 /\ networkCalls t = 0 /\ alertRecords t = [].
Proof.
  unfold oracleError, PriceMonitor.checkPrice, PriceMonitor.newPublicKey. cbv zeta.
  destruct (PriceMonitor.publicKeyError w _) as [e0 |]; [repeat split |].
  cbn [bind ret emit].
  destruct (PriceMonitor.clientGetPool w _) as [pool | e0]; [| repeat split].
  cbn [bind ret emit await].
  destruct (PriceMonitor.fetcherGetPool w _) as [[sqrtPrice |] | e0];
    [discriminate | repeat split | repeat split].
Qed.

(** The dispatcher sends one request unless the token is a placeholder. *)
Lemma sendTelegramAlert_networkCalls w this price isTest :
  networkCalls (trace_of (PriceMonitor.sendTelegramAlert w this price isTest))
  = if PriceMonitor.isPlaceholderToken
         (PriceMonitor.telegramBotToken (PriceMonitor.config this))
    then 0 else 1.
Proof. dispatcher_cases w this; reflexivity. Qed.

(** What the dispatcher hands to the audit collection is at most one record,
    and it describes this dispatch. *)
Lemma sendTelegramAlert_records_shape w this price isTest :
  let c := PriceMonitor.config this in
  let rs := alertRecords (trace_of (PriceMonitor.sendTelegramAlert w this price isTest)) in
  rs = [] \/
  (exists s, rs = [mkAlertRecord (PriceMonitor.poolAddress c) price
                     (PriceMonitor.priceLowerBound c) (PriceMonitor.priceUpperBound c)
                     (PriceMonitor.alertMessage c price isTest) s] /\
             isTest = false /\
             PriceMonitor.isPlaceholderToken (PriceMonitor.telegramBotToken c) = false /\
             FirebaseManager.db (PriceMonitor.firebaseManager this) = true).
Proof.
  cbv zeta.
  destruct isTest; dispatcher_cases w this;
    first [ left; reflexivity
          | right; exists success; split;
            [reflexivity | repeat split; apply negb_false_iff; assumption]
          | right; exists failed; split;
            [reflexivity | repeat split; apply negb_false_iff; assumption] ].
Qed.

(** The trace of a poll that observes a price, read three ways. *)
Lemma checkPrice_observed_counts sdk w this pool sqrtPrice :
  oracleAnswers w this pool sqrtPrice ->
  let c := PriceMonitor.config this in
  let p := observedPrice sdk pool sqrtPrice in
  let t := trace_of (PriceMonitor.checkPrice sdk w this) in
  let alerting := negb (PriceMonitor.isUnconfigured c) && PriceMonitor.outOfBounds c p in
  dispatches t = (if alerting then 1 else 0) /\
  networkCalls t
  = (if alerting then
       networkCalls (trace_of (PriceMonitor.sendTelegramAlert w this p false))
     else 0) /\
  alertRecords t
  = (if alerting then
       alertRecords (trace_of (PriceMonitor.sendTelegramAlert w this p false))
     else []).
Proof.
  intros Horacle c p t alerting. subst t alerting.
  rewrite (checkPrice_observed sdk w this pool sqrtPrice Horacle).
  cbv zeta. fold c. fold p.
  pose proof (sendTelegramAlert_dispatches w this p false) as Hone.
  remember (trace_of (PriceMonitor.sendTelegramAlert w this p false)) as ts eqn:Ets.
  unfold trace_of. cbn [fst].
  destruct (PriceMonitor.isUnconfigured c); cbn [negb andb]; [repeat split |].
  destruct (PriceMonitor.outOfBounds c p); [| repeat split].
  unfold dispatches, networkCalls in *. rewrite !count_app, alertRecords_app.
  change (count isDispatch (ConsoleLog ?x :: ts)) with (count isDispatch ts).
  change (count isHttpPost (ConsoleLog ?x :: ts)) with (count isHttpPost ts).
  rewrite Hone. repeat split.
Qed.

(** What a poll leaves in its trace, by what the oracle answered. *)
Lemma checkPrice_counts sdk w this :
  let t := trace_of (PriceMonitor.checkPrice sdk w this) in
  (dispatches t = 0 /\ networkCalls t = 0 /\ alertRecords t = []) \/
  (dispatches t = 1 /\
   exists p,
     networkCalls t = networkCalls (trace_of (PriceMonitor.sendTelegramAlert w this p false)) /\
     alertRecords t = alertRecords (trace_of (PriceMonitor.sendTelegramAlert w this p false))).
Proof.
  cbv zeta. destruct (oracle_outcome w this) as [[e He] | (pool & sqrtPrice & Ho)].
  - left. exact (checkPrice_oracle_error_silent sdk w this e He).
  - destruct (checkPrice_observed_counts sdk w this pool sqrtPrice Ho) as (-> & -> & ->).
    destruct (negb _ && _); [right | left; repeat split].
    split; [reflexivity |]. eexists. split; reflexivity.
Qed.

(** X1. Whatever the oracle, the channel and the store answer, one poll
    enters the dispatcher at most once, sends at most one request to the
    channel and hands at most one record to the audit collection. *)
Theorem poll_acts_at_most_once sdk w this :
  let t := trace_of (PriceMonitor.checkPrice sdk w this) in
  dispatches t <= 1 /\ networkCalls t <= 1 /\ List.length (alertRecords t) <= 1.
Proof.
  cbv zeta. destruct (oracle_outcome w this) as [[e He] | (pool & sqrtPrice & Ho)].
  - destruct (checkPrice_oracle_error_silent sdk w this e He) as (-> & -> & ->).
    cbn. lia.
  - destruct (checkPrice_observed_counts sdk w this pool sqrtPrice Ho) as (-> & -> & ->).
    destruct (negb _ && _); [| cbn; lia].
    rewrite sendTelegramAlert_networkCalls.
    destruct (sendTelegramAlert_records_shape w this
                (observedPrice sdk pool sqrtPrice) false) as [-> | (s & -> & _)];
      destruct (PriceMonitor.isPlaceholderToken _); cbn; lia.
Qed.

(** X2. A poll that observes a price sends a request to the channel exactly
    when the bounds are not the sentinel pair, the price is outside them and
    the bot token is not a placeholder. *)
Theorem poll_sends_request_iff sdk w this pool sqrtPrice :
  oracleAnswers w this pool sqrtPrice ->
  let c := PriceMonitor.config this in
  networkCalls (trace_of (PriceMonitor.checkPrice sdk w this))
  = if negb (PriceMonitor.isUnconfigured c)
       && PriceMonitor.outOfBounds c (observedPrice sdk pool sqrtPrice)
       && negb (PriceMonitor.isPlaceholderToken (PriceMonitor.telegramBotToken c))
    then 1 else 0.
Proof.
  intros Ho c.
  destruct (checkPrice_observed_counts sdk w this pool sqrtPrice Ho) as (_ & -> & _).
  fold c. destruct (negb _ && _); [| reflexivity].
  rewrite sendTelegramAlert_networkCalls. fold c.
  destruct (PriceMonitor.isPlaceholderToken _); reflexivity.
Qed.

Lemma poll_sends_request_iff_witness :
  networkCalls
    (trace_of (PriceMonitor.checkPrice Scenario.sdk (Scenario.world 200)
                 (Scenario.monitor Scenario.demoToken 180%float 200%float true))) = 0.
Proof.
  rewrite (poll_sends_request_iff Scenario.sdk (Scenario.world 200)
             (Scenario.monitor Scenario.demoToken 180%float 200%float true)
             Scenario.solUsdc Scenario.sqrtPrice250).
  - vm_compute. reflexivity.
  - repeat split; reflexivity.
Defined.

(** ** The poll while the configuration changes *)

(** The cases of the dispatcher cut at its request: the token, what [fetch]
    settles to, then the response, whether it is a test, the audit store. *)
Ltac async_dispatcher_cases w c :=
  unfold Async.sendTelegramAlert, Async.sendTelegramAlert_begin,
         Async.sendTelegramAlert_resume, Async.telegramUrl, FirebaseManager.logAlert;
  destruct (PriceMonitor.isPlaceholderToken (PriceMonitor.telegramBotToken c)) eqn:?;
  [| cbn [bind ret emit app];
     destruct (PriceMonitor.fetch w _ _ _) as [[st stt [body | e]] | e] eqn:?;
     unfold PriceMonitor.ok, await; simpl; world_cases ].

(** With the same configuration before and after the request, the two
    stretches of the dispatcher are [PriceMonitor.sendTelegramAlert]. *)
Lemma async_sendTelegramAlert_same w this price isTest :
  Async.sendTelegramAlert w (PriceMonitor.firebaseManager this)
    (PriceMonitor.config this) (PriceMonitor.config this) price isTest
  = PriceMonitor.sendTelegramAlert w this price isTest.
Proof.
  cbv beta zeta delta [PriceMonitor.sendTelegramAlert Async.sendTelegramAlert
                       Async.sendTelegramAlert_begin Async.sendTelegramAlert_resume].
  change ("https://api.telegram.org/bot"
          ++ PriceMonitor.telegramBotToken (PriceMonitor.config this)
          ++ "/sendMessage")%string
    with (Async.telegramUrl (PriceMonitor.config this)).
  destruct (PriceMonitor.isPlaceholderToken _); [reflexivity |].
  cbn [bind ret emit app].
  destruct (PriceMonitor.fetch w _ _ _) as [[st stt [body | e]] | e];
    unfold FirebaseManager.logAlert, PriceMonitor.ok, await; simpl; world_cases;
    reflexivity.
Qed.

Lemma async_sendTelegramAlert_returns w fb c c' price isTest :
  completion_of (Async.sendTelegramAlert w fb c c' price isTest) = Normal tt.
Proof. async_dispatcher_cases w c; reflexivity. Qed.

Lemma async_sendTelegramAlert_dispatches w fb c c' price isTest :
  dispatches (trace_of (Async.sendTelegramAlert w fb c c' price isTest)) = 1.
Proof. async_dispatcher_cases w c; reflexivity. Qed.

(** The record of a dispatch: the price and the message are those of the
    call, the pool and the bounds those of the configuration at the time the
    record is built. *)
Lemma async_sendTelegramAlert_records w fb c c' price isTest :
  let rs := alertRecords (trace_of (Async.sendTelegramAlert w fb c c' price isTest)) in
  rs = [] \/
  (exists s, rs = [mkAlertRecord (PriceMonitor.poolAddress c') price
                     (PriceMonitor.priceLowerBound c') (PriceMonitor.priceUpperBound c')
                     (PriceMonitor.alertMessage c price isTest) s] /\
             isTest = false /\
             PriceMonitor.isPlaceholderToken (PriceMonitor.telegramBotToken c) = false /\
             FirebaseManager.db fb = true).
Proof.
  cbv zeta.
  destruct isTest; async_dispatcher_cases w c;
    first [ left; reflexivity
          | right; exists success; split;
            [reflexivity | repeat split; apply negb_false_iff; assumption]
          | right; exists failed; split;
            [reflexivity | repeat split; apply negb_false_iff; assumption] ].
Qed.

(** What a poll cut at its awaits does, by what the oracle answers about the
    pool configured when the poll began. *)
Lemma async_checkPrice_trace sdk w fb c0 c c' :
  let a := PriceMonitor.poolAddress c0 in
  let t := trace_of (Async.checkPrice sdk w fb c0 c c') in
  (dispatches t = 0 /\ alertRecords t = [] /\
   (oracleError w a = None -> PriceMonitor.isUnconfigured c = false ->
    forall pool sqrtPrice,
      PriceMonitor.clientGetPool w a = Resolves pool ->
      PriceMonitor.fetcherGetPool w a = Resolves (Some sqrtPrice) ->
      PriceMonitor.outOfBounds c (observedPrice sdk pool sqrtPrice) = false)) \/
  (exists pool sqrtPrice,
     oracleError w a = None /\
     PriceMonitor.clientGetPool w a = Resolves pool /\
     PriceMonitor.fetcherGetPool w a = Resolves (Some sqrtPrice) /\
     PriceMonitor.isUnconfigured c = false /\
     PriceMonitor.outOfBounds c (observedPrice sdk pool sqrtPrice) = true /\
     dispatches t = 1 /\
     alertRecords t
     = alertRecords (trace_of (Async.sendTelegramAlert w fb c c'
                                 (observedPrice sdk pool sqrtPrice) false))).
Proof.
  cbv zeta.
  unfold Async.checkPrice, Async.checkPrice_begin, Async.checkPrice_resume,
         PriceMonitor.newPublicKey, oracleError, observedPrice.
  cbv zeta.
  destruct (PriceMonitor.publicKeyError w _) as [e0 |] eqn:Hkey.
  { left. repeat split. discriminate. }
  cbn [bind ret emit throw await try_catch app].
  destruct (PriceMonitor.clientGetPool w _) as [pool | e0] eqn:Hclient.
  2:{ left. repeat split. discriminate. }
  cbn [bind ret emit throw await try_catch app].
  destruct (PriceMonitor.fetcherGetPool w _) as [[sqrtPrice |] | e0] eqn:Hfetch.
  2,3: left; repeat split; discriminate.
  cbn [bind ret emit throw await try_catch app].
  destruct (PriceMonitor.isUnconfigured c) eqn:Hconf.
  { left. repeat split. discriminate. }
  destruct (PriceMonitor.outOfBounds c _) eqn:Hout.
  2:{ left. repeat split. intros _ _ pool' sqrtPrice' [= <-] [= <-]. exact Hout. }
  right. exists pool, sqrtPrice.
  match goal with
  | |- context [Async.sendTelegramAlert ?w ?f ?x ?y ?p ?b] =>
      pose proof (async_sendTelegramAlert_dispatches w f x y p b) as Hone;
      rewrite (eff_eta (Async.sendTelegramAlert w f x y p b)) in *;
      rewrite async_sendTelegramAlert_returns in *
  end.
  cbn [bind ret emit throw await try_catch app trace_of completion_of fst snd] in *.
  repeat split; assumption.
Qed.

(** X3. The record of an alert mixes two readings of the configuration. A
    poll reads the configuration three times: the pool address when it
    begins, the bounds (and, for the message, pool and bounds again) when the
    oracle has answered, and pool and bounds once more when the channel has
    answered and the record is built; a configuration update may arrive in
    between. Every record a poll hands to the audit collection carries the
    price of the pool that was configured when the poll began; that price is
    outside the bounds in force when the oracle answered, which were not the
    sentinel pair, and the message was built from them; the pool and the
    bounds of the record are those in force when the record is built. The
    token is real and the store is live. *)
Theorem poll_record_mixes_two_readings sdk w fb c0 c c' record :
  In record (alertRecords (trace_of (Async.checkPrice sdk w fb c0 c c'))) ->
  (exists pool sqrtPrice,
     PriceMonitor.clientGetPool w (PriceMonitor.poolAddress c0) = Resolves pool /\
     PriceMonitor.fetcherGetPool w (PriceMonitor.poolAddress c0)
     = Resolves (Some sqrtPrice) /\
     ar_price record = observedPrice sdk pool sqrtPrice) /\
  PriceMonitor.isUnconfigured c = false /\
  PriceMonitor.outOfBounds c (ar_price record) = true /\
  ar_message record = PriceMonitor.alertMessage c (ar_price record) false /\
  ar_poolAddress record = PriceMonitor.poolAddress c' /\
  ar_lowerBound record = PriceMonitor.priceLowerBound c' /\
  ar_upperBound record = PriceMonitor.priceUpperBound c' /\
  PriceMonitor.isPlaceholderToken (PriceMonitor.telegramBotToken c) = false /\
  FirebaseManager.db fb = true.
Proof.
  intros Hin.
  destruct (async_checkPrice_trace sdk w fb c0 c c')
    as [(_ & Hr & _) | (pool & sqrtPrice & _ & Hclient & Hfetch & Hconf & Hout & _ & Hr)];
    rewrite Hr in Hin; [destruct Hin |].
  destruct (async_sendTelegramAlert_records w fb c c'
              (observedPrice sdk pool sqrtPrice) false)
    as [Hnil | (s & Hone & _ & Hreal & Hdb)];
    [rewrite Hnil in Hin; destruct Hin |].
  rewrite Hone in Hin. destruct Hin as [<- | []].
  cbn [ar_poolAddress ar_lowerBound ar_upperBound ar_price ar_message].
  split; [exists pool, sqrtPrice; repeat split; assumption |].
  repeat split; assumption.
Qed.

(** A poll sees the price 250 outside the bounds (180, 200); while its
    request is out the bounds become (100, 300): the record carries the price
    250 with bounds that contain it. *)
Lemma poll_record_mixes_two_readings_witness :
  let c := Scenario.config Scenario.realToken 180%float 200%float in
  let c' := Scenario.config Scenario.realToken 100%float 300%float in
  let record := mkAlertRecord Scenario.poolId 250%float 100%float 300%float
                  (PriceMonitor.alertMessage c 250%float false) success in
  PriceMonitor.outOfBounds c (ar_price record) = true /\
  PriceMonitor.outOfBounds c' (ar_price record) = false.
Proof.
  cbv zeta. split; [| vm_compute; reflexivity].
  apply (poll_record_mixes_two_readings Scenario.sdk (Scenario.world 200)
           (FirebaseManager.mk true true)
           (Scenario.config Scenario.realToken 180%float 200%float)
           (Scenario.config Scenario.realToken 180%float 200%float)
           (Scenario.config Scenario.realToken 100%float 300%float)).
  vm_compute. left. reflexivity.
Defined.

(** ** Bounds at the edges *)

(** X4. With inverted bounds (the upper bound below the lower bound) every
    poll that observes a number, whatever it is, enters the dispatcher. *)
Theorem inverted_bounds_alert_on_every_price sdk w this pool sqrtPrice :
  oracleAnswers w this pool sqrtPrice ->
  JS.lt (PriceMonitor.priceUpperBound (PriceMonitor.config this))
        (PriceMonitor.priceLowerBound (PriceMonitor.config this)) = true ->
  isNaN (observedPrice sdk pool sqrtPrice) = false ->
  dispatches (trace_of (PriceMonitor.checkPrice sdk w this)) = 1.
Proof.
  intros Ho Hinv Hnum.
  destruct (checkPrice_observed_counts sdk w this pool sqrtPrice Ho) as (-> & _).
  set (c := PriceMonitor.config this) in *.
  set (p := observedPrice sdk pool sqrtPrice) in *.
  assert (Hconf : PriceMonitor.isUnconfigured c = false).
  { unfold PriceMonitor.isUnconfigured.
    destruct (JS.seq (PriceMonitor.priceLowerBound c) JS.zero) eqn:Hlo; [| reflexivity].
    destruct (JS.seq (PriceMonitor.priceUpperBound c) JS.zero) eqn:Hhi; [| reflexivity].
    rewrite (js_zero_not_lt _ _ Hhi Hlo) in Hinv. discriminate. }
  assert (Hout : PriceMonitor.outOfBounds c p = true).
  { unfold PriceMonitor.outOfBounds.
    destruct (js_lt_not_nan _ _ Hinv) as [_ Hlb].
    destruct (js_lt_or_ge p (PriceMonitor.priceLowerBound c) Hnum Hlb) as [-> | Hge];
      [reflexivity |].
    unfold JS.gt. fold (JS.lt (PriceMonitor.priceUpperBound c) p).
    rewrite (js_lt_le_trans _ _ _ Hinv Hge). apply orb_true_r. }
  rewrite Hconf, Hout. reflexivity.
Qed.

Lemma inverted_bounds_alert_on_every_price_witness :
  dispatches
    (trace_of (PriceMonitor.checkPrice Scenario.sdk (Scenario.world 200)
                 (Scenario.monitor Scenario.realToken 300%float 200%float true))) = 1.
Proof.
  apply (inverted_bounds_alert_on_every_price Scenario.sdk (Scenario.world 200)
           (Scenario.monitor Scenario.realToken 300%float 200%float true)
           Scenario.solUsdc Scenario.sqrtPrice250).
  - repeat split; reflexivity.
  - vm_compute. reflexivity.
  - vm_compute. reflexivity.
Defined.

(** X5. A price that is NaN never triggers an alert, whatever the bounds;
    and when both bounds are NaN no price does, whatever the world
    answers. *)
Theorem nan_never_alerts sdk w this :
  (forall pool sqrtPrice,
     oracleAnswers w this pool sqrtPrice ->
     isNaN (observedPrice sdk pool sqrtPrice) = true ->
     dispatches (trace_of (PriceMonitor.checkPrice sdk w this)) = 0) /\
  (isNaN (PriceMonitor.priceLowerBound (PriceMonitor.config this)) = true ->
   isNaN (PriceMonitor.priceUpperBound (PriceMonitor.config this)) = true ->
   dispatches (trace_of (PriceMonitor.checkPrice sdk w this)) = 0).
Proof.
  split.
  - intros pool sqrtPrice Ho Hnan.
    destruct (checkPrice_observed_counts sdk w this pool sqrtPrice Ho) as (-> & _).
    unfold PriceMonitor.outOfBounds.
    destruct (js_nan_compares_false (observedPrice sdk pool sqrtPrice)
                (PriceMonitor.priceLowerBound (PriceMonitor.config this)) Hnan)
      as (-> & _).
    destruct (js_nan_compares_false (observedPrice sdk pool sqrtPrice)
                (PriceMonitor.priceUpperBound (PriceMonitor.config this)) Hnan)
      as (_ & -> & _).
    rewrite andb_false_r. reflexivity.
  - intros Hlo Hhi.
    destruct (oracle_outcome w this) as [[e He] | (pool & sqrtPrice & Ho)].
    + exact (proj1 (checkPrice_oracle_error_silent sdk w this e He)).
    + destruct (checkPrice_observed_counts sdk w this pool sqrtPrice Ho) as (-> & _).
      unfold PriceMonitor.outOfBounds.
      destruct (js_nan_compares_false _ (observedPrice sdk pool sqrtPrice) Hlo)
        as (_ & Hgt & _).
      destruct (js_nan_compares_false _ (observedPrice sdk pool sqrtPrice) Hhi)
        as (Hlt & _).
      unfold JS.gt in *. unfold JS.lt in *. rewrite Hgt, Hlt.
      rewrite andb_false_r. reflexivity.
Qed.

Lemma nan_never_alerts_witness :
  dispatches
    (trace_of (PriceMonitor.checkPrice Scenario.sdk (Scenario.world 200)
                 (Scenario.monitor Scenario.realToken PrimFloat.nan PrimFloat.nan true))) = 0.
Proof.
  destruct (nan_never_alerts Scenario.sdk (Scenario.world 200)
              (Scenario.monitor Scenario.realToken PrimFloat.nan PrimFloat.nan true))
    as [_ H].
  apply H; vm_compute; reflexivity.
Defined.

(** ** The run of a started monitor *)

Lemma onConfig_is_silent u this :
  let t := trace_of (PriceMonitor.onConfig u this) in
  dispatches t = 0 /\ networkCalls t = 0 /\ alertRecords t = [] /\ queried t = [].
Proof.
  unfold PriceMonitor.onConfig.
  destruct u as [[lo |] [hi |] [a |]]; cbn [mc_poolAddress mc_priceLowerBound
    mc_priceUpperBound];
    try destruct (JS.truthy a && JS.sne a _); cbn; repeat split.
Qed.

Lemma handle_config_is_silent sdk n this :
  let t := trace_of (PriceMonitor.handle sdk (PriceMonitor.ConfigNotification n) this) in
  dispatches t = 0 /\ networkCalls t = 0 /\ alertRecords t = [] /\ queried t = [].
Proof.
  cbv zeta. unfold PriceMonitor.handle.
  destruct (PriceMonitor.listening this); [| repeat split].
  destruct n as [id [data |] | e]; unfold FirebaseManager.onSnapshot; [| repeat split ..].
  destruct (onConfig_is_silent data this) as (Hd & Hn & Hr & Hq).
  destruct (onConfig_result data this) as (c' & Hc' & _).
  destruct (PriceMonitor.onConfig data this) as [t cpl].
  cbn [completion_of trace_of fst snd] in *. subst cpl.
  cbn [bind emit trace_of fst app].
  unfold dispatches, networkCalls in *.
  change (count isDispatch (ConsoleLog ?x :: ConsoleLog ?y :: t)) with (count isDispatch t).
  change (count isHttpPost (ConsoleLog ?x :: ConsoleLog ?y :: t)) with (count isHttpPost t).
  cbn [alertRecords queried]. repeat split; assumption.
Qed.

Lemma handle_tick_trace sdk w this :
  trace_of (PriceMonitor.handle sdk (PriceMonitor.Tick w) this)
  = trace_of (PriceMonitor.checkPrice sdk w this).
Proof.
  unfold PriceMonitor.handle.
  rewrite (eff_eta (PriceMonitor.checkPrice sdk w this)), checkPrice_returns.
  cbn. rewrite app_nil_r. reflexivity.
Qed.

(** X6. Over any run of the monitor, the dispatcher is entered at most once
    per tick of the timer, and so for the requests sent and the records
    written: a configuration notification by itself never alerts. *)
Theorem run_acts_at_most_once_per_tick sdk inputs this :
  let t := trace_of (PriceMonitor.run sdk inputs this) in
  dispatches t <= ticks inputs /\
  networkCalls t <= ticks inputs /\
  List.length (alertRecords t) <= ticks inputs.
Proof.
  cbv zeta. revert this. induction inputs as [| i rest IH]; intros this.
  - cbn. repeat split; lia.
  - cbn [PriceMonitor.run].
    destruct (handle_returns sdk i this) as [mid Hmid].
    rewrite (trace_bind _ _ mid Hmid).
    unfold dispatches, networkCalls in *.
    rewrite !count_app, alertRecords_app, length_app.
    destruct (IH mid) as (Hd & Hn & Hr).
    destruct i as [w | n].
    + rewrite handle_tick_trace.
      change (ticks (PriceMonitor.Tick w :: rest)) with (S (ticks rest)).
      destruct (checkPrice_counts sdk w this)
        as [(Hd' & Hn' & Hr') | (Hd' & p & Hn' & Hr')];
        unfold dispatches, networkCalls in *; rewrite Hd', Hn', Hr'.
      * cbn [List.length]. repeat split; lia.
      * fold (networkCalls (trace_of (PriceMonitor.sendTelegramAlert w this p false))).
        rewrite sendTelegramAlert_networkCalls.
        destruct (sendTelegramAlert_records_shape w this p false) as [-> | (s & -> & _)];
          destruct (PriceMonitor.isPlaceholderToken _); cbn [List.length];
          repeat split; lia.
    + destruct (handle_config_is_silent sdk n this) as (Hd' & Hn' & Hr' & _).
      unfold dispatches, networkCalls in *. rewrite Hd', Hn', Hr'.
      change (ticks (PriceMonitor.ConfigNotification n :: rest)) with (ticks rest).
      cbn [List.length]. repeat split; lia.
Qed.

(** X7. Degraded mode. When [init] finds no usable key file, the manager
    has no database; a monitor built on it that starts with the sentinel
    bounds keeps them through every run, whatever notifications and oracle
    answers arrive, and never enters the dispatcher, sends a request or
    writes a record. *)
Theorem degraded_monitor_stays_silent sdk keyFile c running inputs :
  keyFile <> FirebaseManager.GoodKeyFile ->
  PriceMonitor.isUnconfigured c = true ->
  exists fb,
    completion_of (FirebaseManager.init keyFile) = Normal fb /\
    FirebaseManager.db fb = false /\
    let this := PriceMonitor.mk c running fb in
    let r := PriceMonitor.run sdk inputs this in
    completion_of r = Normal this /\
    dispatches (trace_of r) = 0 /\
    networkCalls (trace_of r) = 0 /\
    alertRecords (trace_of r) = [].
Proof.
  intros Hkey Hconf.
  exists (FirebaseManager.mk false false).
  split; [destruct keyFile; [reflexivity | reflexivity | congruence] |].
  split; [reflexivity |].
  cbv zeta. set (this := PriceMonitor.mk c running (FirebaseManager.mk false false)).
  induction inputs as [| i rest IH].
  - repeat split.
  - destruct IH as (Hc & Hd & Hn & Hr).
    assert (Hstep : completion_of (PriceMonitor.handle sdk i this) = Normal this /\
                    dispatches (trace_of (PriceMonitor.handle sdk i this)) = 0 /\
                    networkCalls (trace_of (PriceMonitor.handle sdk i this)) = 0 /\
                    alertRecords (trace_of (PriceMonitor.handle sdk i this)) = []).
    { destruct i as [w | n].
      - rewrite handle_tick_trace. split.
        + unfold PriceMonitor.handle.
          rewrite (eff_eta (PriceMonitor.checkPrice sdk w this)), checkPrice_returns.
          reflexivity.
        + exact (checkPrice_unconfigured_silent sdk w this Hconf).
      - split; [reflexivity | repeat split]. }
    destruct Hstep as (Hc' & Hd' & Hn' & Hr').
    cbn [PriceMonitor.run].
    rewrite (completion_bind _ _ this Hc'), (trace_bind _ _ this Hc').
    unfold dispatches, networkCalls in *.
    rewrite !count_app, alertRecords_app, Hd, Hn, Hr, Hd', Hn', Hr'.
    repeat split. exact Hc.
Qed.

Lemma degraded_monitor_stays_silent_witness :
  exists fb,
    completion_of (FirebaseManager.init FirebaseManager.NoKeyFile) = Normal fb /\
    FirebaseManager.db fb = false /\
    let this := PriceMonitor.mk (Scenario.config Scenario.realToken 0%float 0%float) true fb in
    let r := PriceMonitor.run Scenario.sdk
               [PriceMonitor.Tick (Scenario.world 200);
                PriceMonitor.ConfigNotification
                  (FirebaseManager.DocSnapshot "monitor_settings"
                     (Some (mkMonitorConfig (Some 180%float) (Some 200%float) None)));
                PriceMonitor.Tick (Scenario.world 200)] this in
    completion_of r = Normal this /\
    dispatches (trace_of r) = 0 /\
    networkCalls (trace_of r) = 0 /\
    alertRecords (trace_of r) = [].
Proof.
  apply (degraded_monitor_stays_silent Scenario.sdk FirebaseManager.NoKeyFile).
  - discriminate.
  - vm_compute. reflexivity.
Defined.

(** ** Starting the monitor *)

Lemma count_isSetInterval_sendTelegramAlert w this price isTest :
  count isSetInterval (trace_of (PriceMonitor.sendTelegramAlert w this price isTest)) = 0.
Proof. dispatcher_cases w this; reflexivity. Qed.

Lemma count_isSetInterval_checkPrice sdk w this :
  count isSetInterval (trace_of (PriceMonitor.checkPrice sdk w this)) = 0.
Proof.
  destruct (oracle_outcome w this) as [[e He] | (pool & sqrtPrice & Ho)].
  - revert He.
    unfold oracleError, PriceMonitor.checkPrice, PriceMonitor.newPublicKey. cbv zeta.
    destruct (PriceMonitor.publicKeyError w _) as [e0 |]; [reflexivity |].
    cbn [bind ret emit].
    destruct (PriceMonitor.clientGetPool w _) as [pool | e0]; [| reflexivity].
    cbn [bind ret emit await].
    destruct (PriceMonitor.fetcherGetPool w _) as [[sqrtPrice |] | e0];
      [discriminate | reflexivity | reflexivity].
  - rewrite (checkPrice_observed sdk w this pool sqrtPrice Ho). cbv zeta.
    pose proof (count_isSetInterval_sendTelegramAlert w this
                  (observedPrice sdk pool sqrtPrice) false) as Hs.
    remember (trace_of (PriceMonitor.sendTelegramAlert w this
                          (observedPrice sdk pool sqrtPrice) false)) as ts.
    unfold trace_of. cbn [fst]. rewrite count_app.
    destruct (PriceMonitor.isUnconfigured _); [reflexivity |].
    destruct (PriceMonitor.outOfBounds _ _); [| reflexivity].
    change (count isSetInterval (ConsoleLog ?x :: ts)) with (count isSetInterval ts).
    rewrite Hs. reflexivity.
Qed.

Lemma start_sets_one_timer sdk w this :
  PriceMonitor.isRunning this = false ->
  count isSetInterval (trace_of (PriceMonitor.start sdk w this)) = 1.
Proof.
  intros Hrun.
  set (running := PriceMonitor.mk (PriceMonitor.config this) true
                    (PriceMonitor.firebaseManager this)).
  unfold PriceMonitor.start. rewrite Hrun. cbv zeta. fold running.
  pose proof (count_isSetInterval_checkPrice sdk w running) as Hc.
  pose proof (count_isSetInterval_sendTelegramAlert w running JS.zero true) as Hs.
  rewrite (eff_eta (PriceMonitor.checkPrice sdk w running)), checkPrice_returns.
  rewrite (eff_eta (PriceMonitor.sendTelegramAlert w running JS.zero true)),
          sendTelegramAlert_returns.
  remember (trace_of (PriceMonitor.checkPrice sdk w running)) as tc.
  remember (trace_of (PriceMonitor.sendTelegramAlert w running JS.zero true)) as ts.
  unfold FirebaseManager.listenToConfig.
  destruct (negb (FirebaseManager.db (PriceMonitor.firebaseManager running))
            || negb (FirebaseManager.configRef (PriceMonitor.firebaseManager running)));
    cbn [bind ret emit detach completion_of trace_of fst snd app];
    rewrite ?app_nil_r;
    repeat match goal with
    | |- count isSetInterval (ConsoleLog _ :: ?l) = _ =>
        change (count isSetInterval l = 1)
    | |- count isSetInterval (OnSnapshot :: ?l) = _ =>
        change (count isSetInterval l = 1)
    end;
    rewrite !count_app, Hc, Hs; reflexivity.
Qed.

(** X8. [start] is guarded by [isRunning]: on a monitor that is not running
    it returns the monitor running and sets exactly one interval timer; a
    second [start] does nothing at all, so starting twice leaves one timer
    and one start-up message. *)
Theorem start_twice_is_start_once sdk w w' this :
  PriceMonitor.isRunning this = false ->
  let running := PriceMonitor.mk (PriceMonitor.config this) true
                   (PriceMonitor.firebaseManager this) in
  completion_of (PriceMonitor.start sdk w this) = Normal running /\
  PriceMonitor.start sdk w' running = ([], Normal running) /\
  (started <- PriceMonitor.start sdk w this ;; PriceMonitor.start sdk w' started)
  = PriceMonitor.start sdk w this /\
  count isSetInterval (trace_of (PriceMonitor.start sdk w this)) = 1.
Proof.
  intros Hrun running.
  destruct (start_trace sdk w this Hrun) as (pre & Hstart & _).
  fold running in Hstart.
  split; [rewrite Hstart; reflexivity |].
  split; [reflexivity |].
  split; [| exact (start_sets_one_timer sdk w this Hrun)].
  rewrite Hstart. cbn [bind]. change (PriceMonitor.start sdk w' running) with
    (@nil Event, @Normal PriceMonitor.t running).
  cbn. rewrite app_nil_r. reflexivity.
Qed.

Lemma start_twice_is_start_once_witness :
  count isSetInterval
    (trace_of (PriceMonitor.start Scenario.sdk (Scenario.world 200)
                 (PriceMonitor.mk (Scenario.config Scenario.realToken 0%float 0%float)
                    false (FirebaseManager.mk true true)))) = 1.
Proof.
  apply (start_twice_is_start_once Scenario.sdk (Scenario.world 200) Scenario.offline
           (PriceMonitor.mk (Scenario.config Scenario.realToken 0%float 0%float)
              false (FirebaseManager.mk true true))).
  reflexivity.
Defined.

(** *** [start] up to its return *)

(** With the same configuration when it begins and when the oracle has
    answered, the two stretches of the poll are [PriceMonitor.checkPrice]. *)
Lemma async_checkPrice_same sdk w this :
  Async.checkPrice sdk w (PriceMonitor.firebaseManager this)
    (PriceMonitor.config this) (PriceMonitor.config this) (PriceMonitor.config this)
  = PriceMonitor.checkPrice sdk w this.
Proof.
  cbv beta zeta delta [PriceMonitor.checkPrice Async.checkPrice Async.checkPrice_begin
                       Async.checkPrice_resume PriceMonitor.newPublicKey].
  destruct (PriceMonitor.publicKeyError w _) as [e0 |]; [reflexivity |].
  cbn [bind ret emit throw await try_catch app].
  destruct (PriceMonitor.clientGetPool w _) as [pool | e0]; [| reflexivity].
  cbn [bind ret emit throw await try_catch app].
  destruct (PriceMonitor.fetcherGetPool w _) as [[sqrtPrice |] | e0];
    [| reflexivity | reflexivity].
  cbn [bind ret emit throw await try_catch app].
  destruct (PriceMonitor.isUnconfigured _); [reflexivity |].
  destruct (PriceMonitor.outOfBounds _ _); [| reflexivity].
  rewrite async_sendTelegramAlert_same.
  destruct (PriceMonitor.sendTelegramAlert w this _ false) as [t [[] | e | e]];
    reflexivity.
Qed.

(** What [start] has done when it returns. *)
Lemma async_start_returns w this :
  PriceMonitor.isRunning this = false ->
  let c := PriceMonitor.config this in
  let demo := PriceMonitor.isPlaceholderToken (PriceMonitor.telegramBotToken c) in
  let r := Async.start w this in
  completion_of r
  = Normal (PriceMonitor.mk c true (PriceMonitor.firebaseManager this),
            Async.mkPending
              (match PriceMonitor.publicKeyError w (PriceMonitor.poolAddress c) with
               | Some _ => None
               | None => Some (PriceMonitor.poolAddress c)
               end)
              (if demo then None else Some (PriceMonitor.alertMessage c JS.zero true))) /\
  dispatches (trace_of r) = 1 /\
  In (SendTelegramAlert JS.zero true) (trace_of r) /\
  networkCalls (trace_of r) = (if demo then 0 else 1) /\
  alertRecords (trace_of r) = [] /\
  count isSetInterval (trace_of r) = 1 /\
  lastEvent (trace_of r) = Some (SetInterval (PriceMonitor.checkIntervalMs c)).
Proof.
  intros Hrun. cbv zeta.
  unfold Async.start, FirebaseManager.listenToConfig, Async.checkPrice_begin,
         PriceMonitor.newPublicKey, Async.sendTelegramAlert_begin.
  rewrite Hrun. cbv zeta.
  cbn [PriceMonitor.config PriceMonitor.firebaseManager].
  destruct (negb (FirebaseManager.db (PriceMonitor.firebaseManager this))
            || negb (FirebaseManager.configRef (PriceMonitor.firebaseManager this)));
    destruct (PriceMonitor.publicKeyError w _) as [e0 |];
    destruct (PriceMonitor.isPlaceholderToken _);
    cbn [bind ret emit throw try_catch app completion_of trace_of fst snd];
    (split; [reflexivity |]); (split; [reflexivity |]);
    (split; [cbn [In]; tauto |]); repeat split; reflexivity.
Qed.

(** The test message, once its request is answered: whatever the answer,
    it enters no dispatcher and writes no record. *)
Lemma async_test_message_resumes fb add answer c' price message :
  let t := trace_of (Async.sendTelegramAlert_resume fb add answer c' price true message) in
  dispatches t = 0 /\ alertRecords t = [].
Proof.
  cbv zeta. unfold Async.sendTelegramAlert_resume.
  destruct answer as [[st stt [body | e]] | e];
    unfold PriceMonitor.ok, await; simpl; world_cases; split; reflexivity.
Qed.

(** The first poll, once the oracle answers: with the sentinel bounds still
    in force it alerts nobody. *)
Lemma async_first_poll_resumes sdk w fb a c c' :
  PriceMonitor.isUnconfigured c = true ->
  let t := trace_of (Async.checkPrice_resume sdk w fb a c c') in
  dispatches t = 0 /\ networkCalls t = 0 /\ alertRecords t = [].
Proof.
  intros Hconf. cbv zeta. unfold Async.checkPrice_resume. cbv zeta. rewrite Hconf.
  destruct (PriceMonitor.clientGetPool w a) as [pool | e0]; [| repeat split].
  cbn [bind ret emit throw await try_catch app].
  destruct (PriceMonitor.fetcherGetPool w a) as [[sqrtPrice |] | e0]; repeat split.
Qed.

Lemma async_sendTelegramAlert_resume_returns fb add answer c' price isTest message :
  completion_of (Async.sendTelegramAlert_resume fb add answer c' price isTest message)
  = Normal tt.
Proof.
  unfold Async.sendTelegramAlert_resume, FirebaseManager.logAlert.
  destruct answer as [[st stt [body | e]] | e];
    unfold PriceMonitor.ok, await; simpl; world_cases; reflexivity.
Qed.

Lemma async_checkPrice_resume_returns sdk w fb a c c' :
  completion_of (Async.checkPrice_resume sdk w fb a c c') = Normal tt.
Proof.
  unfold Async.checkPrice_resume. cbv zeta.
  destruct (PriceMonitor.clientGetPool w a) as [pool | e0]; [| reflexivity].
  cbn [bind ret emit throw await try_catch app].
  destruct (PriceMonitor.fetcherGetPool w a) as [[sqrtPrice |] | e0];
    [| reflexivity | reflexivity].
  cbn [bind ret emit throw await try_catch app].
  destruct (PriceMonitor.isUnconfigured c); [reflexivity |].
  destruct (PriceMonitor.outOfBounds c _); [| reflexivity].
  match goal with
  | |- context [Async.sendTelegramAlert ?w ?f ?x ?y ?p ?b] =>
      rewrite (eff_eta (Async.sendTelegramAlert w f x y p b));
      rewrite async_sendTelegramAlert_returns
  end.
  reflexivity.
Qed.

(** [PriceMonitor.start] and [Async.start]: when the configuration does not
    change while the first poll and the test message wait, the run of
    [PriceMonitor.start] has the events of [start] up to its return and of
    the two calls going on afterwards, in another order, and it ends with
    the same monitor. *)
Lemma async_start_same sdk w this :
  PriceMonitor.isRunning this = false ->
  let c := PriceMonitor.config this in
  let fb := PriceMonitor.firebaseManager this in
  exists t started pending,
    Async.start w this = (t, Normal (started, pending)) /\
    completion_of (PriceMonitor.start sdk w this) = Normal started /\
    Permutation (trace_of (PriceMonitor.start sdk w this))
      (t ++ trace_of (Async.firstPoll_resume sdk w fb c c pending)
         ++ trace_of (Async.testMessage_resume w fb c c pending)).
Proof.
  intros Hrun. cbv zeta.
  set (running := PriceMonitor.mk (PriceMonitor.config this) true
                    (PriceMonitor.firebaseManager this)).
  unfold PriceMonitor.start, Async.start. rewrite Hrun. cbv zeta. fold running.
  rewrite <- (async_checkPrice_same sdk w running).
  rewrite <- (async_sendTelegramAlert_same w running JS.zero true).
  unfold Async.checkPrice, Async.sendTelegramAlert, Async.firstPoll_resume,
         Async.testMessage_resume.
  cbn [PriceMonitor.config PriceMonitor.firebaseManager running].
  unfold FirebaseManager.listenToConfig, Async.checkPrice_begin,
         PriceMonitor.newPublicKey, Async.sendTelegramAlert_begin.
  destruct (negb (FirebaseManager.db (PriceMonitor.firebaseManager this))
            || negb (FirebaseManager.configRef (PriceMonitor.firebaseManager this)));
    destruct (PriceMonitor.publicKeyError w _) as [e0 |];
    destruct (PriceMonitor.isPlaceholderToken _);
    cbn [bind ret emit throw try_catch app];
    eexists; eexists; eexists;
    (split; [reflexivity |]);
    cbn [Async.firstPoll Async.testMessage];
    repeat match goal with
    | |- context [Async.checkPrice_resume ?s ?w ?f ?a ?x ?y] =>
        rewrite (eff_eta (Async.checkPrice_resume s w f a x y));
        rewrite async_checkPrice_resume_returns;
        generalize (trace_of (Async.checkPrice_resume s w f a x y)); intros tr
    | |- context [Async.sendTelegramAlert_resume ?f ?add ?ans ?y ?p ?b ?m] =>
        rewrite (eff_eta (Async.sendTelegramAlert_resume f add ans y p b m));
        rewrite async_sendTelegramAlert_resume_returns;
        generalize (trace_of (Async.sendTelegramAlert_resume f add ans y p b m)); intros ts
    end;
    cbn [bind ret emit throw try_catch detach app completion_of trace_of fst snd];
    (split; [reflexivity |]);
    rewrite ?app_nil_r;
    repeat apply perm_skip;
    first
      [ reflexivity
      | apply Permutation_app_comm
      | etransitivity; [apply Permutation_app_comm |];
        cbn [app]; repeat apply perm_skip;
        etransitivity; [apply Permutation_app_comm |];
        rewrite app_assoc; apply Permutation_app_comm ].
Qed.

(** X9. [start] up to its return, on a monitor that is not running. The
    two calls [start] does not await run only up to their first [await]: the
    first poll has asked its first question (or logged that the address is
    no key), the test message (price 0, [isTest] true) has entered the
    dispatcher, the only entry so far, and its request is out (in demo mode
    it is printed instead); then the interval timer is set, which is the last
    thing [start] does, and the monitor is running. Nothing is written to
    the audit collection, neither by then nor when the test message is
    answered, whatever the answer. The first poll goes on when the oracle
    answers: it reads the bounds then, and with the sentinel pair still in
    force it alerts nobody. *)
Theorem start_returns_with_the_test_message_out w this :
  PriceMonitor.isRunning this = false ->
  let c := PriceMonitor.config this in
  let fb := PriceMonitor.firebaseManager this in
  let demo := PriceMonitor.isPlaceholderToken (PriceMonitor.telegramBotToken c) in
  let r := Async.start w this in
  completion_of r
  = Normal (PriceMonitor.mk c true fb,
            Async.mkPending
              (match PriceMonitor.publicKeyError w (PriceMonitor.poolAddress c) with
               | Some _ => None
               | None => Some (PriceMonitor.poolAddress c)
               end)
              (if demo then None else Some (PriceMonitor.alertMessage c JS.zero true))) /\
  dispatches (trace_of r) = 1 /\
  In (SendTelegramAlert JS.zero true) (trace_of r) /\
  networkCalls (trace_of r) = (if demo then 0 else 1) /\
  alertRecords (trace_of r) = [] /\
  lastEvent (trace_of r) = Some (SetInterval (PriceMonitor.checkIntervalMs c)) /\
  (forall add answer c' message,
     let t := trace_of (Async.sendTelegramAlert_resume fb add answer c' JS.zero true message) in
     dispatches t = 0 /\ alertRecords t = []) /\
  (forall sdk w' a c1 c',
     PriceMonitor.isUnconfigured c1 = true ->
     let t := trace_of (Async.checkPrice_resume sdk w' fb a c1 c') in
     dispatches t = 0 /\ networkCalls t = 0 /\ alertRecords t = []).
Proof.
  intros Hrun. cbv zeta.
  destruct (async_start_returns w this Hrun) as (Hc & Hd & Hin & Hn & Hr & _ & Hlast).
  repeat (split; [assumption |]).
  split.
  - intros add answer c' message.
    exact (async_test_message_resumes _ add answer c' JS.zero message).
  - intros sdk w' a c1 c' Hconf.
    exact (async_first_poll_resumes sdk w' _ a c1 c' Hconf).
Qed.

Lemma start_returns_with_the_test_message_out_witness :
  lastEvent
    (trace_of (Async.start (Scenario.world 200)
                 (PriceMonitor.mk (Scenario.config Scenario.realToken 0%float 0%float)
                    false (FirebaseManager.mk true true))))
  = Some (SetInterval 60000%float).
Proof.
  destruct (start_returns_with_the_test_message_out (Scenario.world 200)
              (PriceMonitor.mk (Scenario.config Scenario.realToken 0%float 0%float)
                 false (FirebaseManager.mk true true)))
    as (_ & _ & _ & _ & _ & H & _).
  - reflexivity.
  - exact H.
Defined.

(** ** The entry point *)

(** X10. [main] either stops before anything is built, or starts a monitor
    with the sentinel bounds. When one of the four required variables is
    missing or empty it logs one error and exits with code 1: no manager, no
    poll, no message, no timer. Otherwise (and when the connection can be
    opened) [main] returns with the monitor running: it watches the pool
    named by POOL_ADDRESS, polls every
    [parseInt(CHECK_INTERVAL_MS || "60000")] milliseconds and has the bounds
    (0,0) whatever the environment says; by then the dispatcher has been
    entered once, for the test message, one timer is set and no record has
    been written. *)
Theorem main_exits_or_starts_unconfigured parseInt connectionError keyFile w env :
  let required := [Index.RPC_URL env; Index.POOL_ADDRESS env;
                   Index.TELEGRAM_BOT_TOKEN env; Index.TELEGRAM_CHAT_ID env] in
  let r := Index.main parseInt connectionError keyFile w env in
  (existsb Index.missing required = true ->
     r = ([ConsoleError [Str "Missing required environment variables. Please check .env file."]],
          Normal (Index.Exit 1))) /\
  (existsb Index.missing required = false ->
   connectionError (Index.value (Index.RPC_URL env)) = None ->
   exists monitor pending,
     completion_of r = Normal (Index.Started monitor pending) /\
     PriceMonitor.isRunning monitor = true /\
     PriceMonitor.poolAddress (PriceMonitor.config monitor) = Index.value (Index.POOL_ADDRESS env) /\
     Index.POOL_ADDRESS env = Some (PriceMonitor.poolAddress (PriceMonitor.config monitor)) /\
     PriceMonitor.priceLowerBound (PriceMonitor.config monitor) = JS.zero /\
     PriceMonitor.priceUpperBound (PriceMonitor.config monitor) = JS.zero /\
     PriceMonitor.checkIntervalMs (PriceMonitor.config monitor)
     = parseInt (Index.or_else (Index.CHECK_INTERVAL_MS env) "60000") /\
     dispatches (trace_of r) = 1 /\
     In (SendTelegramAlert JS.zero true) (trace_of r) /\
     alertRecords (trace_of r) = [] /\
     count isSetInterval (trace_of r) = 1).
Proof.
  cbv zeta. unfold Index.main. cbv zeta. cbn [existsb]. rewrite orb_false_r, !orb_assoc.
  split.
  - intros ->. reflexivity.
  - intros Hok Hconn. rewrite Hok.
    unfold Index.newPriceMonitor. cbn [PriceMonitor.rpcUrl]. rewrite Hconn.
    set (c := PriceMonitor.mkConfig _ _ _ _ _ _ _).
    assert (Hinit : exists t fb, FirebaseManager.init keyFile = (t, Normal fb) /\
                                 dispatches t = 0 /\ alertRecords t = [] /\
                                 count isSetInterval t = 0).
    { destruct keyFile; cbn; eexists; eexists; repeat split. }
    destruct Hinit as (ti & fb & -> & Hid & Hir & Hit).
    cbn [bind ret]. rewrite app_nil_r.
    set (m0 := PriceMonitor.mk c false fb).
    destruct (async_start_returns w m0 eq_refl) as (Hc & Hd & Hin & _ & Hr & Ht & _).
    destruct (Async.start w m0) as [ts cs].
    cbn [completion_of trace_of fst snd] in *. subst cs.
    cbn [completion_of trace_of fst snd]. rewrite ?app_nil_r.
    eexists. eexists. split; [reflexivity |].
    cbn [PriceMonitor.isRunning PriceMonitor.config PriceMonitor.poolAddress
         PriceMonitor.priceLowerBound PriceMonitor.priceUpperBound
         PriceMonitor.checkIntervalMs m0 c].
    unfold dispatches in *. rewrite !count_app, alertRecords_app, Hid, Hir, Hit, Hd, Hr, Ht.
    repeat split.
    + subst c. cbn.
      destruct (Index.POOL_ADDRESS env) as [a |]; [reflexivity |].
      cbn in Hok. rewrite orb_true_r in Hok. discriminate.
    + apply in_or_app. right. exact Hin.
Qed.

Lemma main_exits_or_starts_unconfigured_witness :
  exists monitor pending,
    completion_of
      (Index.main (fun _ => 60000%float) (fun _ => None)
         FirebaseManager.GoodKeyFile (Scenario.world 200)
         (Index.mkProcessEnv (Some "https://api.mainnet-beta.solana.com")
            (Some Scenario.poolId) (Some Scenario.realToken) (Some "-1001234567890")
            None))
    = Normal (Index.Started monitor pending) /\
    PriceMonitor.isRunning monitor = true.
Proof.
  destruct (main_exits_or_starts_unconfigured (fun _ => 60000%float)
              (fun _ => None) FirebaseManager.GoodKeyFile (Scenario.world 200)
              (Index.mkProcessEnv (Some "https://api.mainnet-beta.solana.com")
                 (Some Scenario.poolId) (Some Scenario.realToken)
                 (Some "-1001234567890") None)) as [_ H].
  destruct (H eq_refl eq_refl) as (monitor & pending & Hc & Hr & _).
  exists monitor, pending. split; assumption.
Defined.

(** ** The socket client under arbitrary inputs *)

Lemma delivered_app (xs ys : list UseWebSocket.Event) :
  delivered (xs ++ ys) = delivered xs ++ delivered ys.
Proof.
  induction xs as [| e xs IH]; [reflexivity |].
  destruct e; cbn; rewrite ?IH; reflexivity.
Qed.

Lemma parseErrors_app (xs ys : list UseWebSocket.Event) :
  parseErrors (xs ++ ys) = parseErrors xs + parseErrors ys.
Proof. unfold parseErrors. rewrite filter_app, length_app. reflexivity. Qed.

Lemma connectedAfter_cons i rest b :
  connectedAfter (i :: rest) b = connectedAfter rest (connectedAfter [i] b).
Proof. destruct i; reflexivity. Qed.

Lemma parsedMessages_cons i rest :
  parsedMessages (i :: rest) = parsedMessages [i] ++ parsedMessages rest.
Proof. destruct i as [| | [m |] | | |]; reflexivity. Qed.

Lemma malformed_cons i rest : malformed (i :: rest) = malformed [i] + malformed rest.
Proof. destruct i as [| | [m |] | | |]; reflexivity. Qed.

Lemma last_some_app {A : Type} (xs ys : list A) (d : option A) :
  List.last (map Some (xs ++ ys)) d = List.last (map Some ys) (List.last (map Some xs) d).
Proof.
  destruct ys as [| y ys' ] using rev_ind.
  - rewrite app_nil_r. reflexivity.
  - rewrite app_assoc, !map_app. cbn [map]. rewrite !last_last. reflexivity.
Qed.

Lemma hook_run_cons options i rest st :
  Hook.run options (i :: rest) st
  = (fst (Hook.step options i st)
     ++ fst (Hook.run options rest (snd (Hook.step options i st))),
     snd (Hook.run options rest (snd (Hook.step options i st)))).
Proof.
  cbn [Hook.run]. destruct (Hook.step options i st) as [evs st1]. cbn [fst snd].
  destruct (Hook.run options rest st1); reflexivity.
Qed.

(** Under one render the hook is [UseWebSocket.run]. *)
Lemma hook_run_sockets options inputs st :
  fst (Hook.run options (map Hook.Socket inputs) st)
  = fst (UseWebSocket.run options inputs (Hook.refs st)) /\
  Hook.refs (snd (Hook.run options (map Hook.Socket inputs) st))
  = snd (UseWebSocket.run options inputs (Hook.refs st)).
Proof.
  revert st. induction inputs as [| i rest IH]; intros st; [split; reflexivity |].
  cbn [map]. rewrite hook_run_cons. cbn [fst snd UseWebSocket.run].
  assert (Hstep : fst (Hook.step options (Hook.Socket i) st)
                  = fst (UseWebSocket.step options i (Hook.refs st)) /\
                  Hook.refs (snd (Hook.step options (Hook.Socket i) st))
                  = snd (UseWebSocket.step options i (Hook.refs st))).
  { destruct i; cbn [Hook.step UseWebSocket.step];
      match goal with
      | |- context [let (_, _) := ?x in _] => destruct x
      end; split; reflexivity. }
  destruct Hstep as [He Hs].
  destruct (IH (snd (Hook.step options (Hook.Socket i) st))) as [He' Hs'].
  rewrite He, He', Hs', Hs.
  destruct (UseWebSocket.step options i (Hook.refs st)) as [evs st1]. cbn [fst snd].
  destruct (UseWebSocket.run options rest st1); split; reflexivity.
Qed.

(** While the timer set last is pending whenever a timer is, the cleanup
    is [unmount]. *)
Lemma hook_cleanup_unmount st :
  Hook.lastTimerPending st = (0 <? UseWebSocket.pendingTimers (Hook.refs st))%nat ->
  (fst (Hook.cleanup st), Hook.refs (snd (Hook.cleanup st))) = unmount (Hook.refs st).
Proof.
  destruct st as [[conn lastm ws attempts pending] lastp cl]. cbn. intros ->.
  unfold Hook.cleanup, Hook.clearTimeout, unmount. cbn.
  destruct pending; reflexivity.
Qed.

Ltac hook_facts :=
  cbn; unfold Hook.timersConsistent; cbn;
  repeat split; try lia; try discriminate;
  try (intros d Hin; cbn in Hin; intuition (try discriminate; congruence));
  try (intros; lia).

(** One input of the hook, whatever it is: the counter, the timers, the
    connection flag. *)
Lemma hook_step_timers options i st :
  UseWebSocket.reconnectAttempts (Hook.refs st)
  <= UseWebSocket.the_maxReconnectAttempts options ->
  Hook.timersConsistent st ->
  let evs := fst (Hook.step options i st) in
  let st' := snd (Hook.step options i st) in
  UseWebSocket.reconnectAttempts (Hook.refs st')
  <= UseWebSocket.the_maxReconnectAttempts options /\
  Hook.timersConsistent st' /\
  UseWebSocket.pendingTimers (Hook.refs st') + UseWebSocket.reconnections evs
  + Hook.cleared st'
  = UseWebSocket.pendingTimers (Hook.refs st) + UseWebSocket.scheduled evs
    + Hook.cleared st /\
  UseWebSocket.delays_are (UseWebSocket.the_reconnectDelay options) evs /\
  UseWebSocket.isConnected (Hook.refs st')
  = connectedAfter (Hook.socketInputs [i]) (UseWebSocket.isConnected (Hook.refs st)).
Proof.
  intros Hle Hwf. destruct st as [[conn lastm ws attempts pending] lastp cl].
  unfold Hook.timersConsistent in Hwf. cbn in Hle, Hwf.
  destruct lastp; [specialize (Hwf eq_refl) | clear Hwf];
    (destruct i as [[created | | parsed | | | created] | message | created |];
     [ unfold Hook.step, UseWebSocket.step, UseWebSocket.connect, UseWebSocket.when;
       destruct created, ws
     | unfold Hook.step, UseWebSocket.step, UseWebSocket.onopen, UseWebSocket.when;
       destruct (UseWebSocket.has options UseWebSocket.onConnect)
     | unfold Hook.step, UseWebSocket.step, UseWebSocket.onmessage, UseWebSocket.when;
       destruct parsed, (UseWebSocket.has options UseWebSocket.onMessage)
     | unfold Hook.step, UseWebSocket.onclose, UseWebSocket.when; cbv zeta;
       cbn [Hook.refs UseWebSocket.reconnectAttempts];
       destruct (Nat.ltb_spec attempts (UseWebSocket.the_maxReconnectAttempts options))
         as [Hlt | Hge];
       destruct (UseWebSocket.has options UseWebSocket.onDisconnect)
     | unfold Hook.step, UseWebSocket.step, UseWebSocket.onerror
     | unfold Hook.step, UseWebSocket.step, UseWebSocket.connect, UseWebSocket.when;
       cbn [Hook.refs UseWebSocket.pendingTimers];
       destruct pending as [| [| n]]; destruct created, ws
     | unfold Hook.step, UseWebSocket.onmessage, UseWebSocket.when;
       destruct (UseWebSocket.has options UseWebSocket.onMessage)
     | unfold Hook.step, Hook.cleanup, Hook.clearTimeout, UseWebSocket.connect,
              UseWebSocket.when;
       cbn [Hook.refs Hook.lastTimerPending Hook.cleared UseWebSocket.wsRef];
       destruct created, ws
     | unfold Hook.step, Hook.cleanup, Hook.clearTimeout, UseWebSocket.when;
       cbn [Hook.refs Hook.lastTimerPending Hook.cleared UseWebSocket.wsRef];
       destruct ws ]);
    hook_facts.
Qed.

(** One input of the hook, whatever it is: the messages. *)
Lemma hook_step_messages options i st :
  let evs := fst (Hook.step options i st) in
  let st' := snd (Hook.step options i st) in
  UseWebSocket.lastMessage (Hook.refs st')
  = List.last (map Some (parsedMessages (Hook.socketInputs [i])))
      (UseWebSocket.lastMessage (Hook.refs st)) /\
  delivered evs
  = (if UseWebSocket.has options UseWebSocket.onMessage
     then parsedMessages (Hook.socketInputs [i]) else []) /\
  parseErrors evs
  = malformed (Hook.socketInputs [i])
    + (if UseWebSocket.has options UseWebSocket.onMessage then Hook.thrown [i] else 0).
Proof.
  destruct st as [[conn lastm ws attempts pending] lastp cl].
  destruct i as [[created | | parsed | | | created] | message | created |].
  - unfold Hook.step, UseWebSocket.step, UseWebSocket.connect, UseWebSocket.when.
    destruct created, ws, (UseWebSocket.has options UseWebSocket.onMessage);
      cbn; repeat split.
  - unfold Hook.step, UseWebSocket.step, UseWebSocket.onopen, UseWebSocket.when.
    destruct (UseWebSocket.has options UseWebSocket.onConnect),
             (UseWebSocket.has options UseWebSocket.onMessage); cbn; repeat split.
  - unfold Hook.step, UseWebSocket.step, UseWebSocket.onmessage, UseWebSocket.when.
    destruct parsed, (UseWebSocket.has options UseWebSocket.onMessage);
      cbn; repeat split.
  - unfold Hook.step, UseWebSocket.onclose, UseWebSocket.when. cbv zeta.
    cbn [Hook.refs UseWebSocket.reconnectAttempts].
    destruct (attempts <? UseWebSocket.the_maxReconnectAttempts options)%nat,
             (UseWebSocket.has options UseWebSocket.onDisconnect),
             (UseWebSocket.has options UseWebSocket.onMessage); cbn; repeat split.
  - unfold Hook.step, UseWebSocket.step, UseWebSocket.onerror.
    destruct (UseWebSocket.has options UseWebSocket.onMessage); cbn; repeat split.
  - unfold Hook.step, UseWebSocket.step, UseWebSocket.connect, UseWebSocket.when.
    cbn [Hook.refs UseWebSocket.pendingTimers].
    destruct pending, created, ws, (UseWebSocket.has options UseWebSocket.onMessage);
      cbn; repeat split.
  - unfold Hook.step, UseWebSocket.onmessage, UseWebSocket.when.
    destruct (UseWebSocket.has options UseWebSocket.onMessage); cbn; repeat split.
  - unfold Hook.step, Hook.cleanup, Hook.clearTimeout, UseWebSocket.connect,
           UseWebSocket.when.
    cbn [Hook.refs Hook.lastTimerPending Hook.cleared UseWebSocket.wsRef].
    destruct lastp, created, ws, (UseWebSocket.has options UseWebSocket.onMessage);
      cbn; repeat split.
  - unfold Hook.step, Hook.cleanup, Hook.clearTimeout, UseWebSocket.when.
    cbn [Hook.refs Hook.lastTimerPending Hook.cleared UseWebSocket.wsRef].
    destruct lastp, ws, (UseWebSocket.has options UseWebSocket.onMessage);
      cbn; repeat split.
Qed.

Lemma socketInputs_cons i rest :
  Hook.socketInputs (i :: rest) = Hook.socketInputs [i] ++ Hook.socketInputs rest.
Proof. destruct i; reflexivity. Qed.

Lemma thrown_cons i rest : Hook.thrown (i :: rest) = Hook.thrown [i] + Hook.thrown rest.
Proof. destruct i; reflexivity. Qed.

Lemma connectedAfter_app xs ys b :
  connectedAfter (xs ++ ys) b = connectedAfter ys (connectedAfter xs b).
Proof.
  revert b. induction xs as [| i xs IH]; intros b; [reflexivity |].
  cbn [app]. rewrite connectedAfter_cons, IH, <- connectedAfter_cons. reflexivity.
Qed.

Lemma parsedMessages_app xs ys :
  parsedMessages (xs ++ ys) = parsedMessages xs ++ parsedMessages ys.
Proof.
  induction xs as [| i xs IH]; [reflexivity |].
  cbn [app]. rewrite parsedMessages_cons, IH, (parsedMessages_cons i xs), app_assoc.
  reflexivity.
Qed.

Lemma malformed_app xs ys : malformed (xs ++ ys) = malformed xs + malformed ys.
Proof. unfold malformed. rewrite filter_app, length_app. reflexivity. Qed.

Lemma hook_run_timers options inputs st :
  UseWebSocket.reconnectAttempts (Hook.refs st)
  <= UseWebSocket.the_maxReconnectAttempts options ->
  Hook.timersConsistent st ->
  let evs := fst (Hook.run options inputs st) in
  let st' := snd (Hook.run options inputs st) in
  UseWebSocket.reconnectAttempts (Hook.refs st')
  <= UseWebSocket.the_maxReconnectAttempts options /\
  Hook.timersConsistent st' /\
  UseWebSocket.pendingTimers (Hook.refs st') + UseWebSocket.reconnections evs
  + Hook.cleared st'
  = UseWebSocket.pendingTimers (Hook.refs st) + UseWebSocket.scheduled evs
    + Hook.cleared st /\
  UseWebSocket.delays_are (UseWebSocket.the_reconnectDelay options) evs /\
  UseWebSocket.isConnected (Hook.refs st')
  = connectedAfter (Hook.socketInputs inputs) (UseWebSocket.isConnected (Hook.refs st)).
Proof.
  revert st. induction inputs as [| i rest IH]; intros st Hle Hwf.
  - cbn. repeat split; try lia; try assumption. intros d [].
  - pose proof (hook_step_timers options i st Hle Hwf) as Hstep.
    rewrite hook_run_cons. cbn [fst snd].
    destruct (Hook.step options i st) as [evs st1]. cbn [fst snd] in *.
    destruct Hstep as (Ha & Hw & Hb & Hc & Hd).
    pose proof (IH st1 Ha Hw) as Hrun.
    destruct (Hook.run options rest st1) as [evs' st2]. cbn [fst snd] in *.
    destruct Hrun as (Ha' & Hw' & Hb' & Hc' & Hd').
    rewrite scheduled_app, reconnections_app.
    rewrite socketInputs_cons, connectedAfter_app, <- Hd, <- Hd'.
    repeat split; try lia; auto using delays_are_app.
Qed.

Lemma hook_run_messages options inputs st :
  let evs := fst (Hook.run options inputs st) in
  let st' := snd (Hook.run options inputs st) in
  UseWebSocket.lastMessage (Hook.refs st')
  = List.last (map Some (parsedMessages (Hook.socketInputs inputs)))
      (UseWebSocket.lastMessage (Hook.refs st)) /\
  delivered evs
  = (if UseWebSocket.has options UseWebSocket.onMessage
     then parsedMessages (Hook.socketInputs inputs) else []) /\
  parseErrors evs
  = malformed (Hook.socketInputs inputs)
    + (if UseWebSocket.has options UseWebSocket.onMessage then Hook.thrown inputs else 0).
Proof.
  revert st. induction inputs as [| i rest IH]; intros st.
  - cbn. destruct (UseWebSocket.has options UseWebSocket.onMessage); repeat split.
  - pose proof (hook_step_messages options i st) as Hstep.
    rewrite hook_run_cons. cbn [fst snd].
    destruct (Hook.step options i st) as [evs st1]. cbn [fst snd] in *.
    destruct Hstep as (He & Hf & Hg).
    pose proof (IH st1) as Hrun.
    destruct (Hook.run options rest st1) as [evs' st2]. cbn [fst snd] in *.
    destruct Hrun as (He' & Hf' & Hg').
    rewrite delivered_app, parseErrors_app.
    rewrite socketInputs_cons, parsedMessages_app, malformed_app, last_some_app,
            (thrown_cons i rest).
    rewrite He', Hf, Hf', Hg, Hg', He.
    repeat split.
    + destruct (UseWebSocket.has options UseWebSocket.onMessage); reflexivity.
    + destruct (UseWebSocket.has options UseWebSocket.onMessage); lia.
Qed.

(** X11. The hook across renders. Whatever happens to the hook (sockets
    opening, closing and failing, timers firing, the effect running again
    because the caller passed a new [options] object, the component
    unmounting), provided the values of the options stay the same: the
    attempt counter never exceeds the cap; every timer that was set is still
    pending, has fired and reconnected, or was cleared by a cleanup (pending
    plus reconnections plus cleared equal pending before plus timers set plus
    cleared before), so reconnections never outnumber the timers; every
    timer is set with [reconnectDelay]; and [isConnected] is true exactly
    when the last open or close event was an open. *)
Theorem hook_invariants_across_renders options inputs st :
  UseWebSocket.reconnectAttempts (Hook.refs st)
  <= UseWebSocket.the_maxReconnectAttempts options ->
  Hook.timersConsistent st ->
  let r := Hook.run options inputs st in
  UseWebSocket.reconnectAttempts (Hook.refs (snd r))
  <= UseWebSocket.the_maxReconnectAttempts options /\
  UseWebSocket.pendingTimers (Hook.refs (snd r)) + UseWebSocket.reconnections (fst r)
  + Hook.cleared (snd r)
  = UseWebSocket.pendingTimers (Hook.refs st) + UseWebSocket.scheduled (fst r)
    + Hook.cleared st /\
  UseWebSocket.reconnections (fst r)
  <= UseWebSocket.pendingTimers (Hook.refs st) + UseWebSocket.scheduled (fst r) /\
  UseWebSocket.delays_are (UseWebSocket.the_reconnectDelay options) (fst r) /\
  UseWebSocket.isConnected (Hook.refs (snd r))
  = connectedAfter (Hook.socketInputs inputs) (UseWebSocket.isConnected (Hook.refs st)).
Proof.
  intros Hle Hwf r. subst r.
  destruct (hook_run_timers options inputs st Hle Hwf) as (Ha & Hw & Hb & Hc & Hd).
  assert (Hmono : Hook.cleared st <= Hook.cleared (snd (Hook.run options inputs st))).
  { clear. revert st. induction inputs as [| i rest IH]; intros st; [cbn; lia |].
    rewrite hook_run_cons. cbn [snd].
    specialize (IH (snd (Hook.step options i st))).
    enough (Hook.cleared st <= Hook.cleared (snd (Hook.step options i st))) by lia.
    clear. destruct st as [[conn lastm ws attempts pending] lastp cl].
    destruct i as [[created | | parsed | | | created] | message | created |];
      unfold Hook.step, Hook.cleanup, Hook.clearTimeout;
      cbn [Hook.refs Hook.lastTimerPending Hook.cleared];
      repeat match goal with
      | |- context [let (_, _) := ?x in _] => destruct x
      end;
      try destruct lastp; cbn; lia. }
  repeat split; try assumption. lia.
Qed.

(** A socket closes, a render with a new [options] object clears the timer
    that was just set, and the timer never fires. *)
Lemma hook_invariants_across_renders_witness :
  let r := Hook.run None
             [Hook.Socket (UseWebSocket.Mount true); Hook.Socket UseWebSocket.Closes;
              Hook.Rerender true; Hook.Socket (UseWebSocket.TimerFires true)]
             Hook.initial in
  UseWebSocket.pendingTimers (Hook.refs (snd r)) + UseWebSocket.reconnections (fst r)
  + Hook.cleared (snd r)
  = 0 + UseWebSocket.scheduled (fst r) + 0 /\
  UseWebSocket.reconnections (fst r) = 0 /\
  Hook.cleared (snd r) = 1.
Proof.
  cbv zeta. split; [| vm_compute; split; reflexivity].
  apply (hook_invariants_across_renders None
           [Hook.Socket (UseWebSocket.Mount true); Hook.Socket UseWebSocket.Closes;
            Hook.Rerender true; Hook.Socket (UseWebSocket.TimerFires true)]
           Hook.initial).
  - vm_compute. lia.
  - intros H. vm_compute in H. discriminate.
Defined.

(** X12. Messages. The caller's [onMessage] is called with exactly the
    messages that parse, in order of arrival (and with nothing when no
    callback was given), across renders and reconnections; [lastMessage] is
    the last message that parsed. The line "Failed to parse WebSocket
    message:" is logged once for each message that does not parse, which
    changes nothing else, and once for each message on which the caller's
    [onMessage] throws, although that message parsed, was stored in
    [lastMessage] and was handed to the callback. *)
Theorem messages_reach_the_handler_in_order options inputs st :
  let r := Hook.run options inputs st in
  let messages := parsedMessages (Hook.socketInputs inputs) in
  let callback := UseWebSocket.has options UseWebSocket.onMessage in
  delivered (fst r) = (if callback then messages else []) /\
  parseErrors (fst r)
  = malformed (Hook.socketInputs inputs) + (if callback then Hook.thrown inputs else 0) /\
  UseWebSocket.lastMessage (Hook.refs (snd r))
  = List.last (map Some messages) (UseWebSocket.lastMessage (Hook.refs st)) /\
  Hook.step options (Hook.Socket (UseWebSocket.Message None)) st
  = ([UseWebSocket.LogError [Str "Failed to parse WebSocket message:"]], st) /\
  (forall message,
     callback = true ->
     fst (Hook.step options (Hook.HandlerThrows message) st)
     = [UseWebSocket.CallOnMessage message;
        UseWebSocket.LogError [Str "Failed to parse WebSocket message:"]] /\
     UseWebSocket.lastMessage (Hook.refs (snd (Hook.step options (Hook.HandlerThrows message) st)))
     = Some message).
Proof.
  cbv zeta.
  destruct (hook_run_messages options inputs st) as (He & Hf & Hg).
  split; [exact Hf |]. split; [exact Hg |]. split; [exact He |].
  split.
  - destruct st as [[conn lastm ws attempts pending] lastp cl]. reflexivity.
  - intros message Hcallback.
    unfold Hook.step, UseWebSocket.onmessage, UseWebSocket.when.
    rewrite Hcallback. split; reflexivity.
Qed.

(** ** The message handler of the realtime provider *)

Lemma slice_last_app_one {A : Type} (n : nat) (xs : list A) (x : A) :
  RealtimeContext.slice_last (S n) (xs ++ [x]) = RealtimeContext.slice_last n xs ++ [x].
Proof.
  unfold RealtimeContext.slice_last. rewrite length_app. cbn [List.length].
  replace (List.length xs + 1 - S n) with (List.length xs - n) by lia.
  rewrite skipn_app.
  replace (List.length xs - n - List.length xs) with 0 by lia.
  reflexivity.
Qed.

Lemma slice_last_slice_last {A : Type} (n m : nat) (xs : list A) :
  n <= m ->
  RealtimeContext.slice_last n (RealtimeContext.slice_last m xs)
  = RealtimeContext.slice_last n xs.
Proof.
  intros Hnm. unfold RealtimeContext.slice_last.
  rewrite skipn_skipn, length_skipn. f_equal. lia.
Qed.

Lemma slice_last_length {A : Type} (n : nat) (xs : list A) :
  List.length (RealtimeContext.slice_last n xs) = Nat.min n (List.length xs).
Proof. unfold RealtimeContext.slice_last. rewrite length_skipn. lia. Qed.

Lemma slice_last_all {A : Type} (n : nat) (xs : list A) :
  List.length xs <= n -> RealtimeContext.slice_last n xs = xs.
Proof.
  intros H. unfold RealtimeContext.slice_last.
  replace (List.length xs - n) with 0 by lia. reflexivity.
Qed.

(** The buffers, given the history [hp], [hl] whose tails they hold. *)
Lemma handleAll_buffers {P L : Type}
    (messages : list (JS.number * RealtimeContext.WSMessage P L))
    (st : RealtimeContext.RealtimeState P L) (hp : list P) (hl : list L) :
  RealtimeContext.positionUpdates st = RealtimeContext.slice_last 11 hp ->
  RealtimeContext.poolUpdates st = RealtimeContext.slice_last 11 hl ->
  RealtimeContext.positionUpdates (RealtimeContext.handleAll messages st)
  = RealtimeContext.slice_last 11 (hp ++ RealtimeContext.positionPayloads messages) /\
  RealtimeContext.poolUpdates (RealtimeContext.handleAll messages st)
  = RealtimeContext.slice_last 11 (hl ++ RealtimeContext.poolPayloads messages).
Proof.
  revert st hp hl. induction messages as [| [now message] rest IH]; intros st hp hl Hp Hl.
  - cbn. rewrite !app_nil_r. split; assumption.
  - cbn [RealtimeContext.handleAll].
    destruct message as [data | data | data | | type];
      cbn [RealtimeContext.handleMessage snd RealtimeContext.positionPayloads
           RealtimeContext.poolPayloads].
    + replace (hp ++ data :: RealtimeContext.positionPayloads rest)
        with ((hp ++ [data]) ++ RealtimeContext.positionPayloads rest)
        by (rewrite <- app_assoc; reflexivity).
      apply IH; cbn [RealtimeContext.positionUpdates RealtimeContext.poolUpdates];
        [| exact Hl].
      rewrite Hp, slice_last_slice_last by lia. symmetry. apply slice_last_app_one.
    + replace (hl ++ data :: RealtimeContext.poolPayloads rest)
        with ((hl ++ [data]) ++ RealtimeContext.poolPayloads rest)
        by (rewrite <- app_assoc; reflexivity).
      apply IH; cbn [RealtimeContext.positionUpdates RealtimeContext.poolUpdates];
        [exact Hp |].
      rewrite Hl, slice_last_slice_last by lia. symmetry. apply slice_last_app_one.
    + apply IH; assumption.
    + apply IH; assumption.
    + apply IH; assumption.
Qed.

(** X13. The provider keeps the last eleven payloads of each kind, in
    order of arrival: after any session the position buffer is the last
    eleven position payloads received and the pool buffer the last eleven
    pool payloads (ten kept by [slice(-10)] plus the new one), so neither ever
    grows past eleven entries; messages of other types leave them alone. *)
Theorem buffers_keep_last_eleven {P L : Type}
    (messages : list (JS.number * RealtimeContext.WSMessage P L)) :
  let st := RealtimeContext.handleAll messages RealtimeContext.initial in
  RealtimeContext.positionUpdates st
  = RealtimeContext.slice_last 11 (RealtimeContext.positionPayloads messages) /\
  RealtimeContext.poolUpdates st
  = RealtimeContext.slice_last 11 (RealtimeContext.poolPayloads messages) /\
  List.length (RealtimeContext.positionUpdates st) <= 11 /\
  List.length (RealtimeContext.poolUpdates st) <= 11.
Proof.
  cbv zeta.
  destruct (handleAll_buffers messages RealtimeContext.initial [] [] eq_refl eq_refl)
    as [Hp Hl].
  cbn [app] in Hp, Hl. rewrite Hp, Hl, !slice_last_length.
  repeat split; lia.
Qed.

Lemma map_get_set {V : Type} (k s : string) (v : V) (m : list (string * V)) :
  RealtimeContext.map_get s (RealtimeContext.map_set k v m)
  = if String.eqb k s then Some v else RealtimeContext.map_get s m.
Proof.
  induction m as [| [k' v'] rest IH]; cbn.
  - destruct (String.eqb k s); reflexivity.
  - destruct (String.eqb_spec k' k) as [-> | Hne]; cbn.
    + destruct (String.eqb k s); reflexivity.
    + rewrite IH. destruct (String.eqb_spec k' s) as [-> | Hs]; [| reflexivity].
      destruct (String.eqb_spec k s) as [-> | _]; [contradiction | reflexivity].
Qed.

Lemma map_set_keys {V : Type} (k : string) (v : V) (m : list (string * V)) :
  map fst (RealtimeContext.map_set k v m)
  = if existsb (fun k' => String.eqb k' k) (map fst m) then map fst m
    else map fst m ++ [k].
Proof.
  induction m as [| [k' v'] rest IH]; cbn; [reflexivity |].
  destruct (String.eqb k' k); cbn; [reflexivity |].
  rewrite IH. destruct (existsb _ _); reflexivity.
Qed.

Lemma map_set_NoDup {V : Type} (k : string) (v : V) (m : list (string * V)) :
  NoDup (map fst m) -> NoDup (map fst (RealtimeContext.map_set k v m)).
Proof.
  intros H. rewrite map_set_keys.
  destruct (existsb _ _) eqn:E; [exact H |].
  apply NoDup_app; [exact H | repeat constructor; intros [] |].
  intros a Ha [<- | []].
  assert (existsb (fun k' => String.eqb k' k) (map fst m) = true)
    by (apply existsb_exists; exists k; split; [exact Ha | apply String.eqb_refl]).
  congruence.
Qed.

(** X14. The price table is last-write-wins per symbol: after any session,
    the entry for a symbol is the last price message for that symbol,
    stamped with the time it arrived (or the entry it had before, when no
    such message came); the table never holds two entries for one symbol. *)
Theorem price_table_holds_latest {P L : Type}
    (messages : list (JS.number * RealtimeContext.WSMessage P L))
    (st : RealtimeContext.RealtimeState P L) :
  (forall s,
     RealtimeContext.map_get s
       (RealtimeContext.priceUpdates (RealtimeContext.handleAll messages st))
     = RealtimeContext.lastPrice s messages
         (RealtimeContext.map_get s (RealtimeContext.priceUpdates st))) /\
  (NoDup (map fst (RealtimeContext.priceUpdates st)) ->
   NoDup (map fst (RealtimeContext.priceUpdates (RealtimeContext.handleAll messages st)))).
Proof.
  revert st. induction messages as [| [now message] rest IH]; intros st.
  - split; [reflexivity | trivial].
  - cbn [RealtimeContext.handleAll RealtimeContext.lastPrice].
    destruct message as [data | data | data | | type];
      cbn [RealtimeContext.handleMessage snd]; try exact (IH _).
    destruct (IH (RealtimeContext.mkState (RealtimeContext.positionUpdates st)
                    (RealtimeContext.poolUpdates st)
                    (RealtimeContext.map_set (RealtimeContext.symbol data)
                       (RealtimeContext.mkPriceUpdate (RealtimeContext.symbol data)
                          (RealtimeContext.price data) now)
                       (RealtimeContext.priceUpdates st))
                    (RealtimeContext.lastPositionUpdate st)
                    (RealtimeContext.lastPoolUpdate st))) as [Hget Hnd].
    cbn [RealtimeContext.priceUpdates] in Hget, Hnd. split.
    + intros s. rewrite Hget, map_get_set. reflexivity.
    + intros H. apply Hnd, map_set_NoDup, H.
Qed.

(** ** The staking-yield cache *)

Lemma getAllStakingAPY_call {D : Type} (success : D -> bool) (now : Z)
    (answer : StakingService.Answer D) (c : StakingService.Cache D) :
  let r := StakingService.getAllStakingAPY success now answer c in
  let value := snd (fst r) in
  let c' := snd r in
  value = StakingService.stakingCache c' /\
  StakingService.requests r = (if servedFromCache now c then 0 else 1) /\
  (c' = c \/
   exists d, answer = StakingService.Json d /\ success d = true /\
             servedFromCache now c = false /\
             c' = StakingService.mkCache (Some d) now /\ value = Some d) /\
  (StakingService.stakingCache c <> None -> value <> None).
Proof.
  cbv zeta. unfold StakingService.getAllStakingAPY, servedFromCache,
    StakingService.requests.
  destruct c as [[d0 |] ts]; cbn [StakingService.stakingCache StakingService.cacheTimestamp].
  - destruct (now - ts <? StakingService.CACHE_DURATION)%Z.
    + cbn. repeat split; auto; discriminate.
    + destruct answer as [e | | e | d]; try destruct (success d) eqn:Hs; cbn;
        repeat split; auto; try discriminate;
        right; exists d; repeat split; auto.
  - destruct answer as [e | | e | d]; try destruct (success d) eqn:Hs; cbn;
      repeat split; auto; try congruence;
      right; exists d; repeat split; auto.
Qed.

(** X15. One call of [getAllStakingAPY]: it makes no request when the
    cache is younger than five minutes and exactly one otherwise; what it
    returns is what the cache holds when it returns; and the cache changes
    only when the request is answered with [success], to that answer stamped
    with the time of the call. *)
Theorem staking_call_returns_the_cache {D : Type} (success : D -> bool) (now : Z)
    (answer : StakingService.Answer D) (c : StakingService.Cache D) :
  let r := StakingService.getAllStakingAPY success now answer c in
  snd (fst r) = StakingService.stakingCache (snd r) /\
  StakingService.requests r = (if servedFromCache now c then 0 else 1) /\
  (snd r <> c ->
   exists d, answer = StakingService.Json d /\ success d = true /\
             snd r = StakingService.mkCache (Some d) now).
Proof.
  cbv zeta.
  destruct (getAllStakingAPY_call success now answer c)
    as (Hv & Hr & [Hsame | (d & Ha & Hs & _ & Hc & _)] & _).
  - repeat split; try assumption. intros Hne. contradiction.
  - repeat split; try assumption. intros _. exists d. auto.
Qed.

Lemma calls_cons {D : Type} (success : D -> bool) now answer
    (rest : list (Z * StakingService.Answer D)) (c : StakingService.Cache D) :
  StakingService.calls success ((now, answer) :: rest) c
  = (snd (fst (StakingService.getAllStakingAPY success now answer c))
       :: fst (StakingService.calls success rest
                 (snd (StakingService.getAllStakingAPY success now answer c))),
     snd (StakingService.calls success rest
            (snd (StakingService.getAllStakingAPY success now answer c)))).
Proof.
  cbn [StakingService.calls].
  destruct (StakingService.getAllStakingAPY success now answer c) as [[evs r] c'].
  cbn [fst snd].
  destruct (StakingService.calls success rest c') as [rs c'']. reflexivity.
Qed.

Lemma calls_keep_data {D : Type} (success : D -> bool)
    (cs : list (Z * StakingService.Answer D)) (c : StakingService.Cache D) :
  StakingService.stakingCache c <> None ->
  Forall (fun r => r <> None) (fst (StakingService.calls success cs c)) /\
  StakingService.stakingCache (snd (StakingService.calls success cs c)) <> None.
Proof.
  revert c. induction cs as [| [now answer] rest IH]; intros c Hc.
  - split; [constructor | exact Hc].
  - rewrite calls_cons. cbn [fst snd].
    destruct (getAllStakingAPY_call success now answer c) as (Hv & _ & _ & Hsome).
    specialize (Hsome Hc).
    destruct (IH (snd (StakingService.getAllStakingAPY success now answer c)))
      as [Hall Hend]; [rewrite <- Hv; exact Hsome |].
    split; [constructor; assumption | exact Hend].
Qed.

Lemma calls_app {D : Type} (success : D -> bool)
    (xs ys : list (Z * StakingService.Answer D)) (c : StakingService.Cache D) :
  StakingService.calls success (xs ++ ys) c
  = (fst (StakingService.calls success xs c)
     ++ fst (StakingService.calls success ys (snd (StakingService.calls success xs c))),
     snd (StakingService.calls success ys (snd (StakingService.calls success xs c)))).
Proof.
  revert c. induction xs as [| [now answer] rest IH]; intros c.
  - cbn. destruct (StakingService.calls success ys c); reflexivity.
  - cbn [app]. rewrite !calls_cons, IH. reflexivity.
Qed.

(** X16. Data is never lost. In any sequence of calls, starting from any
    cache, once a call has returned data no later call returns [null],
    whatever the later requests run into. *)
Theorem staking_data_is_never_lost {D : Type} (success : D -> bool)
    (before after : list (Z * StakingService.Answer D)) (now : Z)
    (answer : StakingService.Answer D) (c : StakingService.Cache D) :
  let cs := before ++ (now, answer) :: after in
  let results := fst (StakingService.calls success cs c) in
  nth (List.length before) results None <> None ->
  forall j, List.length before <= j < List.length cs -> nth j results None <> None.
Proof.
  cbv zeta. rewrite calls_app, calls_cons. cbn [fst snd].
  set (c1 := snd (StakingService.calls success before c)).
  set (rs := fst (StakingService.calls success before c)).
  assert (Hlen : List.length rs = List.length before).
  { subst rs. clear. revert c. induction before as [| [n a] rest IH]; intros c;
      [reflexivity |].
    rewrite calls_cons. cbn. rewrite IH. reflexivity. }
  rewrite app_nth2, Hlen, Nat.sub_diag by lia. cbn [nth].
  intros Hdata j Hj.
  rewrite app_nth2 by lia. rewrite Hlen.
  destruct (j - List.length before) as [| k] eqn:Hk; cbn [nth]; [exact Hdata |].
  destruct (getAllStakingAPY_call success now answer c1) as (Hv & _ & _ & _).
  rewrite Hv in Hdata.
  destruct (calls_keep_data success after _ Hdata) as [Hall _].
  rewrite Forall_forall in Hall. apply Hall. apply nth_In.
  assert (Hl : forall xs (c0 : StakingService.Cache D),
             List.length (fst (StakingService.calls success xs c0)) = List.length xs).
  { clear. induction xs as [| [n a] rest IH]; intros c0; [reflexivity |].
    rewrite calls_cons. cbn. rewrite IH. reflexivity. }
  rewrite Hl. rewrite length_app in Hj. cbn [List.length] in Hj. lia.
Qed.

Lemma staking_data_is_never_lost_witness :
  nth 2 (fst (StakingService.calls (fun d : string => true)
                ([(0%Z, StakingService.NotOk)]
                 ++ (1000%Z, StakingService.Json "apy")
                 :: [(900000%Z, StakingService.FetchRejects (Error "down"))])
                StakingService.empty)) None
  <> None.
Proof.
  apply (staking_data_is_never_lost (fun d : string => true)
           [(0%Z, StakingService.NotOk)]
           [(900000%Z, StakingService.FetchRejects (Error "down"))]
           1000%Z (StakingService.Json "apy") StakingService.empty).
  - vm_compute. discriminate.
  - vm_compute. lia.
Defined.

(** *** Calls that overlap *)

(** A call whose request is answered before anything else happens is
    [StakingService.getAllStakingAPY]. *)
Lemma staking_stretches_same {D : Type} (success : D -> bool) (now : Z)
    (answer : StakingService.Answer D) (c : StakingService.Cache D) :
  StakingService.getAllStakingAPY success now answer c
  = match StakingCalls.getAllStakingAPY_begin now c with
    | (evs, Some value) => (evs, value, c)
    | (evs, None) =>
        let '(evs', value, c') := StakingCalls.getAllStakingAPY_resume success now answer c in
        (evs ++ evs', value, c')
    end.
Proof.
  unfold StakingService.getAllStakingAPY, StakingCalls.getAllStakingAPY_begin,
         StakingCalls.getAllStakingAPY_resume.
  destruct (StakingService.stakingCache c) as [d |];
    [destruct (_ <? _)%Z; [reflexivity |] |];
    destruct answer as [e | | e | d']; try destruct (success d'); reflexivity.
Qed.

Lemma staking_quiet_window {D : Type} (success : D -> bool)
    (c : StakingService.Cache D) (d : D) (steps : list (StakingCalls.Step D)) :
  StakingService.stakingCache c = Some d ->
  Forall (fun now => (now - StakingService.cacheTimestamp c < StakingService.CACHE_DURATION)%Z)
         (StakingCalls.callTimes steps) ->
  StakingCalls.run success steps (StakingCalls.mkSystem c [])
  = ([], repeat (Some d) (List.length (StakingCalls.callTimes steps)),
     StakingCalls.mkSystem c []).
Proof.
  intros Hd. induction steps as [| [now answer | k] rest IH]; intros Hall.
  - reflexivity.
  - cbn [StakingCalls.callTimes] in Hall. inversion Hall as [| ? ? Hnow Hrest]; subst.
    cbn [StakingCalls.run StakingCalls.step StakingCalls.cache].
    unfold StakingCalls.getAllStakingAPY_begin. rewrite Hd.
    apply Z.ltb_lt in Hnow. rewrite Hnow. rewrite (IH Hrest). reflexivity.
  - cbn [StakingCalls.callTimes] in Hall.
    cbn [StakingCalls.run StakingCalls.step StakingCalls.inFlight].
    replace (nth_error (@nil (StakingCalls.InFlight D)) k) with (@None (StakingCalls.InFlight D))
      by (destruct k; reflexivity).
    rewrite (IH Hall). reflexivity.
Qed.



(** ** Unmounting the socket client *)


